(** * TodoEvolve: the tool-calling chat loop

    A shallow embedding of the conversational core of the backend
    ([app/ai/engine.py], [app/ai/mcp_server.py], [app/skills.py],
    [app/routes/chat.py], [app/models.py]) and the properties of it that
    the design document states, followed by further properties that the
    code itself shows: of the gateway, of each tool, of the skills, of the
    conversation loop and of the two history endpoints.

    Conventions.
    - A Python [str] is a [string]: the UTF-8 bytes of the text.  Substring
      tests and splitting on ASCII separators agree on bytes and on code
      points because UTF-8 is self-synchronising.
    - JSON numbers are integers ([Z]); documents with fractional numbers are
      outside the model.
    - Library and network behaviour the repository does not define
      (the JSON decoder, [int] on a text, the integer SQLite reads a text
      as, the model providers, the weather service, the clock) is a field
      of [Env]; every theorem holds for every [Env]. *)

From Stdlib Require Import String Ascii List ZArith Lia Bool Arith DecimalString.
Import ListNotations.
Local Open Scope list_scope.
Local Open Scope string_scope.

(* ================================================================== *)
(** * Text: the [str] operations the code uses *)
(* ================================================================== *)

Module Text.

Definition bytes (l : list nat) : string :=
  string_of_list_ascii (map ascii_of_nat l).

Fixpoint take (n : nat) (s : string) : string :=
  match n, s with
  | S k, String c s' => String c (take k s')
  | _, _ => EmptyString
  end.

Fixpoint drop (n : nat) (s : string) : string :=
  match n, s with
  | S k, String _ s' => drop k s'
  | _, _ => s
  end.

(** [s.startswith(p)] *)
Fixpoint starts_with (p s : string) : bool :=
  match p, s with
  | EmptyString, _ => true
  | String a p', String b s' => Ascii.eqb a b && starts_with p' s'
  | String _ _, EmptyString => false
  end.

(** [needle in s] *)
Fixpoint contains (needle s : string) : bool :=
  starts_with needle s ||
  match s with
  | EmptyString => false
  | String _ s' => contains needle s'
  end.

(** [s.find(sep)], [None] for -1 *)
Fixpoint find (sep s : string) : option nat :=
  if starts_with sep s then Some 0
  else match s with
       | EmptyString => None
       | String _ s' => option_map S (find sep s')
       end.

(** Index of the last occurrence of a character. *)
Fixpoint rfind_char (c : ascii) (s : string) : option nat :=
  match s with
  | EmptyString => None
  | String a s' =>
      match rfind_char c s' with
      | Some j => Some (S j)
      | None => if Ascii.eqb a c then Some 0 else None
      end
  end.

(** [s.split(sep)] for a non-empty separator: left to right, occurrences
    do not overlap.  [skip] counts the separator characters still to be
    passed over after a match, [acc] is the piece being collected. *)
Fixpoint split_go (sep : string) (skip : nat) (acc s : string) : list string :=
  match s with
  | EmptyString => [acc]
  | String c s' =>
      match skip with
      | S k => split_go sep k acc s'
      | O =>
          if starts_with sep s
          then acc :: split_go sep (String.length sep - 1) EmptyString s'
          else split_go sep 0 (acc ++ String c EmptyString) s'
      end
  end.

Definition split (sep s : string) : list string :=
  split_go sep 0 EmptyString s.

(** [sep.join(parts)] *)
Fixpoint join (sep : string) (parts : list string) : string :=
  match parts with
  | [] => EmptyString
  | [p] => p
  | p :: rest => p ++ sep ++ join sep rest
  end.

(** The characters [str.isspace] accepts, as UTF-8: the ASCII controls
    9-13 and 28-31, the space, U+0085, U+00A0, U+1680, U+2000-U+200A,
    U+2028, U+2029, U+202F, U+205F and U+3000. *)
Definition py_whitespace : list string :=
  map bytes
    [ [9]; [10]; [11]; [12]; [13]; [28]; [29]; [30]; [31]; [32];
      [194; 133]; [194; 160]; [225; 154; 128];
      [226; 128; 128]; [226; 128; 129]; [226; 128; 130]; [226; 128; 131];
      [226; 128; 132]; [226; 128; 133]; [226; 128; 134]; [226; 128; 135];
      [226; 128; 136]; [226; 128; 137]; [226; 128; 138];
      [226; 128; 168]; [226; 128; 169]; [226; 128; 175];
      [226; 129; 159]; [227; 128; 128] ]%list.

Fixpoint drop_first_of (toks : list string) (s : string) : option string :=
  match toks with
  | [] => None
  | t :: ts =>
      if starts_with t s then Some (drop (String.length t) s)
      else drop_first_of ts s
  end.

Fixpoint lstrip_fuel (fuel : nat) (s : string) : string :=
  match fuel with
  | O => s
  | S f =>
      match drop_first_of py_whitespace s with
      | Some s' => lstrip_fuel f s'
      | None => s
      end
  end.

(** [s.lstrip()] *)
Definition lstrip (s : string) : string := lstrip_fuel (String.length s) s.

Definition all_space (s : string) : bool :=
  match lstrip s with EmptyString => true | _ => false end.

(** [s.rstrip()]: the shortest prefix whose remainder is white space. *)
Fixpoint rstrip (s : string) : string :=
  match s with
  | EmptyString => EmptyString
  | String c s' => if all_space s then EmptyString else String c (rstrip s')
  end.

(** [s.strip()] *)
Definition strip (s : string) : string := rstrip (lstrip s).

Definition lower_char (c : ascii) : ascii :=
  let n := nat_of_ascii c in
  if ((65 <=? n) && (n <=? 90))%nat then ascii_of_nat (n + 32) else c.

(** [s.lower()] on the ASCII letters; the needles the code looks for in a
    lowered text are ASCII or caseless. *)
Fixpoint lower (s : string) : string :=
  match s with
  | EmptyString => EmptyString
  | String c s' => String (lower_char c) (lower s')
  end.

(** [re.search(r'(\{.*\})', s, re.DOTALL)]: the leftmost opening brace
    that has a closing brace after it, up to the last closing brace. *)
Definition search_braces (s : string) : option string :=
  match find "{" s with
  | None => None
  | Some i =>
      let from := drop i s in
      match rfind_char "}"%char from with
      | Some j => Some (take (S j) from)
      | None => None
      end
  end.

Definition nl : string := String (ascii_of_nat 10) EmptyString.
Definition dq : string := String (ascii_of_nat 34) EmptyString.

(** [str(n)] for an [int] *)
Definition of_Z (z : Z) : string := NilZero.string_of_int (Z.to_int z).
Definition of_nat (n : nat) : string := of_Z (Z.of_nat n).

(** [b] occurs in [t] as a contiguous piece. *)
Definition substring_of (b t : string) : Prop :=
  exists pre post, t = pre ++ b ++ post.

End Text.

Example split_overlap :
  Text.split "```json" "x````json" = ["x`"; ""]%list.
Proof. reflexivity. Qed.

(* ================================================================== *)
(** * Values: what [json.loads] returns and what the handlers pass around *)
(* ================================================================== *)

#[local] Set Warnings "-register-all".

Inductive json : Type :=
| JNull                                  (* None *)
| JBool (b : bool)
| JNum (n : Z)
| JStr (s : string)
| JList (items : list json)
| JDict (fields : list (string * json)). (* keys in insertion order, distinct *)

Module Py.

(** [bool(v)] *)
Definition truthy (v : json) : bool :=
  match v with
  | JNull => false
  | JBool b => b
  | JNum n => negb (n =? 0)%Z
  | JStr s => negb (s =? "")
  | JList l => match l with [] => false | _ => true end
  | JDict l => match l with [] => false | _ => true end
  end.

(** [type(v).__name__] *)
Definition type_name (v : json) : string :=
  match v with
  | JNull => "NoneType"
  | JBool _ => "bool"
  | JNum _ => "int"
  | JStr _ => "str"
  | JList _ => "list"
  | JDict _ => "dict"
  end.

(** [str(type(v))] *)
Definition type_str (v : json) : string :=
  "<class '" ++ type_name v ++ "'>".

Definition hex_digit (n : nat) : ascii :=
  ascii_of_nat (if (n <? 10)%nat then 48 + n else 87 + n).

(** One character of [repr(s)] with the quote [q] chosen; bytes of
    non-ASCII characters are kept as they are. *)
Definition repr_char (q c : ascii) : string :=
  let n := nat_of_ascii c in
  if Ascii.eqb c "\"%char then "\\"
  else if Ascii.eqb c q then String "\"%char (String q EmptyString)
  else if (n =? 9)%nat then "\t"
  else if (n =? 10)%nat then "\n"
  else if (n =? 13)%nat then "\r"
  else if ((n <? 32) || (n =? 127))%nat
       then "\x" ++ String (hex_digit (n / 16)) (String (hex_digit (n mod 16)) EmptyString)
  else String c EmptyString.

Fixpoint repr_chars (q : ascii) (s : string) : string :=
  match s with
  | EmptyString => EmptyString
  | String c s' => repr_char q c ++ repr_chars q s'
  end.

(** [repr(s)] for a [str]: double quotes when the text has a single quote
    and no double quote, single quotes otherwise. *)
Definition repr_str (s : string) : string :=
  let q := if Text.contains "'" s && negb (Text.contains (String (ascii_of_nat 34) EmptyString) s)
           then ascii_of_nat 34 else "'"%char in
  String q (repr_chars q s ++ String q EmptyString).

(** [repr(v)] *)
Fixpoint repr (v : json) : string :=
  match v with
  | JNull => "None"
  | JBool true => "True"
  | JBool false => "False"
  | JNum n => Text.of_Z n
  | JStr s => repr_str s
  | JList l => "[" ++ Text.join ", " (map repr l) ++ "]"
  | JDict l =>
      "{" ++ Text.join ", " (map (fun '(k, x) => repr_str k ++ ": " ++ repr x) l) ++ "}"
  end.

(** [str(v)], what an f-string puts in a hole *)
Definition str (v : json) : string :=
  match v with
  | JStr s => s
  | _ => repr v
  end.

Fixpoint lookup (k : string) (l : list (string * json)) : option json :=
  match l with
  | [] => None
  | (k', v) :: rest => if k' =? k then Some v else lookup k rest
  end.

End Py.

(** ** Exceptions *)

Inductive exn_class : Type :=
| JSONDecodeError | AttributeError | TypeError | ValueError | IndexError
| RecursionError
| DatabaseError     (* sqlalchemy.exc: constraint and bind failures *)
| HTTPException
| PlainException.   (* [Exception(...)], provider and network failures *)

Record exn : Type := mkExn { exn_class_of : exn_class; exn_str : string }.

Inductive outcome (A : Type) : Type :=
| Return (a : A)
| Raise (e : exn).
Arguments Return {A} a.
Arguments Raise {A} e.

Module Err.

(** [v.attr] on a value that has no such attribute *)
Definition no_attribute (v : json) (attr : string) : exn :=
  mkExn AttributeError
    ("'" ++ Py.type_name v ++ "' object has no attribute '" ++ attr ++ "'").

Definition is_http (e : exn) : bool :=
  match exn_class_of e with HTTPException => true | _ => false end.

(** [hash(v)] on a list or a dictionary *)
Definition unhashable (v : json) : exn :=
  mkExn TypeError ("unhashable type: '" ++ Py.type_name v ++ "'").

(** [int(v)] on a list or a dictionary *)
Definition no_int (v : json) : exn :=
  mkExn TypeError
    ("int() argument must be a string, a bytes-like object or a real number, not '"
       ++ Py.type_name v ++ "'").

End Err.

(** Why [json.loads] raises: the text is no JSON document, or it is one
    that the decoder gives up on.  Only the first is a
    [json.JSONDecodeError]. *)
Inductive loads_failure : Type :=
| Malformed (error : string)   (* json.JSONDecodeError *)
| TooDeep (error : string)     (* RecursionError: nested deeper than the interpreter's stack *)
| TooLong (error : string).    (* ValueError: an integer of more digits than [int] converts *)

(** The exception [json.loads] raises. *)
Definition loads_error (f : loads_failure) : exn :=
  match f with
  | Malformed error => mkExn JSONDecodeError error
  | TooDeep error => mkExn RecursionError error
  | TooLong error => mkExn ValueError error
  end.

(** [d.get(key, default)]; raises on a value that is not a [dict]. *)
Definition py_get (d : json) (key : string) (default : json) : outcome json :=
  match d with
  | JDict l => Return (match Py.lookup key l with Some v => v | None => default end)
  | _ => Raise (Err.no_attribute d "get")
  end.

(* ================================================================== *)
(** * The outside world *)
(* ================================================================== *)

(** A chat message as the providers receive it:
    [{"role": ..., "content": ...}].  The content is a text everywhere but
    in the day planner, which passes the model's [request] argument on
    as it came. *)
Record message : Type := mkMessage { role : string; content : json }.

Inductive api_outcome : Type :=
| ApiOk (text : string)      (* the completion *)
| ApiFail (error : string).  (* an exception, with its [str(e)] *)

(** What the geocode-then-forecast lookup of [get_weather] can come to. *)
Inductive weather_outcome : Type :=
| WeatherFail (error : string)                       (* any exception in the block *)
| WeatherNoCity                                      (* no ["results"] *)
| WeatherOk (city_name temp unit : string) (temp_value : json) (code : Z).

(** What a run leaves behind, in order: the requests it sent, the pauses
    it made, and three of its log lines. *)
Inductive event : Type :=
| OpenRouterCall (model : string) (messages : list message)
| GeminiCall (prompt : string)
| WeatherCall (city : string)
| Sleep (seconds : nat)
| AttemptFailed (provider_name : string) (attempt : nat) (error : string)
    (* engine.py, line 129: "{provider_name} attempt {attempt+1} failed: {e}" *)
| TurnStarted (turn_count : nat)
    (* chat.py, line 138: "Turn {turn_count}: Sending request to AI..." *)
| ToolExecuting (tool_name : json).
    (* chat.py, line 165: "Executing Tool: {tool_name}" *)

(** Library, configuration and network behaviour.  The [nat] argument of
    a provider is the number of events before the request: a provider may
    answer the same request differently each time. *)
Class Env : Type := {
  json_loads : string -> json + loads_failure;
                                          (* [json.loads(s)]: the value, or why it raises *)
  json_dumps : json -> string;            (* [json.dumps(v, default=str)] *)
  py_int : string -> Z + string;          (* [int(s)] for a [str]: the number, or the text
                                             of the ValueError *)
  sqlite_integer : string -> option Z;    (* the integer SQLite compares a text as against
                                             an INTEGER column, if it reads as one *)
  openrouter_client : bool;               (* [settings.open_router_key] is set *)
  gemini_model : bool;                    (* [settings.gemini_api_key] is set *)
  openrouter_create : nat -> string -> list message -> api_outcome;
  gemini_generate : nat -> string -> api_outcome;
  weather_lookup : nat -> string -> weather_outcome;
  now_plus_days : nat -> string;          (* [(datetime.now() + timedelta(days=n)).isoformat()] *)
  system_instruction : string -> string -> string;
                                          (* [SYSTEM_PROMPT_TEMPLATE.format(...)] for a user id and a language *)
  constraint_error : string               (* the driver's text for a violated constraint *)
}.

(* ================================================================== *)
(** * The tables ([app/models.py]) and the session *)
(* ================================================================== *)

(** The database is the one [app/config.py] configures by default, SQLite:
    a text column takes a [str], an [int] or a [bool] and keeps it as text,
    a boolean column takes a [bool] or the integers 0 and 1, and a key that
    a query compares with the [id] column is an integer, or a text, which
    is compared as the integer it reads as and matches no row when it
    reads as none.  A value of another type makes the statement fail. *)
Module Task.

(** A row of [tasks]: a Task as [session.get], a query or
    [session.refresh] loads it. *)
Record t : Type := mk {
  id : Z;
  user_id : string;
  title : string;
  description : string;
  completed : bool;
  priority : string;
  tags : json
}.

(** A Task as its constructor builds it from the model's arguments,
    [Task(title=..., description=..., priority=..., tags=..., user_id=...)]:
    no validation happens before the INSERT. *)
Record draft : Type := mkDraft {
  d_user_id : string;
  d_title : json;
  d_description : json;
  d_priority : json;
  d_tags : json
}.

(** [task.model_dump()]; the recurrence, due-date and timestamp columns
    play no part in the tool loop and are left out. *)
Definition model_dump (x : t) : json :=
  JDict [ ("id", JNum (id x));
          ("user_id", JStr (user_id x));
          ("title", JStr (title x));
          ("description", JStr (description x));
          ("completed", JBool (completed x));
          ("priority", JStr (priority x));
          ("tags", tags x) ]%list.

Definition has_id (i : Z) (x : t) : bool := (id x =? i)%Z.

Definition owned_by (u : string) (x : t) : bool := user_id x =? u.

(** What a NOT NULL text column stores for a bound value. *)
Definition as_text (v : json) : option string :=
  match v with
  | JStr s => Some s
  | JNum n => Some (Text.of_Z n)
  | JBool true => Some "1"
  | JBool false => Some "0"
  | JNull | JList _ | JDict _ => None
  end.

(** What the NOT NULL boolean column stores for a bound value. *)
Definition as_bool (v : json) : option bool :=
  match v with
  | JBool b => Some b
  | JNum n => if (n =? 0)%Z then Some false
              else if (n =? 1)%Z then Some true else None
  | _ => None
  end.

(** The row an INSERT of [d] writes under the key [i]; [completed] takes
    its default. *)
Definition insert_as (i : Z) (d : draft) : option t :=
  match as_text (d_title d), as_text (d_description d), as_text (d_priority d) with
  | Some ti, Some de, Some pr => Some (mk i (d_user_id d) ti de false pr (d_tags d))
  | _, _, _ => None
  end.

Definition with_completed (b : bool) (x : t) : t :=
  mk (id x) (user_id x) (title x) (description x) b (priority x) (tags x).
Definition with_title (v : string) (x : t) : t :=
  mk (id x) (user_id x) v (description x) (completed x) (priority x) (tags x).
Definition with_description (v : string) (x : t) : t :=
  mk (id x) (user_id x) (title x) v (completed x) (priority x) (tags x).
Definition with_priority (v : string) (x : t) : t :=
  mk (id x) (user_id x) (title x) (description x) (completed x) v (tags x).
End Task.

Module ChatMessage.
Record t : Type := mk {
  user_id : string;
  role : string;
  content : string
}.
End ChatMessage.

(** The session's unit of work: what the next commit has to write. *)
Inductive pending_obj : Type :=
| NewTask (d : Task.draft)           (* [session.add] of a new Task *)
| NewChatMessage (m : ChatMessage.t) (* [session.add] of a new ChatMessage *)
| Dirty (x : Task.t)                 (* a loaded row with changed attributes *)
| Unwritable                         (* a loaded row given a value its column refuses *)
| Deleted (x : Task.t).              (* [session.delete] of a loaded row *)

Record Session : Type := mkSession {
  tasks : list Task.t;                  (* the [tasks] table, in insertion order *)
  chat_messages : list ChatMessage.t;   (* the [chat_messages] table *)
  pending : list pending_obj            (* waiting for the next commit *)
}.

Module Db.

Definition max_id (rows : list Task.t) : Z :=
  fold_right (fun x m => Z.max (Task.id x) m) 0%Z rows.

(** The key an INSERT gets: one past the largest key in the table. *)
Definition next_id (rows : list Task.t) : Z := (max_id rows + 1)%Z.

(** The row with key [i], if any. *)
Definition get (i : Z) (rows : list Task.t) : option Task.t :=
  List.find (Task.has_id i) rows.

(** Replaces the row whose key is that of [x]. *)
Definition put (x : Task.t) (rows : list Task.t) : list Task.t :=
  map (fun y => if Task.has_id (Task.id x) y then x else y) rows.

(** Removes the row whose key is that of [x]. *)
Definition remove (x : Task.t) (rows : list Task.t) : list Task.t :=
  filter (fun y => negb (Task.has_id (Task.id x) y)) rows.

(** Writes the unit of work in the order it was built; [None] when a
    column refuses a value.  [ins] collects the rows inserted. *)
Fixpoint flush (objs : list pending_obj) (rows : list Task.t)
    (msgs : list ChatMessage.t) (ins : list Task.t)
    : option (list Task.t * list ChatMessage.t * list Task.t) :=
  match objs with
  | [] => Some (rows, msgs, ins)
  | NewTask d :: rest =>
      match Task.insert_as (next_id rows) d with
      | Some y => flush rest (rows ++ [y])%list msgs (ins ++ [y])%list
      | None => None
      end
  | NewChatMessage m :: rest => flush rest rows (msgs ++ [m])%list ins
  | Dirty x :: rest => flush rest (put x rows) msgs ins
  | Deleted x :: rest => flush rest (remove x rows) msgs ins
  | Unwritable :: _ => None
  end.

(** A value bound where the [id] column is compared: [Some (Some i)] is
    the key it matches, [Some None] a value that matches no row (Python's
    [None], a text that reads as no integer), [None] a value the driver
    cannot bind. *)
Definition as_key `{Env} (v : json) : option (option Z) :=
  match v with
  | JNum i => Some (Some i)
  | JBool true => Some (Some 1%Z)
  | JBool false => Some (Some 0%Z)
  | JNull => Some None
  | JStr s => Some (sqlite_integer s)
  | JList _ | JDict _ => None
  end.

(** The value for the key column in [session.get(Task, ident)]: [ident]
    itself, the one item of a list, or the ["id"] entry of a dictionary
    that has no other; [None] when the session refuses the identifier. *)
Definition primary_key (ident : json) : option json :=
  match ident with
  | JList [v] => Some v
  | JList _ => None
  | JDict [(k, v)] => if k =? "id" then Some v else None
  | JDict _ => None
  | v => Some v
  end.

(** The keys of [col(Task.id).in_(task_ids)]. *)
Fixpoint as_keys `{Env} (items : list json) : option (list Z) :=
  match items with
  | [] => Some []%list
  | v :: rest =>
      match as_key v, as_keys rest with
      | Some (Some i), Some l => Some (i :: l)%list
      | Some None, Some l => Some l
      | _, _ => None
      end
  end.

Definition in_ids (ids : list Z) (x : Task.t) : bool :=
  existsb (Z.eqb (Task.id x)) ids.

(** One character of a LIKE subject: a byte and the UTF-8 continuation
    bytes after it. *)
Fixpoint skip_continuation (s : string) : string :=
  match s with
  | String c s' =>
      if ((128 <=? nat_of_ascii c) && (nat_of_ascii c <? 192))%nat
      then skip_continuation s' else s
  | EmptyString => s
  end.

(** [subject LIKE pattern]: [%] stands for any text, [_] for one
    character. *)
Fixpoint like (pattern : string) : string -> bool :=
  match pattern with
  | EmptyString => fun subject => match subject with EmptyString => true | _ => false end
  | String p pattern' =>
      if Ascii.eqb p "%"%char then
        fix star (subject : string) : bool :=
          like pattern' subject ||
          match subject with
          | EmptyString => false
          | String _ subject' => star subject'
          end
      else if Ascii.eqb p "_"%char then
        fun subject =>
          match subject with
          | EmptyString => false
          | String _ subject' => like pattern' (skip_continuation subject')
          end
      else
        fun subject =>
          match subject with
          | EmptyString => false
          | String c subject' => Ascii.eqb p c && like pattern' subject'
          end
  end.

(** [column.ilike(pattern)], which SQLite gets as
    [lower(column) LIKE lower(pattern)]. *)
Definition ilike (pattern subject : string) : bool :=
  like (Text.lower pattern) (Text.lower subject).

(** [query.limit(n)]: a negative limit is no limit. *)
Definition limit (n : option Z) (rows : list Task.t) : list Task.t :=
  match n with
  | Some k => if (k <? 0)%Z then rows else firstn (Z.to_nat k) rows
  | None => rows
  end.

End Db.

(* ================================================================== *)
(** * Computations: state and exceptions *)
(* ================================================================== *)

Record State : Type := mkState {
  session : Session;
  trace : list event         (* oldest first *)
}.

Definition M (A : Type) : Type := State -> outcome A * State.

Definition ret {A} (a : A) : M A := fun st => (Return a, st).
Definition raise {A} (e : exn) : M A := fun st => (Raise e, st).
Definition bind {A B} (m : M A) (k : A -> M B) : M B :=
  fun st => match m st with
            | (Return a, st') => k a st'
            | (Raise e, st') => (Raise e, st')
            end.
(** [try: m  except Exception as e: h e] *)
Definition try_except {A} (m : M A) (h : exn -> M A) : M A :=
  fun st => match m st with
            | (Return a, st') => (Return a, st')
            | (Raise e, st') => h e st'
            end.
Definition lift {A} (o : outcome A) : M A := fun st => (o, st).

Notation "x <- m ;; k" := (bind m (fun x => k))
  (at level 61, m at next level, right associativity).
Notation "m ;;; k" := (bind m (fun _ => k))
  (at level 61, right associativity).

Definition emit (e : event) : M unit :=
  fun st => (Return tt, mkState (session st) (trace st ++ [e])%list).
Definition clock : M nat := fun st => (Return (List.length (trace st)), st).
Definition get_session : M Session := fun st => (Return (session st), st).
Definition set_session (s : Session) : M unit :=
  fun st => (Return tt, mkState s (trace st)).

Module Sess.

(** [session.add(obj)] for a new object *)
Definition add (o : pending_obj) : M unit :=
  s <- get_session ;;
  set_session (mkSession (tasks s) (chat_messages s) (pending s ++ [o])%list).

(** [session.commit()]: writes the unit of work; when a row is rejected
    the transaction is rolled back, the unit of work is dropped and the
    error is raised.  Returns the rows inserted, as [session.refresh]
    would load them. *)
Definition commit `{Env} : M (list Task.t) :=
  s <- get_session ;;
  match Db.flush (pending s) (tasks s) (chat_messages s) [] with
  | Some (rows, msgs, ins) =>
      set_session (mkSession rows msgs []) ;;;
      ret ins
  | None =>
      set_session (mkSession (tasks s) (chat_messages s) []) ;;;
      raise (mkExn DatabaseError constraint_error)
  end.

(** [session.get(Task, i)] *)
Definition get (i : Z) : M (option Task.t) :=
  s <- get_session ;; ret (Db.get i (tasks s)).

(** [session.exec(select(Task).where(p)).all()] *)
Definition select (p : Task.t -> bool) : M (list Task.t) :=
  s <- get_session ;; ret (filter p (tasks s)).

(** A query the driver refuses, for a value of a type the comparison
    does not take. *)
Definition refuse `{Env} {A} : M A :=
  raise (mkExn DatabaseError constraint_error).

End Sess.

(* ================================================================== *)
(** * The provider gateway and the interpreter ([app/ai/engine.py]) *)
(* ================================================================== *)

Module Engine.
Section WithEnv.
Context `{Env}.

Definition OPENROUTER_MODELS : list string :=
  [ "meta-llama/llama-3.3-70b-instruct";
    "google/gemini-2.0-flash-001";
    "mistralai/mistral-large-2411";
    "openai/gpt-4o-mini" ]%list.

Definition index_error : exn := mkExn IndexError "list index out of range".

(** [l[i]] *)
Definition item (l : list string) (i : nat) : outcome string :=
  match nth_error l i with
  | Some x => Return x
  | None => Raise index_error
  end.

(** [await openrouter_client.chat.completions.create(model=model, ...)]
    followed by [response.choices[0].message.content] *)
Definition openrouter_request (model : string) (messages : list message) : M string :=
  k <- clock ;;
  emit (OpenRouterCall model messages) ;;;
  match openrouter_create k model messages with
  | ApiOk text => ret text
  | ApiFail error => raise (mkExn PlainException error)
  end.

(** The body of the [try] in [call_openrouter]. *)
Definition try_model (model : string) (messages : list message) : M (string * string) :=
  content <- openrouter_request model messages ;;
  after_slash <- lift (item (Text.split "/" model) 1) ;;
  model_short <- lift (item (Text.split ":" after_slash) 0) ;;
  ret (content, "openrouter/" ++ model_short).

(** [for model in models: try ... except Exception as e: last_error = e]
    and the [raise] after the loop. *)
Fixpoint try_models (models : list string) (messages : list message)
    (last_error : option exn) : M (string * string) :=
  match models with
  | [] =>
      raise (match last_error with
             | Some e => e
             | None => mkExn PlainException "All OpenRouter models failed"
             end)
  | model :: rest =>
      try_except (try_model model messages)
                 (fun e => try_models rest messages (Some e))
  end.

Definition call_openrouter (messages : list message) : M (string * string) :=
  if openrouter_client
  then try_models OPENROUTER_MODELS messages None
  else raise (mkExn PlainException "OpenRouter not configured").

(** One entry of [prompt_parts]; a role other than the three adds none. *)
Definition prompt_part (msg : message) : list string :=
  if role msg =? "system"
  then [("System Instructions:" ++ Text.nl ++ Py.str (content msg) ++ Text.nl)%string]%list
  else if role msg =? "user"
  then [("User: " ++ Py.str (content msg) ++ Text.nl)%string]%list
  else if role msg =? "assistant"
  then [("Assistant: " ++ Py.str (content msg) ++ Text.nl)%string]%list
  else []%list.

Definition full_prompt (messages : list message) : string :=
  Text.join Text.nl (flat_map prompt_part messages ++ ["Assistant:"])%list.

Definition call_gemini (messages : list message) : M (string * string) :=
  if gemini_model
  then
    k <- clock ;;
    emit (GeminiCall (full_prompt messages)) ;;;
    match gemini_generate k (full_prompt messages) with
    | ApiOk text => ret (text, "gemini/1.5-flash")
    | ApiFail error => raise (mkExn PlainException error)
    end
  else raise (mkExn PlainException "Gemini not configured").

(** The test of line 131 on the exception [e]. *)
Definition rate_limited (e : exn) : bool :=
  let error_str := Text.lower (exn_str e) in
  Text.contains "429" (exn_str e)
  || Text.contains "rate" error_str
  || Text.contains "quota" error_str.

(** [await asyncio.sleep(seconds)] *)
Definition sleep (seconds : nat) : M unit := emit (Sleep seconds).

(** [for attempt in attempts:] of one provider.  [Some r] is the
    [return] of line 124; [None] is the end of the loop, by [break] or by
    running out of attempts. *)
Fixpoint retry_loop (provider_name : string) (provider_func : M (string * string))
    (max_retries : nat) (attempts : list nat) : M (option (string * string)) :=
  match attempts with
  | [] => ret None
  | attempt :: rest =>
      try_except
        (r <- provider_func ;; ret (Some r))
        (fun e =>
           emit (AttemptFailed provider_name (attempt + 1) (exn_str e)) ;;;
           if rate_limited e then ret None
           else
             (if (Z.of_nat attempt <? Z.of_nat max_retries - 1)%Z
              then sleep (1 * (attempt + 1))
              else ret tt) ;;;
             retry_loop provider_name provider_func max_retries rest)
  end.

(** [for provider_name, provider_func in providers:] *)
Fixpoint providers_loop (providers : list (string * M (string * string)))
    (max_retries : nat) : M (option (string * string)) :=
  match providers with
  | [] => ret None
  | (provider_name, provider_func) :: rest =>
      r <- retry_loop provider_name provider_func max_retries (seq 0 max_retries) ;;
      match r with
      | Some x => ret (Some x)
      | None => providers_loop rest max_retries
      end
  end.

Definition FALLBACK_MESSAGE : string :=
  "I'm currently experiencing high demand on my AI services. Please try again in a few minutes.".

Definition providers (messages : list message) : list (string * M (string * string)) :=
  [ ("OpenRouter", call_openrouter messages);
    ("Gemini", call_gemini messages) ]%list.

Definition dual_provider_chat_with (messages : list message) (max_retries : nat)
    : M (string * string) :=
  r <- providers_loop (providers messages) max_retries ;;
  match r with
  | Some x => ret x
  | None => ret (FALLBACK_MESSAGE, "fallback")
  end.

(** The callers leave [max_retries] at its default. *)
Definition dual_provider_chat (messages : list message) : M (string * string) :=
  dual_provider_chat_with messages 2.

(** [text.split(fence)[1].split("```")[0].strip()] *)
Definition fenced_block (fence text : string) : outcome string :=
  match item (Text.split fence text) 1 with
  | Raise e => Raise e
  | Return after =>
      match item (Text.split "```" after) 0 with
      | Raise e => Raise e
      | Return inner => Return (Text.strip inner)
      end
  end.

(** The second [try] of [extract_json]: [Some v] is [return v], [None]
    is falling out of the block, with or without an exception. *)
Definition from_fences (text : string) : option json :=
  if Text.contains "```json" text then
    match fenced_block "```json" text with
    | Return block =>
        match json_loads block with inl v => Some v | inr _ => None end
    | Raise _ => None
    end
  else if Text.contains "```" text then
    match fenced_block "```" text with
    | Return block =>
        match json_loads block with inl v => Some v | inr _ => None end
    | Raise _ => None
    end
  else None.

(** The third [try] of [extract_json]. *)
Definition from_braces (text : string) : option json :=
  match Text.search_braces text with
  | Some json_str =>
      match json_loads json_str with inl v => Some v | inr _ => None end
  | None => None
  end.

(** [extract_json(text)]; Python's [None] is [JNull], whether it comes
    from the last line or from a document that is [null].  The first
    [try] catches [json.JSONDecodeError] only: another failure of
    [json.loads(text)] leaves the function as an exception.  The second
    and the third catch [Exception]. *)
Definition extract_json (text : string) : outcome json :=
  match json_loads text with
  | inl v => Return v
  | inr (Malformed _) =>
      match from_fences text with
      | Some v => Return v
      | None =>
          match from_braces text with
          | Some v => Return v
          | None => Return JNull
          end
      end
  | inr f => Raise (loads_error f)
  end.

End WithEnv.
End Engine.

(* ================================================================== *)
(** * The agent skills ([app/skills.py]) *)
(* ================================================================== *)

Module Skills.
Section WithEnv.
Context `{Env}.

(** [content.lower()] on the argument as the model sent it *)
Definition py_lower (content : json) : outcome string :=
  match content with
  | JStr s => Return (Text.lower s)
  | _ => Raise (Err.no_attribute content "lower")
  end.

Definition any_in (keywords : list string) (s : string) : bool :=
  existsb (fun k => Text.contains k s) keywords.

(** A character of U+0600-U+06FF: in UTF-8, a lead byte D8-DB. *)
Fixpoint has_urdu (s : string) : bool :=
  match s with
  | EmptyString => false
  | String c s' =>
      ((216 <=? nat_of_ascii c) && (nat_of_ascii c <=? 219))%nat || has_urdu s'
  end.

(** [LangDetectorSkill.execute] *)
Definition lang_detector (content : json) : outcome string :=
  match content with
  | JStr s => Return (if has_urdu s then "ur" else "en")
  | _ => Raise (mkExn TypeError
                  ("expected string or bytes-like object, got '"
                     ++ Py.type_name content ++ "'"))
  end.

Definition high_keywords : list string :=
  ["urgent"; "asap"; "immediate"; "today"; "critical"; "important"; "ضروری"; "آج"]%list.
Definition medium_keywords : list string :=
  ["tomorrow"; "week"; "soon"; "later"; "کل"]%list.
Definition low_keywords : list string :=
  ["someday"; "maybe"; "wish"; "whenever"; "کبھی"]%list.

(** [PrioritySuggesterSkill.execute] *)
Definition priority_suggester (content : json) : outcome string :=
  match py_lower content with
  | Raise e => Raise e
  | Return content_lower =>
      Return (if any_in high_keywords content_lower then "high"
              else if any_in medium_keywords content_lower then "medium"
              else if any_in low_keywords content_lower then "low"
              else "medium")
  end.

(** [ReminderSchedulerSkill.execute]: the days from now, if any. *)
Definition reminder_scheduler (content : json) : outcome (option nat) :=
  match py_lower content with
  | Raise e => Raise e
  | Return content_lower =>
      Return (if Text.contains "tomorrow" content_lower || Text.contains "کل" content_lower
              then Some 1
              else if Text.contains "next week" content_lower then Some 7
              else None)
  end.

Definition minimal_pod : string :=
  Text.nl ++ "apiVersion: v1" ++ Text.nl ++ "kind: Pod" ++ Text.nl
  ++ "metadata:" ++ Text.nl ++ "  name: minimal-pod" ++ Text.nl
  ++ "spec:" ++ Text.nl ++ "  containers:" ++ Text.nl
  ++ "  - name: nginx" ++ Text.nl ++ "    image: nginx:alpine" ++ Text.nl.

(** [DeploymentBlueprintSkill.execute] *)
Definition deployment_blueprint (content : json) : outcome string :=
  match py_lower content with
  | Raise e => Raise e
  | Return content_lower =>
      Return (if Text.contains "minimal" content_lower then minimal_pod
              else if Text.contains "scale" content_lower
              then "kubectl scale deployment frontend --replicas=3"
              else "Available blueprints: minimal-pod, scale-deployment")
  end.

(** ** The day planner *)

(** [system_prompt], lines 112-127 *)
Definition planner_prompt : string :=
  let q := Text.dq in
  Text.join Text.nl
    [ "You are a pro-active planning assistant.";
      "Convert the user's request into a list of tasks.";
      "Return STRICTLY a JSON list of objects. No markdown, no prose.";
      "Each object must have:";
      "- title (str)";
      "- description (str, optional)";
      "- priority (high/medium/low)";
      "- tags (list of strings)";
      "";
      ("Example Input: " ++ q ++ "Plan my day: Code at 9, Lunch at 12" ++ q)%string;
      "Example Output:";
      "[";
      ("    {" ++ q ++ "title" ++ q ++ ": " ++ q ++ "Code" ++ q ++ ", "
         ++ q ++ "description" ++ q ++ ": " ++ q ++ "at 9" ++ q ++ ", "
         ++ q ++ "priority" ++ q ++ ": " ++ q ++ "high" ++ q ++ ", "
         ++ q ++ "tags" ++ q ++ ": [" ++ q ++ "work" ++ q ++ "]},")%string;
      ("    {" ++ q ++ "title" ++ q ++ ": " ++ q ++ "Lunch" ++ q ++ ", "
         ++ q ++ "description" ++ q ++ ": " ++ q ++ "at 12" ++ q ++ ", "
         ++ q ++ "priority" ++ q ++ ": " ++ q ++ "medium" ++ q ++ ", "
         ++ q ++ "tags" ++ q ++ ": [" ++ q ++ "personal" ++ q ++ "]}")%string;
      "]";
      "" ]%list.

(** [', '.join(titles)] *)
Fixpoint join_titles (i : nat) (titles : list json) : outcome (list string) :=
  match titles with
  | [] => Return []%list
  | JStr s :: rest =>
      match join_titles (S i) rest with
      | Return l => Return (s :: l)%list
      | Raise e => Raise e
      end
  | v :: _ =>
      Raise (mkExn TypeError
               ("sequence item " ++ Text.of_nat i ++ ": expected str instance, "
                  ++ Py.type_name v ++ " found"))
  end.

(** Lines 139-142: the text between the fences, if there are fences. *)
Definition strip_fences (json_str : string) : outcome string :=
  if Text.contains "```json" json_str then Engine.fenced_block "```json" json_str
  else if Text.contains "```" json_str then Engine.fenced_block "```" json_str
  else Return json_str.

(** [json.loads(json_str)] *)
Definition loads (json_str : string) : outcome json :=
  match json_loads json_str with
  | inl v => Return v
  | inr f => Raise (loads_error f)
  end.

(** One round of [for task_data in tasks_data:]. *)
Definition add_planned (user_id : string) (task_data : json) : M json :=
  title <- lift (py_get task_data "title" (JStr "Untitled")) ;;
  description <- lift (py_get task_data "description" (JStr "")) ;;
  priority <- lift (py_get task_data "priority" (JStr "medium")) ;;
  tags <- lift (py_get task_data "tags" (JList [])) ;;
  Sess.add (NewTask (Task.mkDraft user_id title description priority tags)) ;;;
  ret title.

(** The loop, returning [titles]; [created_count] is its length. *)
Fixpoint add_all_planned (user_id : string) (tasks_data : list json) : M (list json) :=
  match tasks_data with
  | [] => ret []%list
  | task_data :: rest =>
      title <- add_planned user_id task_data ;;
      titles <- add_all_planned user_id rest ;;
      ret (title :: titles)%list
  end.

(** The body of the [try] of [DayPlannerSkill.execute]. *)
Definition plan (content : json) (user_id : string) : M string :=
  r <- Engine.dual_provider_chat
         [ mkMessage "system" (JStr planner_prompt); mkMessage "user" content ]%list ;;
  let response_text := fst r in
  json_str <- lift (strip_fences (Text.strip response_text)) ;;
  tasks_data <- lift (loads json_str) ;;
  match tasks_data with
  | JList items =>
      titles <- add_all_planned user_id items ;;
      Sess.commit ;;;
      if (List.length titles =? 0)%nat
      then ret "No tasks identified in your request."
      else
        names <- lift (join_titles 0 titles) ;;
        ret ("I've created " ++ Text.of_nat (List.length titles)
               ++ " tasks for you: " ++ Text.join ", " names ++ ".")
  | _ =>
      ret ("Error: AI returned " ++ Py.type_str tasks_data ++ ", expected list.")
  end.

(** [DayPlannerSkill.execute(content, user_id=..., session=...)] *)
Definition day_planner (content : json) (user_id : string) : M string :=
  if user_id =? "" then ret "Error: Session or User ID missing for planning."
  else
    try_except (plan content user_id)
               (fun e => ret ("Failed to generate plan: " ++ exn_str e)).

End WithEnv.
End Skills.

(* ================================================================== *)
(** * The tool executor ([app/ai/mcp_server.py]) *)
(* ================================================================== *)

Module Tools.
Section WithEnv.
Context `{Env}.

(** The names [list_tools] registers, in its order. *)
Definition tool_names : list string :=
  [ "add_task"; "list_tasks"; "complete_task"; "bulk_complete_tasks";
    "delete_task"; "bulk_delete_tasks"; "update_task"; "get_weather";
    "plan_day"; "detect_language"; "suggest_priority"; "schedule_reminder";
    "get_deployment_blueprint" ]%list.

(** [{"status": "success", "message": msg, ...}] *)
Definition success (msg : string) (more : list (string * json)) : json :=
  JDict (("status", JStr "success") :: ("message", JStr msg) :: more)%list.

(** [{"status": "error", "message": msg}] *)
Definition error (msg : string) : json :=
  JDict [("status", JStr "error"); ("message", JStr msg)]%list.

(** [name == s] *)
Definition named (name : json) (s : string) : bool :=
  match name with JStr x => x =? s | _ => false end.

(** [session.get(Task, task_id)]: the identity map is asked first, by a
    key that must hash, then the table. *)
Definition get_task (task_id : json) : M (option Task.t) :=
  match Db.primary_key task_id with
  | Some (JList _ as v) | Some (JDict _ as v) => raise (Err.unhashable v)
  | Some v =>
      match Db.as_key v with
      | Some (Some i) => Sess.get i
      | Some None => ret None
      | None => Sess.refuse
      end
  | None => Sess.refuse
  end.

(** [int(limit)], as [query.limit(limit)] coerces its argument when the
    query is built; [None] stays, and is no limit. *)
Definition as_limit (limit : json) : outcome (option Z) :=
  match limit with
  | JNull => Return None
  | JNum n => Return (Some n)
  | JBool true => Return (Some 1%Z)
  | JBool false => Return (Some 0%Z)
  | JStr s =>
      match py_int s with
      | inl n => Return (Some n)
      | inr error => Raise (mkExn ValueError error)
      end
  | JList _ | JDict _ => Raise (Err.no_int limit)
  end.

(** ["completed" if completed else "marked as pending"] *)
Definition status_text (completed : json) : string :=
  if Py.truthy completed then "completed" else "marked as pending".

(** [t.completed = completed; session.add(t)] *)
Definition set_completed (completed : json) (t : Task.t) : M unit :=
  match Task.as_bool completed with
  | Some b => Sess.add (Dirty (Task.with_completed b t))
  | None => Sess.add Unwritable
  end.

Fixpoint set_completed_all (completed : json) (rows : list Task.t) : M nat :=
  match rows with
  | [] => ret 0
  | t :: rest =>
      set_completed completed t ;;;
      n <- set_completed_all completed rest ;;
      ret (S n)
  end.

Fixpoint delete_all (rows : list Task.t) : M nat :=
  match rows with
  | [] => ret 0
  | t :: rest =>
      Sess.add (Deleted t) ;;;
      n <- delete_all rest ;;
      ret (S n)
  end.

(** The rows of
    [select(Task).where(col(Task.id).in_(task_ids), Task.user_id == user_id)]. *)
Definition select_ids (task_ids : json) (user_id : string) : M (list Task.t) :=
  match task_ids with
  | JList items =>
      match Db.as_keys items with
      | Some ids => Sess.select (fun x => Db.in_ids ids x && Task.owned_by user_id x)
      | None => Sess.refuse
      end
  | _ => Sess.refuse
  end.

(** [if key in arguments: task.field = arguments[key]]; [None] once a
    value is one the column refuses. *)
Definition assign (arguments : json) (key : string)
    (set : string -> Task.t -> Task.t) (task : option Task.t) : option Task.t :=
  match task, arguments with
  | Some t, JDict l =>
      match Py.lookup key l with
      | Some v => option_map (fun s => set s t) (Task.as_text v)
      | None => Some t
      end
  | _, _ => task
  end.

Definition weather_desc (code : Z) : string :=
  if existsb (Z.eqb code) [1; 2; 3]%Z then "Partly cloudy"
  else if existsb (Z.eqb code) [45; 48]%Z then "Foggy"
  else if existsb (Z.eqb code) [51; 53; 55; 56; 57]%Z then "Drizzle"
  else if existsb (Z.eqb code) [61; 63; 65; 66; 67]%Z then "Rain"
  else if existsb (Z.eqb code) [71; 73; 75; 77]%Z then "Snow"
  else if (code >=? 80)%Z then "Showers/Thunderstorm"
  else "Clear sky".

Definition add_task (arguments : json) (user_id : string) : M json :=
  title <- lift (py_get arguments "title" JNull) ;;
  desc <- lift (py_get arguments "description" (JStr "")) ;;
  priority <- lift (py_get arguments "priority" (JStr "medium")) ;;
  tags <- lift (py_get arguments "tags" (JList [])) ;;
  Sess.add (NewTask (Task.mkDraft user_id title desc priority tags)) ;;;
  ins <- Sess.commit ;;
  match List.last (map Some ins) None with
  | Some task =>
      ret (success ("Task created: '" ++ Task.title task ++ "' with "
                      ++ Task.priority task ++ " priority (ID: "
                      ++ Text.of_Z (Task.id task) ++ ")")
                   [("task", Task.model_dump task)])
  | None => Sess.refuse
  end.

Definition list_tasks (arguments : json) (user_id : string) : M json :=
  status <- lift (py_get arguments "status" (JStr "all")) ;;
  limit <- lift (py_get arguments "limit" (JNum 20)) ;;
  n <- lift (as_limit limit) ;;
  rows <- Sess.select
            (fun x => Task.owned_by user_id x
                      && (if named status "pending" then negb (Task.completed x)
                          else if named status "completed" then Task.completed x
                          else true)) ;;
  let tasks := Db.limit n rows in
  match tasks with
  | [] => ret (success "No tasks found." [("tasks", JList [])])
  | _ => ret (success ("Found " ++ Text.of_nat (List.length tasks) ++ " tasks.")
                      [("tasks", JList (map Task.model_dump tasks))])
  end.

Definition complete_task (arguments : json) (user_id : string) : M json :=
  task_id <- lift (py_get arguments "task_id" JNull) ;;
  completed <- lift (py_get arguments "completed" (JBool true)) ;;
  found <- get_task task_id ;;
  match found with
  | Some task =>
      if Task.owned_by user_id task then
        set_completed completed task ;;;
        Sess.commit ;;;
        ret (success ("Task '" ++ Task.title task ++ "' has been "
                        ++ status_text completed ++ ".") [])
      else ret (error ("Task with ID " ++ Py.str task_id ++ " not found."))
  | None => ret (error ("Task with ID " ++ Py.str task_id ++ " not found."))
  end.

Definition bulk_complete_tasks (arguments : json) (user_id : string) : M json :=
  task_ids <- lift (py_get arguments "task_ids" (JList [])) ;;
  completed <- lift (py_get arguments "completed" (JBool true)) ;;
  if negb (Py.truthy task_ids) then ret (error "No task IDs provided.")
  else
    rows <- select_ids task_ids user_id ;;
    match rows with
    | [] => ret (error "No valid tasks found.")
    | _ =>
        count <- set_completed_all completed rows ;;
        Sess.commit ;;;
        ret (success (Text.of_nat count ++ " tasks " ++ status_text completed ++ ".") [])
    end.

Definition delete_task (arguments : json) (user_id : string) : M json :=
  task_id <- lift (py_get arguments "task_id" JNull) ;;
  title_match <- lift (py_get arguments "title" JNull) ;;
  let finish (task : option Task.t) : M json :=
    match task with
    | None => ret (error "Task not found.")
    | Some t =>
        Sess.add (Deleted t) ;;;
        Sess.commit ;;;
        ret (success ("Task '" ++ Task.title t ++ "' has been deleted.") [])
    end in
  if Py.truthy task_id then
    found <- get_task task_id ;;
    finish (match found with
            | Some t => if Task.owned_by user_id t then Some t else None
            | None => None
            end)
  else if Py.truthy title_match then
    rows <- Sess.select
              (fun x => Task.owned_by user_id x
                        && Db.ilike ("%" ++ Py.str title_match ++ "%") (Task.title x)) ;;
    finish (List.hd_error rows)
  else ret (error "Please provide either task_id or title to delete.").

Definition bulk_delete_tasks (arguments : json) (user_id : string) : M json :=
  task_ids <- lift (py_get arguments "task_ids" (JList [])) ;;
  if negb (Py.truthy task_ids) then ret (error "No task IDs provided.")
  else
    rows <- select_ids task_ids user_id ;;
    match rows with
    | [] => ret (error "No valid tasks found to delete.")
    | _ =>
        count <- delete_all rows ;;
        Sess.commit ;;;
        ret (success ("Deleted " ++ Text.of_nat count ++ " tasks.") [])
    end.

Definition update_task (arguments : json) (user_id : string) : M json :=
  task_id <- lift (py_get arguments "task_id" JNull) ;;
  found <- get_task task_id ;;
  match found with
  | Some task =>
      if Task.owned_by user_id task then
        match assign arguments "priority" Task.with_priority
                (assign arguments "description" Task.with_description
                   (assign arguments "title" Task.with_title (Some task))) with
        | Some task' =>
            Sess.add (Dirty task') ;;;
            Sess.commit ;;;
            ret (success ("Task #" ++ Text.of_Z (Task.id task') ++ " has been updated: '"
                            ++ Task.title task' ++ "' (" ++ Task.priority task' ++ ")") [])
        | None =>
            Sess.add Unwritable ;;;
            Sess.commit ;;;
            Sess.refuse
        end
      else ret (error ("Task with ID " ++ Py.str task_id ++ " not found."))
  | None => ret (error ("Task with ID " ++ Py.str task_id ++ " not found."))
  end.

Definition get_weather (arguments : json) : M json :=
  city <- lift (py_get arguments "city" JNull) ;;
  if negb (Py.truthy city) then ret (error "City name is required.")
  else
    k <- clock ;;
    emit (WeatherCall (Py.str city)) ;;;
    match weather_lookup k (Py.str city) with
    | WeatherFail e => ret (error ("Failed to fetch weather: " ++ e))
    | WeatherNoCity => ret (error ("City '" ++ Py.str city ++ "' not found."))
    | WeatherOk city_name temp unit temp_value code =>
        let desc := weather_desc code in
        ret (success ("Current weather in " ++ city_name ++ ": " ++ temp ++ unit ++ ", " ++ desc)
                     [("data", JDict [("temp", temp_value); ("desc", JStr desc)])])
    end.

(** The skill tools answer [{"status": "success", key: result}]. *)
Definition skill_result (key : string) (result : json) : json :=
  JDict [("status", JStr "success"); (key, result)]%list.

Definition handle_tool_call (name arguments : json) (user_id : string) : M json :=
  if named name "add_task" then add_task arguments user_id
  else if named name "list_tasks" then list_tasks arguments user_id
  else if named name "complete_task" then complete_task arguments user_id
  else if named name "bulk_complete_tasks" then bulk_complete_tasks arguments user_id
  else if named name "delete_task" then delete_task arguments user_id
  else if named name "bulk_delete_tasks" then bulk_delete_tasks arguments user_id
  else if named name "update_task" then update_task arguments user_id
  else if named name "get_weather" then get_weather arguments
  else if named name "detect_language" then
    text <- lift (py_get arguments "text" (JStr "")) ;;
    result <- lift (Skills.lang_detector text) ;;
    ret (skill_result "language" (JStr result))
  else if named name "suggest_priority" then
    text <- lift (py_get arguments "text" (JStr "")) ;;
    result <- lift (Skills.priority_suggester text) ;;
    ret (skill_result "priority" (JStr result))
  else if named name "schedule_reminder" then
    text <- lift (py_get arguments "text" (JStr "")) ;;
    result <- lift (Skills.reminder_scheduler text) ;;
    ret (skill_result "reminder_date"
           (match result with Some d => JStr (now_plus_days d) | None => JNull end))
  else if named name "get_deployment_blueprint" then
    type_ <- lift (py_get arguments "type" (JStr "minimal")) ;;
    result <- lift (Skills.deployment_blueprint type_) ;;
    ret (skill_result "blueprint" (JStr result))
  else if named name "plan_day" then
    request <- lift (py_get arguments "request" (JStr "")) ;;
    result <- Skills.day_planner request user_id ;;
    ret (success result [])
  else raise (mkExn ValueError ("Tool not found: " ++ Py.str name)).

End WithEnv.
End Tools.

(* ================================================================== *)
(** * The conversation loop ([app/routes/chat.py]) *)
(* ================================================================== *)

Module Chat.
Section WithEnv.
Context `{Env}.

(** [ChatRequest] *)
Record ChatRequest : Type := mkRequest { message_of : string; language : string }.

Definition MAX_TURNS : nat := 10.

Definition DONE_MESSAGE : string :=
  "Done! I've completed all the requested actions. Let me know if you need anything else!".

Definition APOLOGY : json :=
  JDict [("response", JStr "Sorry, I encountered an error. Please try again.")]%list.

(** The dictionary the endpoint answers with. *)
Definition reply (response : string) (action_performed : bool)
    (tool model : json) : json :=
  JDict [ ("response", JStr response);
          ("action_performed", JBool action_performed);
          ("tool", tool);
          ("model", model) ]%list.

(** What a tool turn appends to [messages]. *)
Definition tool_exchange (ai_message : string) (tool_result : json) : list message :=
  [ mkMessage "assistant" (JStr ai_message);
    mkMessage "user" (JStr ("Tool Output: " ++ json_dumps tool_result)) ]%list.

(** [while turn_count < MAX_TURNS:] with [remaining = MAX_TURNS - turn_count]
    rounds to go, and the [return] after the loop. *)
Fixpoint turns (remaining : nat) (current_user : string) (messages : list message)
    (action_performed : bool) (last_tool_name used_model : json) : M json :=
  match remaining with
  | O => ret (reply DONE_MESSAGE true last_tool_name used_model)
  | S remaining' =>
      emit (TurnStarted (MAX_TURNS - remaining')) ;;;
      r <- Engine.dual_provider_chat messages ;;
      let ai_message := fst r in
      let used_model := JStr (snd r) in
      tool_call_data <- lift (Engine.extract_json ai_message) ;;
      if negb (Py.truthy tool_call_data) then
        Sess.add (NewChatMessage (ChatMessage.mk current_user "assistant" ai_message)) ;;;
        Sess.commit ;;;
        ret (reply ai_message action_performed last_tool_name used_model)
      else
        tool_name <- lift (py_get tool_call_data "tool" JNull) ;;
        tool_args <- lift (py_get tool_call_data "arguments" (JDict [])) ;;
        emit (ToolExecuting tool_name) ;;;
        tool_result <- Tools.handle_tool_call tool_name tool_args current_user ;;
        turns remaining' current_user
              (messages ++ tool_exchange ai_message tool_result)%list
              true tool_name used_model
  end.

(** [messages] as line 125 builds it. *)
Definition initial_messages (request : ChatRequest) (current_user : string) : list message :=
  [ mkMessage "system" (JStr (system_instruction current_user (language request)));
    mkMessage "user" (JStr (message_of request)) ]%list.

(** The body of the [try]. *)
Definition conversation (request : ChatRequest) (current_user : string) : M json :=
  turns MAX_TURNS current_user (initial_messages request current_user) false JNull JNull.

(** [except HTTPException: raise] and [except Exception as e: return ...] *)
Definition guarded (body : M json) : M json :=
  try_except body (fun e => if Err.is_http e then raise e else ret APOLOGY).

(** Lines 108-111. *)
Definition save_user_message (request : ChatRequest) (current_user : string) : M unit :=
  Sess.add (NewChatMessage (ChatMessage.mk current_user "user" (message_of request))) ;;;
  Sess.commit ;;;
  ret tt.

Definition chat_endpoint (request : ChatRequest) (current_user : string) : M json :=
  save_user_message request current_user ;;;
  guarded (conversation request current_user).

End WithEnv.

(** [Depends(get_session)]: every request gets a session of its own, with
    nothing waiting in it, on the tables as they are. *)
Definition fresh_session (st : State) : State :=
  mkState (mkSession (tasks (session st)) (chat_messages (session st)) []) (trace st).

End Chat.

(* ================================================================== *)
(** * The history endpoints ([app/routes/chat.py]) *)
(* ================================================================== *)

Module ChatHistory.
Section WithEnv.
Context `{Env}.

(** [ChatMessage.user_id == current_user] *)
Definition own (current_user : string) (m : ChatMessage.t) : bool :=
  ChatMessage.user_id m =? current_user.

(** [get_chat_history]: the rows of
    [select(ChatMessage).where(...).order_by(ChatMessage.created_at)].
    The table is kept in the order of insertion, which is the order of
    [created_at]: a message gets its time stamp when it is built, and the
    code inserts it with the commit that follows. *)
Definition get_chat_history (current_user : string) : M (list ChatMessage.t) :=
  s <- get_session ;;
  ret (filter (own current_user) (chat_messages s)).

Definition CLEARED : json := JDict [("message", JStr "Chat history cleared")]%list.

(** [clear_chat_history]: the DELETE statement runs in the transaction,
    after what waits in the session has been written, and the commit ends
    it; when a row is rejected the transaction is rolled back as in
    [Sess.commit]. *)
Definition clear_chat_history (current_user : string) : M json :=
  s <- get_session ;;
  match Db.flush (pending s) (tasks s) (chat_messages s) [] with
  | Some (rows, msgs, _) =>
      set_session (mkSession rows (filter (fun m => negb (own current_user m)) msgs) []) ;;;
      ret CLEARED
  | None =>
      set_session (mkSession (tasks s) (chat_messages s) []) ;;;
      raise (mkExn DatabaseError constraint_error)
  end.

End WithEnv.
End ChatHistory.

(* ================================================================== *)
(** * A decoder and an encoder to run the model on

    [Env] leaves [json.loads] and [json.dumps] open.  To evaluate the
    definitions on concrete texts this section supplies both for the JSON
    of the model (no fractions, no exponents, no [\u] escapes, ASCII
    texts), and worlds built from a script of provider answers. *)
(* ================================================================== *)

Module Demo.

Definition is_char (c : ascii) (s : string) : option string :=
  match s with
  | String a r => if Ascii.eqb a c then Some r else None
  | EmptyString => None
  end.

Definition is_digit (c : ascii) : bool :=
  ((48 <=? nat_of_ascii c) && (nat_of_ascii c <=? 57))%nat.

(** JSON white space: space, tab, line feed, carriage return. *)
Fixpoint skip_ws (s : string) : string :=
  match s with
  | String c r =>
      let n := nat_of_ascii c in
      if ((n =? 32) || (n =? 9) || (n =? 10) || (n =? 13))%nat then skip_ws r else s
  | EmptyString => s
  end.

Fixpoint digits (s : string) (acc : Z) : Z * string :=
  match s with
  | String c r =>
      if is_digit c then digits r (10 * acc + Z.of_nat (nat_of_ascii c - 48))%Z
      else (acc, s)
  | EmptyString => (acc, s)
  end.

(** [0] or a digit sequence without a leading zero; a fraction or an
    exponent after it is refused. *)
Definition natural (s : string) : option (Z * string) :=
  match s with
  | String c r =>
      if is_digit c then
        let '(n, rest) := if (nat_of_ascii c =? 48)%nat then (0%Z, r) else digits s 0%Z in
        match rest with
        | String d _ =>
            if Ascii.eqb d "."%char || Ascii.eqb d "e"%char || Ascii.eqb d "E"%char
            then None else Some (n, rest)
        | EmptyString => Some (n, rest)
        end
      else None
  | EmptyString => None
  end.

(** The characters of a string literal after the opening quote. *)
Fixpoint text (s : string) (acc : string) : option (string * string) :=
  match s with
  | EmptyString => None
  | String c r =>
      let n := nat_of_ascii c in
      if (n =? 34)%nat then Some (acc, r)
      else if (n <? 32)%nat then None
      else if (n =? 92)%nat then
        match r with
        | String e r' =>
            let put (x : nat) := text r' (acc ++ String (ascii_of_nat x) EmptyString) in
            let m := nat_of_ascii e in
            if (m =? 34)%nat then put 34
            else if (m =? 92)%nat then put 92
            else if (m =? 47)%nat then put 47
            else if (m =? 98)%nat then put 8
            else if (m =? 102)%nat then put 12
            else if (m =? 110)%nat then put 10
            else if (m =? 114)%nat then put 13
            else if (m =? 116)%nat then put 9
            else None
        | EmptyString => None
        end
      else text r (acc ++ String c EmptyString)
  end.

(** [d[k] = v] *)
Fixpoint set_key (k : string) (v : json) (l : list (string * json)) : list (string * json) :=
  match l with
  | [] => [(k, v)]
  | (k', v') :: rest => if k' =? k then (k, v) :: rest else (k', v') :: set_key k v rest
  end%list.

Fixpoint value (fuel : nat) (s : string) : option (json * string) :=
  match fuel with
  | O => None
  | S f =>
      let s := skip_ws s in
      if Text.starts_with "null" s then Some (JNull, Text.drop 4 s)
      else if Text.starts_with "true" s then Some (JBool true, Text.drop 4 s)
      else if Text.starts_with "false" s then Some (JBool false, Text.drop 5 s)
      else match is_char (ascii_of_nat 34) s with
      | Some r => option_map (fun '(x, r') => (JStr x, r')) (text r EmptyString)
      | None =>
      match is_char "-"%char s with
      | Some r => option_map (fun '(n, r') => (JNum (- n)%Z, r')) (natural r)
      | None =>
      match is_char "["%char s with
      | Some r =>
          match is_char "]"%char (skip_ws r) with
          | Some r' => Some (JList [], r')
          | None => items f r []
          end
      | None =>
      match is_char "{"%char s with
      | Some r =>
          match is_char "}"%char (skip_ws r) with
          | Some r' => Some (JDict [], r')
          | None => members f r []
          end
      | None => option_map (fun '(n, r') => (JNum n, r')) (natural s)
      end end end end
  end

with items (fuel : nat) (s : string) (acc : list json) : option (json * string) :=
  match fuel with
  | O => None
  | S f =>
      match value f s with
      | Some (v, r) =>
          let r := skip_ws r in
          match is_char ","%char r with
          | Some r' => items f r' (acc ++ [v])%list
          | None =>
              match is_char "]"%char r with
              | Some r' => Some (JList (acc ++ [v])%list, r')
              | None => None
              end
          end
      | None => None
      end
  end

with members (fuel : nat) (s : string) (acc : list (string * json)) : option (json * string) :=
  match fuel with
  | O => None
  | S f =>
      match is_char (ascii_of_nat 34) (skip_ws s) with
      | Some r =>
          match text r EmptyString with
          | Some (k, r) =>
              match is_char ":"%char (skip_ws r) with
              | Some r =>
                  match value f r with
                  | Some (v, r) =>
                      let r := skip_ws r in
                      match is_char ","%char r with
                      | Some r' => members f r' (set_key k v acc)
                      | None =>
                          match is_char "}"%char r with
                          | Some r' => Some (JDict (set_key k v acc), r')
                          | None => None
                          end
                      end
                  | None => None
                  end
              | None => None
              end
          | None => None
          end
      | None => None
      end
  end.

(** The decoder: one value, white space around it, nothing else.  The
    error text is the library's for a document that is no value from its
    first character on, the case the examples use. *)
Definition loads (s : string) : json + loads_failure :=
  match value (2 * String.length s + 2) s with
  | Some (v, r) =>
      match skip_ws r with
      | EmptyString => inl v
      | _ => inr (Malformed "Extra data")
      end
  | None => inr (Malformed "Expecting value: line 1 column 1 (char 0)")
  end.

(** [int(s)] for decimal digits with an optional sign and white space
    around them; any other text is refused, in the interpreter's words. *)
Definition int (s : string) : Z + string :=
  let unsigned (sign : Z) (r : string) : option Z :=
    match r with
    | EmptyString => None
    | _ => match digits r 0%Z with
           | (n, EmptyString) => Some (sign * n)%Z
           | _ => None
           end
    end in
  let t := Text.strip s in
  match (match t with
         | String c r =>
             if Ascii.eqb c "-"%char then unsigned (-1)%Z r
             else if Ascii.eqb c "+"%char then unsigned 1%Z r
             else unsigned 1%Z t
         | EmptyString => None
         end) with
  | Some n => inl n
  | None => inr ("invalid literal for int() with base 10: " ++ Py.repr_str s)
  end.

(** The integer SQLite compares a text as, for the same texts. *)
Definition integer (s : string) : option Z :=
  match int s with inl n => Some n | inr _ => None end.

Definition dumps_char (c : ascii) : string :=
  let n := nat_of_ascii c in
  if (n =? 34)%nat then String "\"%char Text.dq
  else if (n =? 92)%nat then "\\"
  else if (n =? 10)%nat then "\n"
  else if (n =? 13)%nat then "\r"
  else if (n =? 9)%nat then "\t"
  else if (n =? 8)%nat then "\b"
  else if (n =? 12)%nat then "\f"
  else if (n <? 32)%nat
       then "\u00" ++ String (Py.hex_digit (n / 16)) (String (Py.hex_digit (n mod 16)) EmptyString)
  else String c EmptyString.

Fixpoint dumps_text (s : string) : string :=
  match s with
  | EmptyString => EmptyString
  | String c r => dumps_char c ++ dumps_text r
  end.

Definition dumps_str (s : string) : string := Text.dq ++ dumps_text s ++ Text.dq.

(** The encoder, with the default separators. *)
Fixpoint dumps (v : json) : string :=
  match v with
  | JNull => "null"
  | JBool true => "true"
  | JBool false => "false"
  | JNum n => Text.of_Z n
  | JStr s => dumps_str s
  | JList l => "[" ++ Text.join ", " (map dumps l) ++ "]"
  | JDict l => "{" ++ Text.join ", " (map (fun '(k, x) => dumps_str k ++ ": " ++ dumps x) l) ++ "}"
  end.

(** A world: which providers are configured, and what each request is
    answered with, by the number of events before it. *)
Definition world (openrouter gemini : bool) (openrouter_answer gemini_answer : nat -> api_outcome)
    : Env :=
  {| json_loads := loads;
     json_dumps := dumps;
     py_int := int;
     sqlite_integer := integer;
     openrouter_client := openrouter;
     gemini_model := gemini;
     openrouter_create := fun k _ _ => openrouter_answer k;
     gemini_generate := fun k _ => gemini_answer k;
     weather_lookup := fun _ _ => WeatherNoCity;
     now_plus_days := fun _ => "2026-01-01T00:00:00";
     system_instruction := fun user_id language => "You are TodoEvolve.";
     constraint_error := "constraint failed" |}.

Definition empty : State := mkState (mkSession [] [] []) [].

(** Every request to every provider fails. *)
Definition outage : Env :=
  world true true (fun _ => ApiFail "503 Service Unavailable")
                  (fun _ => ApiFail "connection reset").

(** OpenRouter is over its quota, Gemini answers. *)
Definition throttled : Env :=
  world true true (fun _ => ApiFail "Error code: 429 - too many requests")
                  (fun _ => ApiOk "Hello!").

(** OpenRouter answers every request with the same text. *)
Definition always (text : string) : Env :=
  world true true (fun _ => ApiOk text) (fun _ => ApiFail "connection reset").


(** A row with the default columns. *)
Definition row (i : Z) (user title : string) : Task.t :=
  Task.mk i user title "" false "medium" (JList []).

(** Two tasks of alice and one of bob. *)
Definition shared_table : State :=
  mkState (mkSession [row 1 "alice" "Buy milk"; row 2 "alice" "Call mum";
                      row 999 "bob" "Pay rent"] [] []) [].

(** The tool invocation
    [{"tool": "detect_language", "arguments": {"text": "hello"}}]. *)
Definition detect_call : string :=
  "{" ++ Text.dq ++ "tool" ++ Text.dq ++ ": " ++ Text.dq ++ "detect_language" ++ Text.dq
  ++ ", " ++ Text.dq ++ "arguments" ++ Text.dq ++ ": {" ++ Text.dq ++ "text" ++ Text.dq
  ++ ": " ++ Text.dq ++ "hello" ++ Text.dq ++ "}}".

(** A text between two markdown fences, and a labelled block after it that
    holds a stray brace. *)
Definition two_blocks : string :=
  "```" ++ Text.nl ++ "{" ++ Text.dq ++ "tool" ++ Text.dq ++ ": "
        ++ Text.dq ++ "list_tasks" ++ Text.dq ++ "}" ++ Text.nl ++ "```" ++ Text.nl
  ++ "```json" ++ Text.nl ++ "}" ++ Text.nl ++ "```".

(** OpenRouter has no key, Gemini answers. *)
Definition no_openrouter_key : Env :=
  world false true (fun _ => ApiFail "unreachable") (fun _ => ApiOk "Hello!").

End Demo.

Module Scenario.

(** A world in which what OpenRouter answers depends on the model asked;
    Gemini is down. *)
Definition by_model (answer : string -> api_outcome) : Env :=
  {| json_loads := Demo.loads;
     json_dumps := Demo.dumps;
     py_int := Demo.int;
     sqlite_integer := Demo.integer;
     openrouter_client := true;
     gemini_model := true;
     openrouter_create := fun _ model _ => answer model;
     gemini_generate := fun _ _ => ApiFail "connection reset";
     weather_lookup := fun _ _ => WeatherNoCity;
     now_plus_days := fun _ => "2026-01-01T00:00:00";
     system_instruction := fun user_id language => "You are TodoEvolve.";
     constraint_error := "constraint failed" |}.

(** The model asks for detect_language once, in its first answer, and
    then answers in prose. *)
Definition one_tool : Env :=
  Demo.world true true
    (fun k => if Nat.eqb k 1 then ApiOk Demo.detect_call else ApiOk "It is English.")
    (fun _ => ApiFail "connection reset").

(** The first model is out of capacity, the others answer. *)
Definition llama_down : Env :=
  by_model (fun model => if model =? "meta-llama/llama-3.3-70b-instruct"
                         then ApiFail "503 no capacity" else ApiOk "Hello!").

(** Every model fails with an error that names it. *)
Definition all_down : Env := by_model (fun model => ApiFail ("no capacity for " ++ model)).


(** A history with one message of alice and one of bob. *)
Definition two_histories : State :=
  mkState (mkSession [] [ChatMessage.mk "alice" "user" "add milk";
                         ChatMessage.mk "bob" "user" "plan my day"] []) [].

End Scenario.

(* ================================================================== *)
(** * The vocabulary of the properties *)
(* ================================================================== *)

(** [st] with the events [l] appended to its trace. *)
Definition logged (l : list event) (st : State) : State :=
  mkState (session st) (trace st ++ l)%list.

(** What one failed attempt that is no rate limit leaves in the trace:
    the log line, and the pause when another attempt is to come. *)
Definition failed_attempt (provider_name error : string) (max_retries attempt : nat)
    : list event :=
  (AttemptFailed provider_name (attempt + 1) error
     :: (if (Z.of_nat attempt <? Z.of_nat max_retries - 1)%Z
         then [Sleep (1 * (attempt + 1))] else []))%list.

(** The trace of [count] failed attempts from [attempt] on. *)
Fixpoint failed_attempts (provider_name error : string) (max_retries attempt count : nat)
    : list event :=
  match count with
  | O => []
  | S c => failed_attempt provider_name error max_retries attempt
             ++ failed_attempts provider_name error max_retries (S attempt) c
  end%list.

(** Names by which a provider or one of its models could show in a text. *)
Definition provider_words : list string :=
  ([ "OpenRouter"; "Gemini"; "gemini/1.5-flash"; "llama"; "mistral"; "gpt"; "google" ]
     ++ Engine.OPENROUTER_MODELS)%list.

(** What [json.loads] makes of [s], when it makes a value of it: an
    attempt under [except Exception]. *)
Definition parsed `{Env} (s : string) : option json :=
  match json_loads s with inl v => Some v | inr _ => None end.

(** The inner content of the first block that [fence] opens, parsed. *)
Definition parsed_block `{Env} (fence text : string) : option json :=
  match Engine.fenced_block fence text with
  | Return block => parsed block
  | Raise _ => None
  end.

(** The outermost brace span, parsed. *)
Definition parsed_braces `{Env} (text : string) : option json :=
  match Text.search_braces text with
  | Some span => parsed span
  | None => None
  end.

(** The first attempt that gave a value; Python's [None] when none did. *)
Fixpoint first_success (attempts : list (option json)) : json :=
  match attempts with
  | [] => JNull
  | Some v :: _ => v
  | None :: rest => first_success rest
  end.

(** The interpreter in the words of the design document: four attempts,
    one after the other. *)
Definition four_step_cascade `{Env} (text : string) : json :=
  first_success
    [ parsed text;
      if Text.contains "```json" text then parsed_block "```json" text else None;
      if Text.contains "```" text then parsed_block "```" text else None;
      parsed_braces text ]%list.

(** No piece of [text] is a JSON document: the decoder finds each of
    them malformed. *)
Definition no_json_substring `{Env} (text : string) : Prop :=
  forall b, Text.substring_of b text -> exists error, json_loads b = inr (Malformed error).

Fixpoint prefixes (s : string) : list string :=
  (EmptyString ::
     match s with
     | EmptyString => []
     | String c r => map (String c) (prefixes r)
     end)%list.

(** All the contiguous pieces of [s]. *)
Fixpoint substrings (s : string) : list string :=
  (prefixes s ++
     match s with
     | EmptyString => []
     | String _ r => substrings r
     end)%list.

(** The events of the network and of the gateway, as opposed to the two
    log lines of the conversation loop. *)
Definition network (e : event) : Prop :=
  match e with
  | TurnStarted _ | ToolExecuting _ => False
  | _ => True
  end.

(** [m] touches nothing but the trace, and adds only network events. *)
Definition only_logs {A} (m : M A) : Prop :=
  forall st, exists l, snd (m st) = logged l st /\ Forall network l.

(** The session [s] with [objs] added to its unit of work. *)
Definition queue (objs : list pending_obj) (s : Session) : Session :=
  mkSession (tasks s) (chat_messages s) (pending s ++ objs)%list.

(** The session [s] after [session.commit()], whether it went through or
    was rolled back. *)
Definition committed (s : Session) : Session :=
  match Db.flush (pending s) (tasks s) (chat_messages s) [] with
  | Some (rows, msgs, _) => mkSession rows msgs []
  | None => mkSession (tasks s) (chat_messages s) []
  end.

(** An object a tool may put in the unit of work on behalf of [u]: a new
    Task of [u], or a change to or the removal of a row of [u]. *)
Definition owned_obj (u : string) (rows : list Task.t) (o : pending_obj) : Prop :=
  match o with
  | NewTask d => Task.d_user_id d = u
  | Dirty x' =>
      exists x, In x rows /\ Task.owned_by u x = true
                /\ Task.id x' = Task.id x /\ Task.user_id x' = Task.user_id x
  | Deleted x => In x rows /\ Task.owned_by u x = true
  | Unwritable => True
  | NewChatMessage _ => False
  end.

(** What running a tool for [u] can do to a state: network events in the
    trace, and objects of [u] in the unit of work, committed or not. *)
Definition tool_effect (u : string) (st st' : State) : Prop :=
  (exists l, trace st' = (trace st ++ l)%list /\ Forall network l)
  /\ exists objs,
       Forall (owned_obj u (tasks (session st))) objs
       /\ (session st' = queue objs (session st)
           \/ session st' = committed (queue objs (session st))).

(** The rows that do not belong to [u]. *)
Definition foreign (u : string) (rows : list Task.t) : list Task.t :=
  filter (fun x => negb (Task.owned_by u x)) rows.

(** [t.completed = completed; session.add(t)] as a unit-of-work entry. *)
Definition completed_entry (completed : json) (t : Task.t) : pending_obj :=
  match Task.as_bool completed with
  | Some b => Dirty (Task.with_completed b t)
  | None => Unwritable
  end.

(** The Task the planner builds from one object of the model's list. *)
Definition planned_draft (u : string) (fields : list (string * json)) : Task.draft :=
  let get key default :=
    match Py.lookup key fields with Some v => v | None => default end in
  Task.mkDraft u (get "title" (JStr "Untitled")) (get "description" (JStr ""))
               (get "priority" (JStr "medium")) (get "tags" (JList [])).

(** An entry of the unit of work that cannot touch the rows [others] of
    other users: a new Task of [u], or a change to or the removal of a row
    of [u] whose key none of [others] has. *)
Definition harmless (u : string) (others : list Task.t) (o : pending_obj) : Prop :=
  match o with
  | NewTask d => Task.d_user_id d = u
  | Dirty x => Task.user_id x = u /\ forall y, In y others -> Task.id y <> Task.id x
  | Deleted x => forall y, In y others -> Task.id y <> Task.id x
  | NewChatMessage _ | Unwritable => True
  end.

(** The keys of the table are distinct, and nothing in the unit of work
    can touch a row of another user. *)
Definition isolated (u : string) (s : Session) : Prop :=
  NoDup (map Task.id (tasks s))
  /\ Forall (harmless u (foreign u (tasks s))) (pending s).

(** No ChatMessage waits in the unit of work. *)
Definition no_chat_pending (objs : list pending_obj) : Prop :=
  Forall (fun o => match o with NewChatMessage _ => False | _ => True end) objs.

(** What the loop does to the history: nothing, or, when it returns a
    final answer, one assistant message with that answer. *)
Definition history_step (u : string) (before : list ChatMessage.t)
    (r : outcome json) (after : list ChatMessage.t) : Prop :=
  after = before
  \/ exists text action tool model,
       r = Return (Chat.reply text action tool model)
       /\ after = (before ++ [ChatMessage.mk u "assistant" text])%list.





(** Where the loop stands between two turns: the messages so far, the
    state, and the loop's variables. *)
Record progress : Type := mkProgress {
  loop_messages : list message;
  loop_state : State;
  loop_action_performed : bool;
  loop_last_tool_name : json;
  loop_used_model : json
}.

(** Where the loop stands before its first turn. *)
Definition loop_start `{Env} (request : Chat.ChatRequest) (u : string) (st : State) : progress :=
  mkProgress (Chat.initial_messages request u) st false JNull JNull.

(** Turn [turn_count] is a tool turn that takes the loop from [p] to [q]:
    the gateway is asked once, with the messages so far; the interpreter
    extracts a non-empty value from its answer; the value names
    [tool_name] and its arguments; the executor is called once, with
    them, and returns a result; the answer and the result join the
    messages. *)
Definition tool_turn `{Env} (turn_count : nat) (u : string) (p : progress)
    (tool_name : json) (q : progress) : Prop :=
  exists ai_message used_model st1 tool_call_data tool_args tool_result st2,
    Engine.dual_provider_chat (loop_messages p)
      (logged [TurnStarted turn_count] (loop_state p))
    = (Return (ai_message, used_model), st1)
    /\ Engine.extract_json ai_message = Return tool_call_data
    /\ Py.truthy tool_call_data = true
    /\ py_get tool_call_data "tool" JNull = Return tool_name
    /\ py_get tool_call_data "arguments" (JDict []) = Return tool_args
    /\ Tools.handle_tool_call tool_name tool_args u (logged [ToolExecuting tool_name] st1)
       = (Return tool_result, st2)
    /\ q = mkProgress (loop_messages p ++ Chat.tool_exchange ai_message tool_result)%list
                      st2 true tool_name (JStr used_model).

(** Tool turns in a row after turn [turn_count], one for each of
    [tool_names], in that order. *)
Fixpoint tool_turns `{Env} (u : string) (turn_count : nat) (p : progress)
    (tool_names : list json) (q : progress) : Prop :=
  match tool_names with
  | [] => q = p
  | tool_name :: rest =>
      exists mid,
        tool_turn (S turn_count) u p tool_name mid
        /\ tool_turns u (S turn_count) mid rest q
  end.

(** What [Chat.turns] does with a final answer: it stores the answer and
    returns it with the loop's variables. *)
Definition final_answer `{Env} (u : string) (p : progress) (ai_message used_model : string)
    : M json :=
  Sess.add (NewChatMessage (ChatMessage.mk u "assistant" ai_message)) ;;;
  Sess.commit ;;;
  ret (Chat.reply ai_message (loop_action_performed p) (loop_last_tool_name p)
         (JStr used_model)).

(** Turn [turn_count] ends the run from [p] with [r] in [st']: the
    gateway is asked once; then the interpreter raises, or what it
    extracts is empty and the answer is final, or the invocation cannot be
    read, or the executor is called once and raises. *)
Definition last_turn `{Env} (turn_count : nat) (u : string) (p : progress)
    (r : outcome json) (st' : State) : Prop :=
  exists ai_message used_model st1,
    Engine.dual_provider_chat (loop_messages p)
      (logged [TurnStarted turn_count] (loop_state p))
    = (Return (ai_message, used_model), st1)
    /\ match Engine.extract_json ai_message with
       | Raise e => r = Raise e /\ st' = st1
       | Return tool_call_data =>
           if Py.truthy tool_call_data then
             match py_get tool_call_data "tool" JNull,
                   py_get tool_call_data "arguments" (JDict []) with
             | Return tool_name, Return tool_args =>
                 exists e,
                   Tools.handle_tool_call tool_name tool_args u
                     (logged [ToolExecuting tool_name] st1) = (Raise e, st')
                   /\ r = Raise e
             | Raise e, _ | _, Raise e => r = Raise e /\ st' = st1
             end
           else final_answer u p ai_message used_model st1 = (r, st')
       end.




(** Two rows that [u] cannot tell apart: they have the same key, and
    either both are the same row of [u], or both belong to other users. *)
Definition same_to (u : string) (x y : Task.t) : Prop :=
  Task.id x = Task.id y
  /\ ((Task.owned_by u x = true /\ x = y)
      \/ (Task.owned_by u x = false /\ Task.owned_by u y = false)).

(** Two states that differ at most in what the rows of other users hold
    and in who, other than [u], owns them. *)
Definition alike (u : string) (st1 st2 : State) : Prop :=
  Forall2 (same_to u) (tasks (session st1)) (tasks (session st2))
  /\ pending (session st1) = pending (session st2)
  /\ trace st1 = trace st2.

(** [m] returns the same, and leaves alike states, when it is run in
    alike states: nothing of the other users' rows shows in its result or
    gets into the rows of [u]. *)
Definition blind {A} (u : string) (m : M A) : Prop :=
  forall st1 st2, alike u st1 st2 ->
    fst (m st1) = fst (m st2) /\ alike u (snd (m st1)) (snd (m st2)).

(** The sum of what [f] charges for the events of [l]. *)
Definition weight (f : event -> nat) (l : list event) : nat := list_sum (map f l).

Definition is_openrouter_call (e : event) : nat :=
  match e with OpenRouterCall _ _ => 1 | _ => 0 end.

Definition is_gemini_call (e : event) : nat :=
  match e with GeminiCall _ => 1 | _ => 0 end.

Definition pause_of (e : event) : nat :=
  match e with Sleep seconds => seconds | _ => 0 end.

(** [m] touches nothing but the trace, and what it appends weighs at most
    [k] under [f]. *)
Definition costs {A} (f : event -> nat) (m : M A) (k : nat) : Prop :=
  forall st, exists l, snd (m st) = logged l st /\ (weight f l <= k)%nat.

(** The pauses of one provider's loop over [attempts]. *)
Definition pauses (max_retries : nat) (attempts : list nat) : nat :=
  list_sum (map (fun a => if (a <? max_retries - 1)%nat then a + 1 else 0)%nat attempts).

(** What [model.split('/')[1].split(':')[0]] makes of the configured
    models, after "openrouter/". *)
Definition openrouter_labels : list string :=
  [ "openrouter/llama-3.3-70b-instruct"; "openrouter/gemini-2.0-flash-001";
    "openrouter/mistral-large-2411"; "openrouter/gpt-4o-mini" ]%list.

(** The identifiers the gateway can return with a text. *)
Definition provider_labels : list string :=
  (openrouter_labels ++ ["gemini/1.5-flash"; "fallback"])%list.

(** [m], when it returns, returns a value in [P]. *)
Definition yields {A} (P : A -> Prop) (m : M A) : Prop :=
  forall st r st', m st = (Return r, st') -> P r.

Definition known_role (msg : message) : bool :=
  (role msg =? "system") || (role msg =? "user") || (role msg =? "assistant").

(** Every exception [m] raises is in [P]. *)
Definition throws {A} (P : exn -> Prop) (m : M A) : Prop :=
  forall st e st', m st = (Raise e, st') -> P e.

(** [name] is one of the names [list_tools] advertises. *)
Definition advertised (name : json) : bool :=
  existsb (Tools.named name) Tools.tool_names.

(** The classes of the exceptions a handler lets out: a value of the
    wrong type in the arguments, or a statement the database refuses. *)
Definition handler_error (e : exn) : Prop :=
  In (exn_class_of e) [AttributeError; TypeError; DatabaseError]%list.

(** [e] is what [int] raises on the text given to list_tasks as limit. *)
Definition limit_refused `{Env} (name arguments : json) (e : exn) : Prop :=
  Tools.named name "list_tasks" = true
  /\ exists s error,
       py_get arguments "limit" (JNum 20) = Return (JStr s)
       /\ py_int s = inr error
       /\ e = mkExn ValueError error.

(** A LIKE pattern piece without the wildcards [%] and [_]. *)
Fixpoint plain (p : string) : bool :=
  match p with
  | EmptyString => true
  | String c p' => negb (Ascii.eqb c "%"%char) && negb (Ascii.eqb c "_"%char) && plain p'
  end.

(** The text holds U+0130 or U+212A, the two characters outside ASCII
    whose lower case has an ASCII letter in it. *)
Definition folds_into_ascii (s : string) : bool :=
  Text.contains (Text.bytes [196; 176]) s || Text.contains (Text.bytes [226; 132; 170]) s.

(** A text of ASCII characters only. *)
Fixpoint ascii_only (s : string) : bool :=
  match s with
  | EmptyString => true
  | String c s' => (nat_of_ascii c <? 128)%nat && ascii_only s'
  end.

(** An answer of the endpoint built by [reply]. *)
Definition is_reply (r : json) : Prop :=
  exists text action tool model, r = Chat.reply text action tool model.

(** The state in which the conversation starts: the user's message is
    stored and nothing waits in the session. *)
Definition with_user_message (request : Chat.ChatRequest) (u : string) (st : State) : State :=
  mkState (mkSession (tasks (session st))
             (chat_messages (session st)
                ++ [ChatMessage.mk u "user" (Chat.message_of request)])%list [])
          (trace st).

(** The messages of [u] in the history of [st], oldest first. *)
Definition history_of (u : string) (st : State) : list ChatMessage.t :=
  filter (ChatHistory.own u) (chat_messages (session st)).

(** The log has a failed attempt of [provider_name]. *)
Definition has_failed_attempt (provider_name : string) (l : list event) : Prop :=
  exists attempt error, In (AttemptFailed provider_name attempt error) l.

(* ================================================================== *)
(** * Properties *)
(* ================================================================== *)

Ltac run :=
  unfold bind, try_except, ret, raise, lift, emit, clock, get_session, set_session,
    Engine.sleep in *; cbn [fst snd] in *.

Section TextFacts.

Lemma append_assoc_s (a b c : string) : ((a ++ b) ++ c = a ++ (b ++ c))%string.
Proof. induction a as [|x a IH]; cbn; [reflexivity | now rewrite IH]. Qed.

Lemma append_empty_r (a : string) : (a ++ "" = a)%string.
Proof. induction a as [|x a IH]; cbn; [reflexivity | now rewrite IH]. Qed.

Lemma substring_of_refl (s : string) : Text.substring_of s s.
Proof. exists EmptyString, EmptyString. cbn. now rewrite append_empty_r. Qed.

Lemma substring_of_trans (a b c : string) :
  Text.substring_of a b -> Text.substring_of b c -> Text.substring_of a c.
Proof.
  intros (p1 & q1 & ->) (p2 & q2 & ->).
  exists (p2 ++ p1)%string, (q1 ++ q2)%string.
  now rewrite !append_assoc_s.
Qed.

Lemma substring_of_suffix (pre s : string) : Text.substring_of s (pre ++ s).
Proof. exists pre, EmptyString. now rewrite append_empty_r. Qed.

Lemma substring_of_prefix (s post : string) : Text.substring_of s (s ++ post).
Proof. now exists EmptyString, post. Qed.

Lemma take_drop (n : nat) (s : string) : (Text.take n s ++ Text.drop n s)%string = s.
Proof.
  revert s. induction n as [|n IH]; intros [|c s]; cbn; try reflexivity.
  now rewrite IH.
Qed.

Lemma starts_with_drop (p s : string) :
  Text.starts_with p s = true -> s = (p ++ Text.drop (String.length p) s)%string.
Proof.
  revert s. induction p as [|a p IH]; intros s Hs; [reflexivity|].
  destruct s as [|b s]; [discriminate|]. cbn in Hs.
  apply andb_true_iff in Hs as [Hab Hs]. apply Ascii.eqb_eq in Hab as ->.
  cbn. now rewrite <- IH.
Qed.

(** Every piece of a split is a piece of the text. *)
Lemma split_go_substring (sep : string) (s : string) :
  forall skip acc pre x,
    (skip <> 0%nat -> acc = EmptyString) ->
    In x (Text.split_go sep skip acc s) ->
    Text.substring_of x (pre ++ acc ++ s).
Proof.
  induction s as [|c s IH]; intros skip acc pre x Hacc Hin.
  - cbn in Hin. destruct Hin as [<-|[]]. exists pre, EmptyString. reflexivity.
  - cbn [Text.split_go] in Hin. destruct skip as [|k].
    + destruct (Text.starts_with sep (String c s)).
      * destruct Hin as [<-|Hin].
        -- now exists pre, (String c s).
        -- specialize (IH _ EmptyString (pre ++ acc ++ String c EmptyString)%string x
                          (fun _ => eq_refl) Hin).
           cbn in IH. now rewrite !append_assoc_s in IH.
      * specialize (IH 0%nat _ pre x (fun E => False_ind _ (E eq_refl)) Hin).
        now rewrite append_assoc_s in IH.
    + rewrite (Hacc (Nat.neq_succ_0 k)) in *.
      specialize (IH k EmptyString (pre ++ String c EmptyString)%string x
                     (fun _ => eq_refl) Hin).
      cbn in IH. now rewrite append_assoc_s in IH.
Qed.

Lemma split_substring (sep s x : string) :
  In x (Text.split sep s) -> Text.substring_of x s.
Proof.
  intros Hin.
  apply (split_go_substring sep s 0 EmptyString EmptyString x); [congruence | exact Hin].
Qed.

Lemma drop_first_of_suffix (toks : list string) (s s' : string) :
  Text.drop_first_of toks s = Some s' -> exists t, s = (t ++ s')%string.
Proof.
  induction toks as [|t toks IH]; cbn; [discriminate|].
  destruct (Text.starts_with t s) eqn:Ht; [|exact IH].
  intros [= <-]. exists t. now apply starts_with_drop.
Qed.

Lemma lstrip_fuel_suffix (fuel : nat) (s : string) :
  exists pre, s = (pre ++ Text.lstrip_fuel fuel s)%string.
Proof.
  revert s. induction fuel as [|f IH]; intros s; cbn [Text.lstrip_fuel].
  - now exists EmptyString.
  - destruct (Text.drop_first_of Text.py_whitespace s) as [s'|] eqn:Hd.
    + destruct (drop_first_of_suffix _ _ _ Hd) as (t & ->).
      destruct (IH s') as (pre & Hpre).
      exists (t ++ pre)%string. rewrite append_assoc_s. now rewrite <- Hpre.
    + now exists EmptyString.
Qed.

Lemma rstrip_prefix (s : string) : exists post, s = (Text.rstrip s ++ post)%string.
Proof.
  induction s as [|c s (post & IH)]; cbn [Text.rstrip].
  - now exists EmptyString.
  - destruct (Text.all_space (String c s)).
    + now exists (String c s).
    + exists post. cbn. now rewrite <- IH.
Qed.

Lemma strip_substring (s : string) : Text.substring_of (Text.strip s) s.
Proof.
  unfold Text.strip, Text.lstrip.
  destruct (lstrip_fuel_suffix (String.length s) s) as (pre & Hpre).
  destruct (rstrip_prefix (Text.lstrip_fuel (String.length s) s)) as (post & Hpost).
  exists pre, post. now rewrite <- Hpost.
Qed.

Lemma search_braces_substring (s x : string) :
  Text.search_braces s = Some x -> Text.substring_of x s.
Proof.
  unfold Text.search_braces.
  destruct (Text.find "{" s) as [i|]; [|discriminate].
  destruct (Text.rfind_char "}" (Text.drop i s)) as [j|]; [|discriminate].
  intros [= <-].
  apply substring_of_trans with (b := Text.drop i s).
  - rewrite <- (take_drop (S j) (Text.drop i s)) at 2. apply substring_of_prefix.
  - rewrite <- (take_drop i s) at 2. apply substring_of_suffix.
Qed.

Lemma fenced_block_substring (fence text block : string) :
  Engine.fenced_block fence text = Return block -> Text.substring_of block text.
Proof.
  unfold Engine.fenced_block, Engine.item.
  destruct (nth_error (Text.split fence text) 1) as [after|] eqn:H1; [|discriminate].
  destruct (nth_error (Text.split "```" after) 0) as [inner|] eqn:H2; [|discriminate].
  intros [= <-].
  apply substring_of_trans with (b := inner); [apply strip_substring|].
  apply substring_of_trans with (b := after).
  - eapply split_substring, nth_error_In, H2.
  - eapply split_substring, nth_error_In, H1.
Qed.

End TextFacts.

Section OnlyLogs.

Lemma logged_nil st : logged [] st = st.
Proof. destruct st; unfold logged; cbn. now rewrite app_nil_r. Qed.

Lemma logged_app l1 l2 st : logged l2 (logged l1 st) = logged (l1 ++ l2)%list st.
Proof. unfold logged; cbn. now rewrite app_assoc. Qed.

Lemma only_logs_ret {A} (a : A) : only_logs (ret a).
Proof. intros st. exists []. now rewrite logged_nil. Qed.

Lemma only_logs_raise {A} (e : exn) : only_logs (@raise A e).
Proof. intros st. exists []. now rewrite logged_nil. Qed.

Lemma only_logs_lift {A} (o : outcome A) : only_logs (lift o).
Proof. intros st. exists []. now rewrite logged_nil. Qed.

Lemma only_logs_clock : only_logs clock.
Proof. intros st. exists []. now rewrite logged_nil. Qed.

Lemma only_logs_emit (e : event) : network e -> only_logs (emit e).
Proof. intros He st. exists [e]. split; [reflexivity | now constructor]. Qed.

Lemma only_logs_bind {A B} (m : M A) (k : A -> M B) :
  only_logs m -> (forall a, only_logs (k a)) -> only_logs (bind m k).
Proof.
  intros Hm Hk st. unfold bind.
  destruct (Hm st) as (l1 & E1 & F1). destruct (m st) as [[a|e] st1]; cbn in E1; subst st1.
  - destruct (Hk a (logged l1 st)) as (l2 & E2 & F2).
    exists (l1 ++ l2)%list. rewrite E2, logged_app. split; [reflexivity|].
    apply Forall_app; now split.
  - now exists l1.
Qed.

Lemma only_logs_try_except {A} (m : M A) (h : exn -> M A) :
  only_logs m -> (forall e, only_logs (h e)) -> only_logs (try_except m h).
Proof.
  intros Hm Hh st. unfold try_except.
  destruct (Hm st) as (l1 & E1 & F1). destruct (m st) as [[a|e] st1]; cbn in E1; subst st1.
  - now exists l1.
  - destruct (Hh e (logged l1 st)) as (l2 & E2 & F2).
    exists (l1 ++ l2)%list. rewrite E2, logged_app. split; [reflexivity|].
    apply Forall_app; now split.
Qed.

Lemma only_logs_session {A} (m : M A) (st : State) :
  only_logs m -> session (snd (m st)) = session st.
Proof. intros Hm. destruct (Hm st) as (l & -> & _). reflexivity. Qed.

End OnlyLogs.

Create HintDb logs.
#[local] Hint Resolve only_logs_ret only_logs_raise only_logs_lift only_logs_clock
  only_logs_emit only_logs_bind only_logs_try_except : logs.

Section Gateway.
Context `{Env}.

(** A rate-limited attempt ends the provider's loop. *)
Lemma retry_break name p n attempt rest st e st1 :
  p st = (Raise e, st1) ->
  Engine.rate_limited e = true ->
  Engine.retry_loop name p n (attempt :: rest) st
  = (Return None, logged [AttemptFailed name (attempt + 1) (exn_str e)] st1).
Proof.
  intros Hp Hr. cbn [Engine.retry_loop]. run. rewrite Hp. cbn. now rewrite Hr.
Qed.

(** Any other failed attempt is followed by the next one. *)
Lemma retry_again name p n attempt rest st e st1 :
  p st = (Raise e, st1) ->
  Engine.rate_limited e = false ->
  Engine.retry_loop name p n (attempt :: rest) st
  = Engine.retry_loop name p n rest
      (logged (failed_attempt name (exn_str e) n attempt) st1).
Proof.
  intros Hp Hr. cbn [Engine.retry_loop]. run. rewrite Hp. cbn. rewrite Hr.
  unfold failed_attempt.
  destruct (Z.of_nat attempt <? Z.of_nat n - 1)%Z; cbn.
  - unfold logged; cbn. now rewrite <- app_assoc.
  - reflexivity.
Qed.

Lemma retry_success name p n attempt rest st r st1 :
  p st = (Return r, st1) ->
  Engine.retry_loop name p n (attempt :: rest) st = (Return (Some r), st1).
Proof. intros Hp. cbn [Engine.retry_loop]. run. now rewrite Hp. Qed.

(** A provider that raises whenever it is called ends its loop with no
    answer. *)
Lemma retry_loop_all_fail name p n :
  (forall st, exists e st1, p st = (Raise e, st1)) ->
  forall attempts st, exists st1,
    Engine.retry_loop name p n attempts st = (Return None, st1).
Proof.
  intros Hp. induction attempts as [|a rest IH]; intros st.
  - eexists. reflexivity.
  - destruct (Hp st) as (e & st1 & He).
    destruct (Engine.rate_limited e) eqn:Hr.
    + eexists. eapply retry_break; eassumption.
    + rewrite (retry_again _ _ _ _ _ _ _ _ He Hr). apply IH.
Qed.

(** A provider that raises [e] without doing anything is attempted
    [count] times, with the pauses between. *)
Lemma retry_loop_idle name p n e :
  (forall st, p st = (Raise e, st)) ->
  Engine.rate_limited e = false ->
  forall count attempt st,
    Engine.retry_loop name p n (seq attempt count) st
    = (Return None, logged (failed_attempts name (exn_str e) n attempt count) st).
Proof.
  intros Hp Hr. induction count as [|c IH]; intros attempt st.
  - cbn. now rewrite logged_nil.
  - cbn [seq failed_attempts].
    rewrite (retry_again _ _ _ _ _ _ _ _ (Hp st) Hr), IH.
    now rewrite logged_app.
Qed.

Lemma try_models_all_fail messages :
  (forall k model msgs, exists error, openrouter_create k model msgs = ApiFail error) ->
  forall models last st,
    exists e st1, Engine.try_models models messages last st = (Raise e, st1).
Proof.
  intros Hf. induction models as [|m rest IH]; intros last st.
  - cbn. run. eauto.
  - cbn [Engine.try_models]. unfold Engine.try_model, Engine.openrouter_request. run.
    destruct (Hf (List.length (trace st)) m messages) as (err & ->). cbn.
    apply IH.
Qed.

Lemma call_openrouter_all_fail messages :
  (forall k model msgs, exists error, openrouter_create k model msgs = ApiFail error) ->
  forall st, exists e st1, Engine.call_openrouter messages st = (Raise e, st1).
Proof.
  intros Hf st. unfold Engine.call_openrouter.
  destruct openrouter_client.
  - now apply try_models_all_fail.
  - run. eauto.
Qed.

Lemma call_gemini_all_fail messages :
  (forall k prompt, exists error, gemini_generate k prompt = ApiFail error) ->
  forall st, exists e st1, Engine.call_gemini messages st = (Raise e, st1).
Proof.
  intros Hf st. unfold Engine.call_gemini.
  destruct gemini_model.
  - run. destruct (Hf (List.length (trace st)) (Engine.full_prompt messages)) as (err & ->).
    cbn. eauto.
  - run. eauto.
Qed.

(** The gateway has no path on which it raises. *)
Lemma retry_loop_returns name p n attempts st :
  exists r st1, Engine.retry_loop name p n attempts st = (Return r, st1).
Proof.
  revert st. induction attempts as [|a rest IH]; intros st.
  - cbn. run. eauto.
  - cbn [Engine.retry_loop]. run. destruct (p st) as [[r|e] st1]; cbn.
    + eauto.
    + destruct (Engine.rate_limited e); [eauto|].
      destruct (Z.of_nat a <? Z.of_nat n - 1)%Z; cbn; apply IH.
Qed.

Lemma providers_loop_returns ps n st :
  exists r st1, Engine.providers_loop ps n st = (Return r, st1).
Proof.
  revert st. induction ps as [|[name p] rest IH]; intros st.
  - cbn. run. eauto.
  - cbn [Engine.providers_loop]. run.
    destruct (retry_loop_returns name p n (seq 0 n) st) as (r & st1 & ->).
    destruct r; [eauto | apply IH].
Qed.

Lemma dual_provider_chat_with_returns messages n st :
  exists r st1, Engine.dual_provider_chat_with messages n st = (Return r, st1).
Proof.
  unfold Engine.dual_provider_chat_with. run.
  destruct (providers_loop_returns (Engine.providers messages) n st) as (r & st1 & ->).
  destruct r; eauto.
Qed.

Lemma dual_provider_chat_returns messages st :
  exists r st1, Engine.dual_provider_chat messages st = (Return r, st1).
Proof. apply dual_provider_chat_with_returns. Qed.

Lemma try_models_only_logs models messages last :
  only_logs (Engine.try_models models messages last).
Proof.
  revert last. induction models as [|m rest IH]; intros last; cbn [Engine.try_models].
  - auto with logs.
  - apply only_logs_try_except; [|intros; apply IH].
    unfold Engine.try_model, Engine.openrouter_request.
    repeat (apply only_logs_bind; [|intros]); auto with logs.
    + apply only_logs_emit. exact I.
    + destruct (openrouter_create _ _ _); auto with logs.
Qed.

Lemma call_openrouter_only_logs messages : only_logs (Engine.call_openrouter messages).
Proof.
  unfold Engine.call_openrouter. destruct openrouter_client; auto with logs.
  apply try_models_only_logs.
Qed.

Lemma call_gemini_only_logs messages : only_logs (Engine.call_gemini messages).
Proof.
  unfold Engine.call_gemini. destruct gemini_model; auto with logs.
  repeat (apply only_logs_bind; [|intros]); auto with logs.
  - apply only_logs_emit. exact I.
  - destruct (gemini_generate _ _); auto with logs.
Qed.

Lemma retry_loop_only_logs name p n attempts :
  only_logs p -> only_logs (Engine.retry_loop name p n attempts).
Proof.
  intros Hp. induction attempts as [|a rest IH]; cbn [Engine.retry_loop].
  - auto with logs.
  - apply only_logs_try_except.
    + apply only_logs_bind; auto with logs.
    + intros e. apply only_logs_bind; [apply only_logs_emit; exact I|intros _].
      destruct (Engine.rate_limited e); auto with logs.
      apply only_logs_bind; [|intros; exact IH].
      destruct (Z.of_nat a <? Z.of_nat n - 1)%Z; auto with logs.
      apply only_logs_emit. exact I.
Qed.

Lemma providers_loop_only_logs ps n :
  Forall (fun np => only_logs (snd np)) ps -> only_logs (Engine.providers_loop ps n).
Proof.
  induction 1 as [|[name p] rest Hp _ IH]; cbn [Engine.providers_loop].
  - auto with logs.
  - apply only_logs_bind; [now apply retry_loop_only_logs|].
    intros [r|]; auto with logs.
Qed.

(** The gateway touches nothing but the trace. *)
Lemma dual_provider_chat_only_logs messages :
  only_logs (Engine.dual_provider_chat messages).
Proof.
  unfold Engine.dual_provider_chat, Engine.dual_provider_chat_with.
  apply only_logs_bind.
  - apply providers_loop_only_logs. unfold Engine.providers.
    repeat constructor; cbn [snd].
    + apply call_openrouter_only_logs.
    + apply call_gemini_only_logs.
  - intros [r|]; auto with logs.
Qed.

Lemma providers_loop_all_fail ps n :
  Forall (fun np => forall st, exists e st1, snd np st = (Raise e, st1)) ps ->
  forall st, exists st1, Engine.providers_loop ps n st = (Return None, st1).
Proof.
  induction 1 as [|[name p] rest Hp _ IH]; intros st.
  - cbn. run. eauto.
  - cbn [Engine.providers_loop]. run.
    destruct (retry_loop_all_fail name p n Hp (seq 0 n) st) as (st1 & ->).
    apply IH.
Qed.

(** C2.  When every request to every provider fails, whatever the
    messages, the retry count and the errors are, the gateway returns
    (it does not raise) the fixed degraded-service text paired with the
    identifier "fallback"; the text is a constant of the program, the same
    for every failure, and names no provider and no model. *)
Theorem total_outage_returns_fallback (messages : list message) (max_retries : nat)
    (st : State) :
  (forall k model msgs, exists error, openrouter_create k model msgs = ApiFail error) ->
  (forall k prompt, exists error, gemini_generate k prompt = ApiFail error) ->
  (exists st1,
      Engine.dual_provider_chat_with messages max_retries st
      = (Return (Engine.FALLBACK_MESSAGE, "fallback"), st1))
  /\ Forall (fun w => Text.contains (Text.lower w) (Text.lower Engine.FALLBACK_MESSAGE) = false)
            provider_words.
Proof.
  intros Hor Hge. split.
  - unfold Engine.dual_provider_chat_with. run.
    destruct (providers_loop_all_fail (Engine.providers messages) max_retries) with (st := st)
      as (st1 & ->).
    + unfold Engine.providers. repeat constructor; cbn [snd]; intros st0.
      * now apply call_openrouter_all_fail.
      * now apply call_gemini_all_fail.
    + eauto.
  - unfold provider_words. cbn [app Engine.OPENROUTER_MODELS].
    repeat constructor.
Qed.

(** C5.  When attempt number [attempt] of a provider raises [e]:
    [e] counts as a rate limit exactly when its text contains "429" or,
    in lower case, "rate" or "quota"; a rate limit ends the provider's
    loop at once, with no pause and no further attempt, and the gateway
    goes on with the next provider; any other error is followed, while
    attempts remain, by a pause of 1 x (attempt + 1) seconds and the next
    attempt, and after the last attempt by nothing. *)
Theorem rate_limit_breaks_other_errors_back_off (name : string)
    (p : M (string * string)) (max_retries attempt : nat) (st st1 : State) (e : exn) :
  p st = (Raise e, st1) ->
  (attempt < max_retries)%nat ->
  let line := AttemptFailed name (attempt + 1) (exn_str e) in
  (Engine.rate_limited e
   = Text.contains "429" (exn_str e)
     || Text.contains "rate" (Text.lower (exn_str e))
     || Text.contains "quota" (Text.lower (exn_str e)))
  /\ (Engine.rate_limited e = true ->
      Engine.retry_loop name p max_retries (seq attempt (max_retries - attempt)) st
      = (Return None, logged [line] st1)
      /\ (attempt = 0%nat -> forall rest,
            Engine.providers_loop ((name, p) :: rest) max_retries st
            = Engine.providers_loop rest max_retries (logged [line] st1)))
  /\ (Engine.rate_limited e = false -> (S attempt < max_retries)%nat ->
      Engine.retry_loop name p max_retries (seq attempt (max_retries - attempt)) st
      = Engine.retry_loop name p max_retries
          (seq (S attempt) (max_retries - S attempt))
          (logged [line; Sleep (1 * (attempt + 1))] st1))
  /\ (Engine.rate_limited e = false -> S attempt = max_retries ->
      Engine.retry_loop name p max_retries (seq attempt (max_retries - attempt)) st
      = (Return None, logged [line] st1)).
Proof.
  intros Hp Hlt line.
  assert (Hseq : seq attempt (max_retries - attempt)
                 = (attempt :: seq (S attempt) (max_retries - S attempt))%list).
  { replace (max_retries - attempt)%nat with (S (max_retries - S attempt)) by lia.
    reflexivity. }
  split; [reflexivity|]. split; [intros Hr; split|split].
  - rewrite Hseq. now apply retry_break.
  - intros -> rest. cbn [Engine.providers_loop]. unfold bind at 1.
    rewrite Nat.sub_0_r in Hseq. rewrite Hseq.
    now rewrite (retry_break _ _ _ _ _ _ _ _ Hp Hr).
  - intros Hr Hmore. rewrite Hseq, (retry_again _ _ _ _ _ _ _ _ Hp Hr).
    unfold failed_attempt.
    replace (Z.of_nat attempt <? Z.of_nat max_retries - 1)%Z with true
      by (symmetry; apply Z.ltb_lt; lia).
    reflexivity.
  - intros Hr Hlast. rewrite Hseq, (retry_again _ _ _ _ _ _ _ _ Hp Hr).
    unfold failed_attempt.
    replace (Z.of_nat attempt <? Z.of_nat max_retries - 1)%Z with false
      by (symmetry; apply Z.ltb_ge; lia).
    replace (max_retries - S attempt)%nat with 0%nat by lia.
    reflexivity.
Qed.

(** C6, as the code has it.  A provider without credentials raises
    before it sends anything, and that error is no rate limit; the
    gateway handles it like every other such error: the provider is
    attempted [max_retries] times, with the pauses of the back-off
    between the attempts, and only then the next provider is tried. *)
Theorem unconfigured_provider_is_retried (messages : list message) (max_retries : nat)
    (st : State) :
  (openrouter_client = false ->
   Engine.call_openrouter messages st
   = (Raise (mkExn PlainException "OpenRouter not configured"), st)
   /\ Engine.retry_loop "OpenRouter" (Engine.call_openrouter messages)
        max_retries (seq 0 max_retries) st
      = (Return None,
         logged (failed_attempts "OpenRouter" "OpenRouter not configured"
                   max_retries 0 max_retries) st))
  /\ (gemini_model = false ->
      Engine.call_gemini messages st
      = (Raise (mkExn PlainException "Gemini not configured"), st)
      /\ Engine.retry_loop "Gemini" (Engine.call_gemini messages)
           max_retries (seq 0 max_retries) st
         = (Return None,
            logged (failed_attempts "Gemini" "Gemini not configured"
                      max_retries 0 max_retries) st)).
Proof.
  split; intros Hoff.
  - assert (Hc : forall st0, Engine.call_openrouter messages st0
                   = (Raise (mkExn PlainException "OpenRouter not configured"), st0)).
    { intros st0. unfold Engine.call_openrouter. now rewrite Hoff. }
    split; [apply Hc|].
    now apply (retry_loop_idle _ _ _ _ Hc).
  - assert (Hc : forall st0, Engine.call_gemini messages st0
                   = (Raise (mkExn PlainException "Gemini not configured"), st0)).
    { intros st0. unfold Engine.call_gemini. now rewrite Hoff. }
    split; [apply Hc|].
    now apply (retry_loop_idle _ _ _ _ Hc).
Qed.

End Gateway.

(** C2 at a concrete outage. *)
Lemma total_outage_returns_fallback_witness :
  (forall k model msgs, exists error,
      @openrouter_create Demo.outage k model msgs = ApiFail error)
  /\ (forall k prompt, exists error, @gemini_generate Demo.outage k prompt = ApiFail error)
  /\ (exists st1,
        @Engine.dual_provider_chat_with Demo.outage [] 2 Demo.empty
        = (Return (Engine.FALLBACK_MESSAGE, "fallback"), st1)).
Proof.
  assert (H1 : forall k model msgs, exists error,
               @openrouter_create Demo.outage k model msgs = ApiFail error)
    by (intros; eexists; reflexivity).
  assert (H2 : forall k prompt, exists error,
               @gemini_generate Demo.outage k prompt = ApiFail error)
    by (intros; eexists; reflexivity).
  split; [exact H1|]. split; [exact H2|].
  exact (proj1 (@total_outage_returns_fallback Demo.outage [] 2 Demo.empty H1 H2)).
Defined.

(** C5 at a concrete rate limit: one attempt on OpenRouter, then Gemini. *)
Lemma rate_limit_breaks_other_errors_back_off_witness :
  let p := @Engine.call_openrouter Demo.throttled [] in
  let e := mkExn PlainException "Error code: 429 - too many requests" in
  let st1 := snd (p Demo.empty) in
  p Demo.empty = (Raise e, st1)
  /\ (0 < 2)%nat
  /\ Engine.retry_loop "OpenRouter" p 2 (seq 0 (2 - 0)) Demo.empty
     = (Return None, logged [AttemptFailed "OpenRouter" (0 + 1) (exn_str e)] st1).
Proof.
  intros p e st1.
  assert (Hp : p Demo.empty = (Raise e, st1)) by reflexivity.
  assert (Hlt : (0 < 2)%nat) by lia.
  split; [exact Hp|]. split; [exact Hlt|].
  exact (proj1 (proj1 (proj2
           (rate_limit_breaks_other_errors_back_off
              "OpenRouter" p 2 0 Demo.empty st1 e Hp Hlt)) eq_refl)).
Defined.

(** C6 at a concrete configuration without an OpenRouter key. *)
Lemma unconfigured_provider_is_retried_witness :
  @openrouter_client Demo.no_openrouter_key = false
  /\ Engine.retry_loop "OpenRouter"
       (@Engine.call_openrouter Demo.no_openrouter_key []) 2 (seq 0 2) Demo.empty
     = (Return None,
        logged (failed_attempts "OpenRouter" "OpenRouter not configured" 2 0 2) Demo.empty).
Proof.
  split; [reflexivity|].
  exact (proj2 (proj1 (@unconfigured_provider_is_retried Demo.no_openrouter_key
                         [] 2 Demo.empty) eq_refl)).
Defined.

(** C6 as stated fails: with no OpenRouter key the gateway does not move on
    at once.  It makes both attempts of the default retry count on
    OpenRouter and pauses a second between them before it calls Gemini. *)
Lemma unconfigured_provider_burns_retries :
  trace (snd (@Engine.dual_provider_chat Demo.no_openrouter_key [] Demo.empty))
  = [ AttemptFailed "OpenRouter" 1 "OpenRouter not configured";
      Sleep 1;
      AttemptFailed "OpenRouter" 2 "OpenRouter not configured";
      GeminiCall "Assistant:" ]%list
  /\ trace (snd (@Engine.dual_provider_chat Demo.no_openrouter_key [] Demo.empty))
     <> [ AttemptFailed "OpenRouter" 1 "OpenRouter not configured";
          GeminiCall "Assistant:" ]%list.
Proof. split; [reflexivity | discriminate]. Qed.

Section Interpreter.
Context `{Env}.

Lemma from_fences_attempt (text : string) :
  Engine.from_fences text
  = if Text.contains "```json" text then parsed_block "```json" text
    else if Text.contains "```" text then parsed_block "```" text
    else None.
Proof.
  unfold Engine.from_fences, parsed_block, parsed.
  destruct (Text.contains "```json" text).
  - destruct (Engine.fenced_block "```json" text); reflexivity.
  - destruct (Text.contains "```" text); [|reflexivity].
    destruct (Engine.fenced_block "```" text); reflexivity.
Qed.

Lemma from_braces_attempt (text : string) :
  Engine.from_braces text = parsed_braces text.
Proof. reflexivity. Qed.

Lemma no_json_parsed (text b : string) :
  no_json_substring text -> Text.substring_of b text -> parsed b = None.
Proof. intros Hno Hb. destruct (Hno b Hb) as (error & E). unfold parsed. now rewrite E. Qed.

Lemma parsed_block_none (fence text : string) :
  no_json_substring text -> parsed_block fence text = None.
Proof.
  intros Hno. unfold parsed_block.
  destruct (Engine.fenced_block fence text) as [block|] eqn:Hb; [|reflexivity].
  apply (no_json_parsed text); [assumption|]. now apply fenced_block_substring in Hb.
Qed.

Lemma extract_json_prose (text : string) :
  no_json_substring text -> Engine.extract_json text = Return JNull.
Proof.
  intros Hno. unfold Engine.extract_json.
  destruct (Hno text (substring_of_refl text)) as (error & H0). rewrite H0.
  rewrite from_fences_attempt, !parsed_block_none by assumption.
  rewrite from_braces_attempt. unfold parsed_braces.
  destruct (Text.search_braces text) as [span|] eqn:Hs.
  - rewrite (no_json_parsed text span Hno (search_braces_substring _ _ Hs)).
    now destruct (Text.contains "```json" text), (Text.contains "```" text).
  - now destruct (Text.contains "```json" text), (Text.contains "```" text).
Qed.

(** A final answer ends the loop in the turn it arrives in. *)
Lemma turns_final_answer (remaining : nat) (current_user : string)
    (messages : list message) (action_performed : bool) (last_tool_name used_model : json)
    (st st1 : State) (text model : string) (tool_call_data : json) :
  pending (session st) = [] ->
  Engine.dual_provider_chat messages
    (logged [TurnStarted (Chat.MAX_TURNS - remaining)] st) = (Return (text, model), st1) ->
  Engine.extract_json text = Return tool_call_data ->
  Py.truthy tool_call_data = false ->
  Chat.turns (S remaining) current_user messages action_performed last_tool_name used_model st
  = (Return (Chat.reply text action_performed last_tool_name (JStr model)),
     mkState (mkSession (tasks (session st))
                (chat_messages (session st)
                   ++ [ChatMessage.mk current_user "assistant" text])%list [])
             (trace st1)).
Proof.
  intros Hpend Hai Hcall Hfalse.
  pose proof (only_logs_session _ (logged [TurnStarted (Chat.MAX_TURNS - remaining)] st)
                (dual_provider_chat_only_logs messages)) as Hs.
  rewrite Hai in Hs. cbn in Hs.
  cbn [Chat.turns]. unfold bind at 1. unfold emit at 1. unfold bind at 1.
  change (mkState (session st) (trace st ++ [TurnStarted (Chat.MAX_TURNS - remaining)])%list)
    with (logged [TurnStarted (Chat.MAX_TURNS - remaining)] st).
  rewrite Hai. cbn [fst snd]. rewrite Hcall. unfold bind at 1. unfold lift at 1.
  cbn [fst snd]. rewrite Hfalse. cbn [negb].
  unfold Sess.add, Sess.commit. run. rewrite Hs, Hpend. reflexivity.
Qed.

(** C3, as the code has it.  The interpreter makes three attempts and
    returns the first value it gets: (1) the whole text; (2) the inner
    content of one fenced block, the first one labelled json when the text
    has such a label, and the first fenced block of any kind only when it
    has none; (3) the span from the first opening brace to the last
    closing brace.  When all fail it returns nothing.  The first attempt
    gives way to the next on a JSONDecodeError only: when the decoder
    gives up on the whole text for its nesting or for the length of an
    integer, the interpreter raises the decoder's exception and makes no
    other attempt.  So a text no piece of which is JSON yields nothing,
    and when the first answer of a conversation is such a text the loop
    ends in turn 1 and returns it as the final answer. *)
Theorem extract_json_first_success (text : string) :
  Engine.extract_json text
  = match json_loads text with
    | inr (TooDeep error) => Raise (mkExn RecursionError error)
    | inr (TooLong error) => Raise (mkExn ValueError error)
    | inl _ | inr (Malformed _) =>
        Return (first_success
                  [ parsed text;
                    if Text.contains "```json" text then parsed_block "```json" text
                    else if Text.contains "```" text then parsed_block "```" text
                    else None;
                    parsed_braces text ]%list)
    end
  /\ (no_json_substring text -> Engine.extract_json text = Return JNull)
  /\ (no_json_substring text ->
      forall request current_user st st1 model,
        pending (session st) = [] ->
        Engine.dual_provider_chat (Chat.initial_messages request current_user)
          (logged [TurnStarted 1] st) = (Return (text, model), st1) ->
        Chat.conversation request current_user st
        = (Return (Chat.reply text false JNull (JStr model)),
           mkState (mkSession (tasks (session st))
                      (chat_messages (session st)
                         ++ [ChatMessage.mk current_user "assistant" text])%list [])
                   (trace st1))
        /\ exists l, trace st1 = (trace st ++ TurnStarted 1 :: l)%list /\ Forall network l).
Proof.
  split; [|split].
  - unfold Engine.extract_json. cbn [first_success]. unfold parsed.
    destruct (json_loads text) as [v|[error|error|error]]; try reflexivity.
    rewrite from_fences_attempt, from_braces_attempt.
    destruct (if Text.contains "```json" text then parsed_block "```json" text
              else if Text.contains "```" text then parsed_block "```" text else None);
      [reflexivity|].
    now destruct (parsed_braces text).
  - apply extract_json_prose.
  - intros Hno request current_user st st1 model Hpend Hai. split.
    + unfold Chat.conversation.
      apply (turns_final_answer 9 _ _ _ _ _ _ _ _ _ JNull);
        [assumption | exact Hai | now apply extract_json_prose | reflexivity].
    + destruct (dual_provider_chat_only_logs (Chat.initial_messages request current_user)
                  (logged [TurnStarted 1] st)) as (l & E & F).
      rewrite Hai in E. cbn in E. subst st1. exists l. split; [|exact F].
      cbn. now rewrite <- app_assoc.
Qed.

End Interpreter.

Lemma prefixes_complete (b post : string) : In b (prefixes (b ++ post)).
Proof.
  induction b as [|c b IH]; cbn.
  - destruct post; now left.
  - right. now apply in_map.
Qed.

Lemma substrings_prefixes (s x : string) : In x (prefixes s) -> In x (substrings s).
Proof. intros Hx. destruct s; cbn [substrings]; apply in_or_app; now left. Qed.

Lemma substrings_complete (b t : string) : Text.substring_of b t -> In b (substrings t).
Proof.
  intros (pre & post & ->). induction pre as [|c pre IH].
  - cbn [append]. apply substrings_prefixes. apply (prefixes_complete b post).
  - cbn [append substrings]. apply in_or_app. now right.
Qed.

(** A check that decides [no_json_substring] for the decoder of [Demo]. *)
Lemma no_json_substring_by_search (openrouter gemini : bool) (a1 a2 : nat -> api_outcome)
    (text : string) :
  forallb (fun b => match Demo.loads b with inr (Malformed _) => true | _ => false end)
          (substrings text) = true ->
  @no_json_substring (Demo.world openrouter gemini a1 a2) text.
Proof.
  intros Hall b Hb. apply substrings_complete in Hb.
  rewrite forallb_forall in Hall. specialize (Hall b Hb).
  cbn. destruct (Demo.loads b) as [v|[error|error|error]]; try discriminate. now exists error.
Qed.

(** C3 at a concrete conversation: the model greets, the loop returns the
    greeting in turn 1. *)
Lemma extract_json_first_success_witness :
  let text := "Hello! How can I help?" in
  let request := Chat.mkRequest "hi" "en" in
  let st1 := snd (@Engine.dual_provider_chat (Demo.always text)
                    (@Chat.initial_messages (Demo.always text) request "alice")
                    (logged [TurnStarted 1] Demo.empty)) in
  @no_json_substring (Demo.always text) text
  /\ fst (@Chat.conversation (Demo.always text) request "alice" Demo.empty)
     = Return (Chat.reply text false JNull (JStr "openrouter/llama-3.3-70b-instruct")).
Proof.
  intros text request st1.
  assert (Hno : @no_json_substring (Demo.always text) text)
    by (apply no_json_substring_by_search; vm_compute; reflexivity).
  split; [exact Hno|].
  rewrite (proj1 (proj2 (proj2 (@extract_json_first_success (Demo.always text) text))
                    Hno request "alice" Demo.empty st1
                    "openrouter/llama-3.3-70b-instruct" eq_refl eq_refl)).
  reflexivity.
Defined.

(** C3 as stated fails: for a text with an unlabelled block that holds a
    tool call and a later block labelled json that holds none, four
    attempts in a row would find the call in the third attempt; the code
    never looks at the unlabelled block and returns nothing. *)
Lemma extract_json_skips_unlabelled_block :
  @Engine.extract_json Demo.outage Demo.two_blocks = Return JNull
  /\ @four_step_cascade Demo.outage Demo.two_blocks = JDict [("tool", JStr "list_tasks")]
  /\ @Engine.extract_json Demo.outage Demo.two_blocks
     <> Return (@four_step_cascade Demo.outage Demo.two_blocks).
Proof. split; [reflexivity | split; [reflexivity | discriminate]]. Qed.

Section MissingArguments.
Context `{Env}.




End MissingArguments.



Section ToolEffects.
Context `{Env}.

Lemma queue_nil (s : Session) : queue [] s = s.
Proof. destruct s. unfold queue. cbn. now rewrite app_nil_r. Qed.

Lemma queue_app (a b : list pending_obj) (s : Session) :
  queue b (queue a s) = queue (a ++ b)%list s.
Proof. unfold queue. cbn. now rewrite app_assoc. Qed.

Lemma add_state (o : pending_obj) (st : State) :
  Sess.add o st = (Return tt, mkState (queue [o] (session st)) (trace st)).
Proof. reflexivity. Qed.

Lemma commit_state (st : State) :
  snd (Sess.commit st) = mkState (committed (session st)) (trace st).
Proof.
  unfold Sess.commit, committed. run.
  destruct (Db.flush _ _ _ _) as [[[rows msgs] ins]|]; reflexivity.
Qed.

Lemma effect_none (u : string) (st : State) : tool_effect u st st.
Proof.
  split.
  - exists []. now rewrite app_nil_r.
  - exists []. split; [constructor|]. left. now rewrite queue_nil.
Qed.

Lemma effect_queued (u : string) (st : State) (objs : list pending_obj) :
  Forall (owned_obj u (tasks (session st))) objs ->
  tool_effect u st (mkState (queue objs (session st)) (trace st)).
Proof.
  intros Ho. split.
  - exists []. cbn. now rewrite app_nil_r.
  - exists objs. split; [exact Ho|]. now left.
Qed.

Lemma effect_committed (u : string) (st : State) (objs : list pending_obj) :
  Forall (owned_obj u (tasks (session st))) objs ->
  tool_effect u st (mkState (committed (queue objs (session st))) (trace st)).
Proof.
  intros Ho. split.
  - exists []. cbn. now rewrite app_nil_r.
  - exists objs. split; [exact Ho|]. now right.
Qed.

Lemma get_owned (i : Z) (rows : list Task.t) (x : Task.t) :
  Db.get i rows = Some x -> In x rows /\ Task.id x = i.
Proof.
  unfold Db.get. intros Hf. apply find_some in Hf as [Hin Hid].
  split; [exact Hin|]. unfold Task.has_id in Hid. now apply Z.eqb_eq in Hid.
Qed.

(** Runs the [session.commit()] in the goal and names the state it
    leaves. *)
Ltac run_commit :=
  match goal with
  | |- context [Sess.commit ?X] =>
      let Hc := fresh "Hc" in
      let st' := fresh "st'" in
      pose proof (commit_state X) as Hc;
      destruct (Sess.commit X) as [[?|?] st'];
      cbn [fst snd session trace] in Hc |- *; subst st'
  end.

(** What [session.get] comes to: a lookup by a key, nothing, or an
    exception before any statement is sent. *)
Lemma get_task_cases (task_id : json) :
  (exists i, Tools.get_task task_id = Sess.get i)
  \/ Tools.get_task task_id = ret None
  \/ exists e, Tools.get_task task_id = raise e /\ handler_error e.
Proof.
  assert (Hk : forall v, (exists i, Db.as_key v = Some (Some i)) \/ Db.as_key v = Some None
                         \/ Db.as_key v = None).
  { intros v. destruct (Db.as_key v) as [[i|]|]; eauto. }
  assert (Hr : exists e, @Sess.refuse _ (option Task.t) = raise e /\ handler_error e).
  { eexists. split; [reflexivity|]. unfold handler_error. cbn. tauto. }
  assert (Hu : forall v, exists e, @raise (option Task.t) (Err.unhashable v) = raise e
                                   /\ handler_error e).
  { intros v. eexists. split; [reflexivity|]. unfold handler_error. cbn. tauto. }
  unfold Tools.get_task.
  destruct (Db.primary_key task_id) as [v|]; [|now right; right].
  destruct v; try (now right; right; apply Hu);
    match goal with
    | |- context [Db.as_key ?v] =>
        destruct (Hk v) as [(i & ->) | [-> | ->]];
          [left; now exists i | right; now left | now right; right]
    end.
Qed.

Lemma complete_task_effect arguments u st :
  tool_effect u st (snd (Tools.complete_task arguments u st)).
Proof.
  unfold Tools.complete_task. run.
  destruct (py_get arguments "task_id" JNull) as [task_id|]; cbn [snd]; [|apply effect_none].
  destruct (py_get arguments "completed" (JBool true)) as [completed|]; cbn [snd];
    [|apply effect_none].
  destruct (get_task_cases task_id) as [(i & ->) | [-> | (e & -> & _)]];
    unfold Sess.get; run; cbn [snd]; try apply effect_none.
  destruct (Db.get i (tasks (session st))) as [task|] eqn:Hget; cbn [snd]; [|apply effect_none].
  destruct (Task.owned_by u task) eqn:Hown; cbn [snd]; [|apply effect_none].
  apply get_owned in Hget as [Hin _].
  unfold Tools.set_completed.
  destruct (Task.as_bool completed) as [b|]; rewrite add_state; run_commit;
    apply effect_committed; repeat constructor; exists task; auto.
Qed.

Lemma set_completed_all_state completed rows st :
  Tools.set_completed_all completed rows st
  = (Return (List.length rows),
     mkState (queue (map (completed_entry completed) rows) (session st)) (trace st)).
Proof.
  revert st. induction rows as [|t rows IH]; intros st.
  - cbn. run. rewrite queue_nil. now destruct st.
  - cbn [Tools.set_completed_all map List.length]. unfold bind at 1.
    assert (Hs : Tools.set_completed completed t st
                 = (Return tt, mkState (queue [completed_entry completed t] (session st))
                                       (trace st))).
    { unfold Tools.set_completed, completed_entry.
      destruct (Task.as_bool completed); apply add_state. }
    rewrite Hs. unfold bind. rewrite IH. cbn [session trace]. run.
    now rewrite queue_app.
Qed.

Lemma delete_all_state rows st :
  Tools.delete_all rows st
  = (Return (List.length rows),
     mkState (queue (map Deleted rows) (session st)) (trace st)).
Proof.
  revert st. induction rows as [|t rows IH]; intros st.
  - cbn. run. rewrite queue_nil. now destruct st.
  - cbn [Tools.delete_all map List.length]. unfold bind at 1. rewrite add_state.
    unfold bind. rewrite IH. cbn [session trace]. run. now rewrite queue_app.
Qed.

Lemma completed_entry_owned completed u rows t :
  In t rows -> Task.owned_by u t = true ->
  owned_obj u rows (completed_entry completed t).
Proof.
  intros Hin Hown. unfold completed_entry.
  destruct (Task.as_bool completed); cbn; [|exact I]. exists t. auto.
Qed.

Lemma selected_owned (p : Task.t -> bool) u rows t :
  In t (filter (fun x => p x && Task.owned_by u x) rows) ->
  In t rows /\ Task.owned_by u t = true.
Proof.
  intros Hin. apply filter_In in Hin as [Hin Hp].
  apply andb_true_iff in Hp as [_ Hp]. auto.
Qed.

Lemma add_task_effect arguments u st :
  tool_effect u st (snd (Tools.add_task arguments u st)).
Proof.
  unfold Tools.add_task, Sess.refuse. run.
  destruct (py_get arguments "title" JNull) as [title|]; cbn [snd]; [|apply effect_none].
  destruct (py_get arguments "description" (JStr "")) as [desc|]; cbn [snd];
    [|apply effect_none].
  destruct (py_get arguments "priority" (JStr "medium")) as [priority|]; cbn [snd];
    [|apply effect_none].
  destruct (py_get arguments "tags" (JList [])) as [tags|]; cbn [snd]; [|apply effect_none].
  rewrite add_state. run_commit.
  - match goal with |- context [last ?a ?b] => destruct (last a b) end; cbn [snd];
      apply effect_committed; repeat constructor.
  - apply effect_committed; repeat constructor.
Qed.

Lemma list_tasks_effect arguments u st :
  tool_effect u st (snd (Tools.list_tasks arguments u st)).
Proof.
  unfold Tools.list_tasks, Sess.select, Sess.refuse. run.
  destruct (py_get arguments "status" (JStr "all")) as [status|]; cbn [snd];
    [|apply effect_none].
  destruct (py_get arguments "limit" (JNum 20)) as [limit|]; cbn [snd]; [|apply effect_none].
  destruct (Tools.as_limit limit) as [n|]; cbn [snd]; [|apply effect_none].
  destruct (Db.limit n _); apply effect_none.
Qed.

Lemma select_ids_state task_ids u st :
  snd (Tools.select_ids task_ids u st) = st
  /\ forall rows, fst (Tools.select_ids task_ids u st) = Return rows ->
       forall t, In t rows -> In t (tasks (session st)) /\ Task.owned_by u t = true.
Proof.
  unfold Tools.select_ids, Sess.select, Sess.refuse. run.
  destruct task_ids; cbn [fst snd]; try (split; [reflexivity | discriminate]).
  destruct (Db.as_keys items) as [ids|]; cbn [fst snd];
    [|split; [reflexivity | discriminate]].
  split; [reflexivity|]. intros rows [= <-] t Ht. now apply selected_owned in Ht.
Qed.

Lemma bulk_complete_tasks_effect arguments u st :
  tool_effect u st (snd (Tools.bulk_complete_tasks arguments u st)).
Proof.
  unfold Tools.bulk_complete_tasks.
  unfold bind at 1. unfold lift at 1.
  destruct (py_get arguments "task_ids" (JList [])) as [task_ids|]; [|apply effect_none].
  unfold bind at 1. unfold lift at 1.
  destruct (py_get arguments "completed" (JBool true)) as [completed|]; [|apply effect_none].
  destruct (negb (Py.truthy task_ids)); [apply effect_none|].
  unfold bind at 1.
  destruct (select_ids_state task_ids u st) as [Hst Hrows].
  destruct (Tools.select_ids task_ids u st) as [[rows|e] st1]; cbn [fst snd] in *; subst st1;
    [|apply effect_none].
  destruct rows as [|t rows]; [apply effect_none|].
  unfold bind at 1. rewrite set_completed_all_state. unfold bind, ret. run_commit;
    apply effect_committed; apply Forall_forall; intros o Ho;
    apply in_map_iff in Ho as (x & <- & Hx);
    destruct (Hrows _ eq_refl x Hx); now apply completed_entry_owned.
Qed.

Lemma bulk_delete_tasks_effect arguments u st :
  tool_effect u st (snd (Tools.bulk_delete_tasks arguments u st)).
Proof.
  unfold Tools.bulk_delete_tasks.
  unfold bind at 1. unfold lift at 1.
  destruct (py_get arguments "task_ids" (JList [])) as [task_ids|]; [|apply effect_none].
  destruct (negb (Py.truthy task_ids)); [apply effect_none|].
  unfold bind at 1.
  destruct (select_ids_state task_ids u st) as [Hst Hrows].
  destruct (Tools.select_ids task_ids u st) as [[rows|e] st1]; cbn [fst snd] in *; subst st1;
    [|apply effect_none].
  destruct rows as [|t rows]; [apply effect_none|].
  unfold bind at 1. rewrite delete_all_state. unfold bind, ret. run_commit;
    apply effect_committed; apply Forall_forall; intros o Ho;
    apply in_map_iff in Ho as (x & <- & Hx);
    destruct (Hrows _ eq_refl x Hx); now split.
Qed.

Lemma delete_finish_effect u st (task : option Task.t) :
  (forall t, task = Some t -> In t (tasks (session st)) /\ Task.owned_by u t = true) ->
  tool_effect u st
    (snd (match task with
          | None => ret (Tools.error "Task not found.")
          | Some t =>
              Sess.add (Deleted t) ;;;
              Sess.commit ;;;
              ret (Tools.success ("Task '" ++ Task.title t ++ "' has been deleted.") [])
          end st)).
Proof.
  intros Ht. destruct task as [t|]; [|apply effect_none].
  destruct (Ht t eq_refl) as [Hin Hown].
  unfold bind at 1. rewrite add_state. unfold bind, ret. run_commit;
    apply effect_committed; repeat constructor; auto.
Qed.

Lemma delete_task_effect arguments u st :
  tool_effect u st (snd (Tools.delete_task arguments u st)).
Proof.
  unfold Tools.delete_task.
  unfold bind at 1. unfold lift at 1.
  destruct (py_get arguments "task_id" JNull) as [task_id|]; [|apply effect_none].
  unfold bind at 1. unfold lift at 1.
  destruct (py_get arguments "title" JNull) as [title_match|]; [|apply effect_none].
  destruct (Py.truthy task_id).
  - unfold bind at 1.
    destruct (get_task_cases task_id) as [(i & ->) | [-> | (e & -> & _)]];
      unfold Sess.get; run; cbn [fst snd].
    + apply delete_finish_effect. intros t Ht.
      destruct (Db.get i (tasks (session st))) as [x|] eqn:Hget; [|discriminate].
      destruct (Task.owned_by u x) eqn:Hown; [|discriminate].
      injection Ht as <-. apply get_owned in Hget as [Hin _]. auto.
    + apply (delete_finish_effect u st None). discriminate.
    + apply effect_none.
  - destruct (Py.truthy title_match); [|apply effect_none].
    unfold bind at 1. unfold Sess.select. run.
    apply delete_finish_effect. intros t Ht.
    assert (Hin' : In t (filter (fun x => Task.owned_by u x
                  && Db.ilike ("%" ++ Py.str title_match ++ "%") (Task.title x))
                  (tasks (session st)))).
    { destruct (filter _ _) as [|y ys]; [discriminate|]. injection Ht as ->. now left. }
    apply filter_In in Hin' as [Hin Hp].
    apply andb_true_iff in Hp as [Hp _]. auto.
Qed.

Lemma assign_keeps arguments key set (task : option Task.t) (x t' : Task.t) :
  (forall v y, Task.id (set v y) = Task.id y /\ Task.user_id (set v y) = Task.user_id y) ->
  (forall y, task = Some y -> Task.id y = Task.id x /\ Task.user_id y = Task.user_id x) ->
  Tools.assign arguments key set task = Some t' ->
  Task.id t' = Task.id x /\ Task.user_id t' = Task.user_id x.
Proof.
  intros Hset Htask. unfold Tools.assign.
  destruct task as [y|]; [|discriminate].
  destruct (Htask y eq_refl) as [Hi Hu].
  destruct arguments; try (intros [= <-]; auto).
  destruct (Py.lookup key fields) as [v|]; [|intros [= <-]; auto].
  destruct (Task.as_text v) as [s0|]; [|discriminate].
  cbn. intros [= <-]. destruct (Hset s0 y) as [-> ->]. auto.
Qed.

Lemma update_task_effect arguments u st :
  tool_effect u st (snd (Tools.update_task arguments u st)).
Proof.
  unfold Tools.update_task. run.
  destruct (py_get arguments "task_id" JNull) as [task_id|]; cbn [snd]; [|apply effect_none].
  destruct (get_task_cases task_id) as [(i & ->) | [-> | (e & -> & _)]];
    unfold Sess.get; run; cbn [snd]; try apply effect_none.
  destruct (Db.get i (tasks (session st))) as [task|] eqn:Hget; cbn [snd]; [|apply effect_none].
  destruct (Task.owned_by u task) eqn:Hown; cbn [snd]; [|apply effect_none].
  apply get_owned in Hget as [Hin _].
  destruct (Tools.assign arguments "priority" _ _) as [task'|] eqn:Ha;
    rewrite add_state; run_commit; apply effect_committed; repeat constructor.
  all: exists task; repeat split; auto.
  all: eapply assign_keeps in Ha; [apply Ha | intros; now split |].
  all: intros y Hy; eapply assign_keeps in Hy; [apply Hy | intros; now split |].
  all: intros z Hz; eapply assign_keeps in Hz; [apply Hz | intros; now split |].
  all: intros w [= <-]; now split.
Qed.

Lemma get_weather_effect arguments u st :
  tool_effect u st (snd (Tools.get_weather arguments st)).
Proof.
  unfold Tools.get_weather. run.
  destruct (py_get arguments "city" JNull) as [city|]; cbn [snd]; [|apply effect_none].
  destruct (negb (Py.truthy city)); cbn [snd]; [apply effect_none|].
  assert (He : tool_effect u st
                 (mkState (session st) (trace st ++ [WeatherCall (Py.str city)])%list)).
  { split.
    - exists [WeatherCall (Py.str city)]. split; [reflexivity|]. repeat constructor.
    - exists []. split; [constructor|]. left. now rewrite queue_nil. }
  destruct (weather_lookup _ _); exact He.
Qed.

Lemma add_planned_dict u fields st :
  Skills.add_planned u (JDict fields) st
  = (Return (Task.d_title (planned_draft u fields)),
     mkState (queue [NewTask (planned_draft u fields)] (session st)) (trace st)).
Proof. reflexivity. Qed.


Lemma add_all_planned_state u items st :
  exists ds,
    snd (Skills.add_all_planned u items st)
    = mkState (queue (map NewTask ds) (session st)) (trace st)
    /\ Forall (fun d => Task.d_user_id d = u) ds.
Proof.
  revert st. induction items as [|item items IH]; intros st.
  - exists []. cbn. rewrite queue_nil. now destruct st.
  - cbn [Skills.add_all_planned]. unfold bind at 1.
    destruct item as [| | | | |fields];
      try (exists []; cbn; rewrite queue_nil; now destruct st).
    rewrite add_planned_dict.
    destruct (IH (mkState (queue [NewTask (planned_draft u fields)] (session st)) (trace st)))
      as (ds & Hds & Hown).
    exists (planned_draft u fields :: ds). split; [|now constructor].
    unfold bind.
    destruct (Skills.add_all_planned u items _) as [[titles|e] st1];
      cbn [fst snd session trace] in *; subst st1; unfold ret; cbn [snd];
      now rewrite queue_app.
Qed.

Lemma effect_logged_queued u st l objs :
  Forall network l ->
  Forall (owned_obj u (tasks (session st))) objs ->
  tool_effect u st (mkState (queue objs (session st)) (trace st ++ l)%list).
Proof. intros Hl Ho. split; [now exists l | exists objs; auto]. Qed.

Lemma effect_logged_committed u st l objs :
  Forall network l ->
  Forall (owned_obj u (tasks (session st))) objs ->
  tool_effect u st (mkState (committed (queue objs (session st))) (trace st ++ l)%list).
Proof. intros Hl Ho. split; [now exists l | exists objs; auto]. Qed.

Lemma effect_logged u st l :
  Forall network l -> tool_effect u st (logged l st).
Proof.
  intros Hl. unfold logged. rewrite <- (queue_nil (session st)) at 1.
  apply effect_logged_queued; [exact Hl | constructor].
Qed.

Lemma plan_effect content u st :
  tool_effect u st (snd (Skills.plan content u st)).
Proof.
  unfold Skills.plan. unfold bind at 1.
  destruct (dual_provider_chat_only_logs
              [mkMessage "system" (JStr Skills.planner_prompt); mkMessage "user" content] st)
    as (l & Hst & Hl).
  destruct (Engine.dual_provider_chat _ st) as [[r|e] st1]; cbn [snd] in Hst; subst st1;
    [|now apply effect_logged].
  unfold bind at 1. unfold lift at 1.
  destruct (Skills.strip_fences _) as [json_str|]; [|now apply effect_logged].
  unfold bind at 1. unfold lift at 1.
  destruct (Skills.loads json_str) as [tasks_data|]; [|now apply effect_logged].
  destruct tasks_data; try (now apply effect_logged).
  unfold bind at 1.
  destruct (add_all_planned_state u items (logged l st)) as (ds & Hds & Hown).
  assert (Hobjs : Forall (owned_obj u (tasks (session st))) (map NewTask ds)).
  { apply Forall_forall. intros o Ho. apply in_map_iff in Ho as (d & <- & Hd).
    rewrite Forall_forall in Hown. now apply Hown. }
  destruct (Skills.add_all_planned u items (logged l st)) as [[titles|e] st1];
    cbn [snd] in Hds; subst st1; cbn [session trace logged];
    [|now apply effect_logged_queued].
  unfold bind at 1. run_commit.
  - destruct (List.length titles =? 0)%nat; [now apply effect_logged_committed|].
    unfold bind, lift, ret. destruct (Skills.join_titles 0 titles);
      now apply effect_logged_committed.
  - now apply effect_logged_committed.
Qed.

Lemma day_planner_effect content u st :
  tool_effect u st (snd (Skills.day_planner content u st)).
Proof.
  unfold Skills.day_planner. destruct (u =? ""); [apply effect_none|].
  unfold try_except. pose proof (plan_effect content u st) as Hp.
  destruct (Skills.plan content u st) as [[text|e] st1]; exact Hp.
Qed.

(** Whatever tool runs for [u], with whatever arguments, all it does to
    the state is to log network events and to queue, and perhaps commit,
    objects of [u]. *)
Lemma handle_tool_call_effect name arguments u st :
  tool_effect u st (snd (Tools.handle_tool_call name arguments u st)).
Proof.
  unfold Tools.handle_tool_call.
  destruct (Tools.named name "add_task"); [apply add_task_effect|].
  destruct (Tools.named name "list_tasks"); [apply list_tasks_effect|].
  destruct (Tools.named name "complete_task"); [apply complete_task_effect|].
  destruct (Tools.named name "bulk_complete_tasks"); [apply bulk_complete_tasks_effect|].
  destruct (Tools.named name "delete_task"); [apply delete_task_effect|].
  destruct (Tools.named name "bulk_delete_tasks"); [apply bulk_delete_tasks_effect|].
  destruct (Tools.named name "update_task"); [apply update_task_effect|].
  destruct (Tools.named name "get_weather"); [apply get_weather_effect|].
  destruct (Tools.named name "detect_language").
  { run. destruct (py_get arguments "text" (JStr "")); cbn [snd]; [|apply effect_none].
    destruct (Skills.lang_detector _); apply effect_none. }
  destruct (Tools.named name "suggest_priority").
  { run. destruct (py_get arguments "text" (JStr "")); cbn [snd]; [|apply effect_none].
    destruct (Skills.priority_suggester _); apply effect_none. }
  destruct (Tools.named name "schedule_reminder").
  { run. destruct (py_get arguments "text" (JStr "")); cbn [snd]; [|apply effect_none].
    destruct (Skills.reminder_scheduler _); apply effect_none. }
  destruct (Tools.named name "get_deployment_blueprint").
  { run. destruct (py_get arguments "type" (JStr "minimal")); cbn [snd]; [|apply effect_none].
    destruct (Skills.deployment_blueprint _); apply effect_none. }
  destruct (Tools.named name "plan_day"); [|apply effect_none].
  unfold bind at 1. unfold lift at 1.
  destruct (py_get arguments "request" (JStr "")) as [request|]; [|apply effect_none].
  unfold bind. pose proof (day_planner_effect request u st) as Hp.
  destruct (Skills.day_planner request u st) as [[text|e] st1]; exact Hp.
Qed.

End ToolEffects.

Section Isolation.
Context `{Env}.

Lemma owned_by_true u x : Task.owned_by u x = true <-> Task.user_id x = u.
Proof. unfold Task.owned_by. apply String.eqb_eq. Qed.

Lemma foreign_app u a b : foreign u (a ++ b) = (foreign u a ++ foreign u b)%list.
Proof. apply filter_app. Qed.

Lemma foreign_In u rows y :
  In y (foreign u rows) <-> In y rows /\ Task.owned_by u y = false.
Proof.
  unfold foreign. rewrite filter_In. now rewrite negb_true_iff.
Qed.

Lemma max_id_bound rows x : In x rows -> (Task.id x <= Db.max_id rows)%Z.
Proof.
  induction rows as [|y rows IH]; [intros []|].
  unfold Db.max_id in *. cbn [fold_right].
  intros [->|Hin]; [lia|]. specialize (IH Hin). lia.
Qed.

Lemma next_id_fresh rows : ~ In (Db.next_id rows) (map Task.id rows).
Proof.
  intros Hin. apply in_map_iff in Hin as (x & Hx & Hin).
  apply max_id_bound in Hin. unfold Db.next_id in Hx. lia.
Qed.

Lemma unique_key rows x y :
  NoDup (map Task.id rows) -> In x rows -> In y rows -> Task.id x = Task.id y -> x = y.
Proof.
  induction rows as [|z rows IH]; [intros _ []|].
  cbn. intros Hnd Hx Hy Hid. inversion Hnd as [|? ? Hz Hnd']; subst.
  destruct Hx as [->|Hx], Hy as [->|Hy]; auto.
  - exfalso. apply Hz. rewrite Hid. now apply in_map.
  - exfalso. apply Hz. rewrite <- Hid. now apply in_map.
Qed.

Lemma insert_as_row i d y :
  Task.insert_as i d = Some y -> Task.id y = i /\ Task.user_id y = Task.d_user_id d.
Proof.
  unfold Task.insert_as.
  destruct (Task.as_text (Task.d_title d)), (Task.as_text (Task.d_description d)),
    (Task.as_text (Task.d_priority d)); try discriminate.
  intros [= <-]. auto.
Qed.

Lemma put_keys x rows : map Task.id (Db.put x rows) = map Task.id rows.
Proof.
  unfold Db.put. rewrite map_map. apply map_ext_in. intros y _.
  unfold Task.has_id. destruct (Task.id y =? Task.id x)%Z eqn:E; [|reflexivity].
  apply Z.eqb_eq in E. congruence.
Qed.

Lemma put_foreign u x rows :
  Task.user_id x = u ->
  (forall y, In y (foreign u rows) -> Task.id y <> Task.id x) ->
  foreign u (Db.put x rows) = foreign u rows.
Proof.
  intros Hu Hno. induction rows as [|y rows IH]; [reflexivity|].
  cbn [Db.put map foreign filter].
  assert (Hno' : forall z, In z (foreign u rows) -> Task.id z <> Task.id x).
  { intros z Hz. apply Hno. cbn [foreign filter]. destruct (negb (Task.owned_by u y)); auto.
    now right. }
  specialize (IH Hno'). unfold foreign, Db.put in IH. rewrite IH.
  unfold Task.has_id. destruct (Task.id y =? Task.id x)%Z eqn:E.
  - apply Z.eqb_eq in E.
    destruct (Task.owned_by u y) eqn:Hy.
    + apply owned_by_true in Hu. now rewrite Hu.
    + exfalso. apply (Hno y); [|exact E]. cbn [foreign filter]. rewrite Hy. now left.
  - reflexivity.
Qed.

Lemma remove_foreign u x rows :
  (forall y, In y (foreign u rows) -> Task.id y <> Task.id x) ->
  foreign u (Db.remove x rows) = foreign u rows.
Proof.
  intros Hno. induction rows as [|y rows IH]; [reflexivity|].
  assert (Hno' : forall z, In z (foreign u rows) -> Task.id z <> Task.id x).
  { intros z Hz. apply Hno. cbn [foreign filter]. destruct (negb (Task.owned_by u y)); auto.
    now right. }
  specialize (IH Hno'). unfold foreign, Db.remove in *. cbn [filter].
  destruct (negb (Task.has_id (Task.id x) y)) eqn:E; cbn [filter].
  - destruct (negb (Task.owned_by u y)); now rewrite IH.
  - destruct (negb (Task.owned_by u y)) eqn:Hy; [exfalso | exact IH].
    apply (Hno y); [cbn [filter]; rewrite Hy; now left|].
    apply negb_false_iff in E. unfold Task.has_id in E. now apply Z.eqb_eq in E.
Qed.

Lemma filter_keys_distinct (keep : Task.t -> bool) (rows : list Task.t) :
  NoDup (map Task.id rows) -> NoDup (map Task.id (filter keep rows)).
Proof.
  induction rows as [|x rows IH]; cbn; [trivial|].
  intros Hnd. inversion Hnd as [|? ? Hx Hnd']; subst.
  destruct (keep x); [|auto]. cbn. constructor; [|auto].
  intros Hin. apply Hx. apply in_map_iff in Hin as (y & Hy & Hin).
  apply filter_In in Hin as [Hin _]. rewrite <- Hy. now apply in_map.
Qed.

(** Writing a harmless unit of work leaves the rows of the other users as
    they are and the keys distinct. *)
Lemma flush_isolated u objs :
  forall rows msgs ins rows' msgs' ins',
    NoDup (map Task.id rows) ->
    Forall (harmless u (foreign u rows)) objs ->
    Db.flush objs rows msgs ins = Some (rows', msgs', ins') ->
    foreign u rows' = foreign u rows /\ NoDup (map Task.id rows').
Proof.
  induction objs as [|o objs IH]; intros rows msgs ins rows' msgs' ins' Hnd Hok Hf.
  - cbn in Hf. injection Hf as <- <- <-. auto.
  - inversion Hok as [|? ? Ho Hok']; subst. cbn [Db.flush] in Hf.
    destruct o as [d|m|x| |x]; cbn [harmless] in Ho.
    + destruct (Task.insert_as (Db.next_id rows) d) as [y|] eqn:Hy; [|discriminate].
      apply insert_as_row in Hy as [Hid Hu].
      assert (Hfor : foreign u (rows ++ [y]) = foreign u rows).
      { rewrite foreign_app. cbn [foreign filter].
        replace (Task.owned_by u y) with true; [cbn; apply app_nil_r|].
        symmetry. apply owned_by_true. congruence. }
      apply IH in Hf; [now rewrite Hfor in Hf | | now rewrite Hfor].
      rewrite map_app. cbn. apply NoDup_app; [exact Hnd | repeat constructor; intros [] |].
      intros a Ha [<-|[]]. rewrite Hid in Ha. now apply next_id_fresh in Ha.
    + eapply IH; eauto.
    + destruct Ho as [Hu Hno].
      pose proof (put_foreign u x rows Hu Hno) as Hfor.
      apply IH in Hf; [now rewrite Hfor in Hf | now rewrite put_keys | now rewrite Hfor].
    + discriminate.
    + pose proof (remove_foreign u x rows Ho) as Hfor.
      apply IH in Hf; [now rewrite Hfor in Hf | now apply filter_keys_distinct | now rewrite Hfor].
Qed.

Lemma owned_obj_harmless u rows o :
  NoDup (map Task.id rows) -> owned_obj u rows o -> harmless u (foreign u rows) o.
Proof.
  intros Hnd. destruct o as [d|m|x'| |x]; cbn; auto.
  - intros (x & Hin & Hown & Hid & Hu). split.
    + rewrite Hu. now apply owned_by_true.
    + intros y Hy E. apply foreign_In in Hy as [Hy Hfy].
      rewrite Hid in E. rewrite (unique_key rows y x Hnd Hy Hin E) in Hfy. congruence.
  - intros [Hin Hown] y Hy E. apply foreign_In in Hy as [Hy Hfy].
    rewrite (unique_key rows y x Hnd Hy Hin E) in Hfy. congruence.
Qed.

Lemma committed_isolated u s :
  isolated u s ->
  foreign u (tasks (committed s)) = foreign u (tasks s) /\ isolated u (committed s).
Proof.
  intros [Hnd Hok]. unfold committed.
  destruct (Db.flush (pending s) (tasks s) (chat_messages s) [])
    as [[[rows msgs] ins]|] eqn:Hf; cbn.
  - destruct (flush_isolated u _ _ _ _ _ _ _ Hnd Hok Hf) as [Hfor Hnd'].
    split; [exact Hfor|]. split; [exact Hnd' | constructor].
  - split; [reflexivity|]. split; [exact Hnd | constructor].
Qed.

Lemma queue_isolated u s objs :
  isolated u s -> Forall (owned_obj u (tasks s)) objs -> isolated u (queue objs s).
Proof.
  intros [Hnd Hok] Hobjs. split; [exact Hnd|]. cbn.
  apply Forall_app. split; [exact Hok|].
  eapply Forall_impl; [|exact Hobjs]. intros o. now apply owned_obj_harmless.
Qed.

(** A tool run for [u] keeps the session isolated and the rows of the
    other users as they are. *)
Lemma tool_effect_isolated u st st' :
  tool_effect u st st' ->
  isolated u (session st) ->
  foreign u (tasks (session st')) = foreign u (tasks (session st))
  /\ isolated u (session st').
Proof.
  intros [_ (objs & Hobjs & [Hs|Hs])] Hiso; rewrite Hs.
  - split; [reflexivity | now apply queue_isolated].
  - apply (committed_isolated u (queue objs (session st))). now apply queue_isolated.
Qed.

End Isolation.

Section History.
Context `{Env}.

Lemma flush_keeps_history objs :
  forall rows msgs ins rows' msgs' ins',
    no_chat_pending objs ->
    Db.flush objs rows msgs ins = Some (rows', msgs', ins') -> msgs' = msgs.
Proof.
  induction objs as [|o objs IH]; intros rows msgs ins rows' msgs' ins' Hno Hf.
  - cbn in Hf. now injection Hf as <- <- <-.
  - inversion Hno as [|? ? Ho Hno']; subst. cbn [Db.flush] in Hf.
    destruct o as [d|m|x| |x]; try (eapply IH; eassumption); try discriminate.
    + destruct (Task.insert_as _ d); [eapply IH; eassumption | discriminate].
    + destruct Ho.
Qed.

Lemma flush_appends_message objs m :
  forall rows msgs ins,
    no_chat_pending objs ->
    match Db.flush (objs ++ [NewChatMessage m]) rows msgs ins with
    | Some (_, msgs', _) => msgs' = (msgs ++ [m])%list
    | None => True
    end.
Proof.
  induction objs as [|o objs IH]; intros rows msgs ins Hno.
  - reflexivity.
  - inversion Hno as [|? ? Ho Hno']; subst. cbn [app Db.flush].
    destruct o as [d|m'|x| |x]; try (now apply IH); try exact I.
    + destruct (Task.insert_as _ d); [now apply IH | exact I].
    + destruct Ho.
Qed.

Lemma owned_obj_no_chat u rows objs :
  Forall (owned_obj u rows) objs -> no_chat_pending objs.
Proof.
  intros Ho. eapply Forall_impl; [|exact Ho]. intros [ | | | | ]; cbn; auto.
Qed.

(** A tool leaves the chat history alone. *)
Lemma tool_effect_history u st st' :
  tool_effect u st st' ->
  no_chat_pending (pending (session st)) ->
  chat_messages (session st') = chat_messages (session st)
  /\ no_chat_pending (pending (session st')).
Proof.
  intros [_ (objs & Hobjs & Hs)] Hno.
  assert (Hq : no_chat_pending (pending (session st) ++ objs)).
  { apply Forall_app. split; [exact Hno | now apply owned_obj_no_chat in Hobjs]. }
  destruct Hs as [Hs|Hs]; rewrite Hs.
  - split; [reflexivity | exact Hq].
  - unfold committed. cbn [queue tasks chat_messages pending].
    destruct (Db.flush _ _ _ _) as [[[rows msgs] ins]|] eqn:Hf; cbn.
    + split; [|constructor]. eapply flush_keeps_history; eassumption.
    + split; [reflexivity | constructor].
Qed.

Lemma turns_history remaining u :
  forall messages action last used st r st',
    Chat.turns remaining u messages action last used st = (r, st') ->
    no_chat_pending (pending (session st)) ->
    history_step u (chat_messages (session st)) r (chat_messages (session st')).
Proof.
  induction remaining as [|n IH]; intros messages action last used st r st' Hrun Hno.
  - cbv beta iota in Hrun; injection Hrun as <- <-. now left.
  - cbn [Chat.turns] in Hrun. unfold bind at 1 in Hrun. unfold emit at 1 in Hrun.
    unfold bind at 1 in Hrun.
    match type of Hrun with context [Engine.dual_provider_chat ?m ?s] =>
      destruct (dual_provider_chat_only_logs m s) as (l & Hst & _);
      destruct (Engine.dual_provider_chat m s) as [[a|e] st1]
    end; cbn [fst snd] in Hst; subst st1; [|cbv beta iota in Hrun; injection Hrun as <- <-; now left].
    unfold bind at 1 in Hrun. unfold lift at 1 in Hrun.
    destruct (Engine.extract_json (fst a)) as [tool_call_data|e];
      [|cbv beta iota in Hrun; injection Hrun as <- <-; now left].
    destruct (negb (Py.truthy tool_call_data)).
    + unfold bind at 1 in Hrun. rewrite add_state in Hrun.
      unfold Sess.commit in Hrun.
      unfold bind, ret, get_session, set_session, raise in Hrun.
      cbn [session trace logged queue tasks chat_messages pending fst snd] in Hrun.
      pose proof (flush_appends_message (pending (session st))
                    (ChatMessage.mk u "assistant" (fst a))
                    (tasks (session st)) (chat_messages (session st)) [] Hno) as Hf.
      destruct (Db.flush _ _ _ _) as [[[rows msgs] ins]|];
        cbv beta iota in Hrun; injection Hrun as <- <-; cbn; [|now left].
      right. subst msgs. eauto 10.
    + unfold bind at 1 in Hrun. unfold lift at 1 in Hrun.
      destruct (py_get _ "tool" JNull) as [tool_name|];
        [|cbv beta iota in Hrun; injection Hrun as <- <-; now left].
      unfold bind at 1 in Hrun. unfold lift at 1 in Hrun.
      destruct (py_get _ "arguments" (JDict [])) as [tool_args|];
        [|cbv beta iota in Hrun; injection Hrun as <- <-; now left].
      unfold bind at 1 in Hrun. unfold emit at 1 in Hrun. unfold bind at 1 in Hrun.
      match type of Hrun with context [Tools.handle_tool_call ?x ?y ?z ?s] =>
        pose proof (handle_tool_call_effect x y z s) as He;
        destruct (Tools.handle_tool_call x y z s) as [[result|e] st2]
      end; cbn [fst snd] in He.
      * apply tool_effect_history in He as [Hh Hno']; [|exact Hno].
        cbn [session logged] in Hh. rewrite <- Hh. eapply IH; eassumption.
      * apply tool_effect_history in He as [Hh _]; [|exact Hno].
        cbv beta iota in Hrun; injection Hrun as <- <-. now left.
Qed.

Lemma reply_is_no_apology text action tool model :
  Chat.reply text action tool model <> Chat.APOLOGY.
Proof. discriminate. Qed.

Lemma guarded_history u body st before r st' :
  (forall r0 st0, body st = (r0, st0) ->
     history_step u before r0 (chat_messages (session st0))) ->
  Chat.guarded body st = (r, st') ->
  history_step u before r (chat_messages (session st'))
  /\ (r = Return Chat.APOLOGY -> chat_messages (session st') = before).
Proof.
  intros Hbody Hrun. unfold Chat.guarded, try_except in Hrun.
  destruct (body st) as [[v|e] st0] eqn:Hb; specialize (Hbody _ _ eq_refl).
  - injection Hrun as <- <-. split; [exact Hbody|].
    intros [= Hv]. destruct Hbody as [Hsame|(text & action & tool & model & [= Hr] & _)];
      [exact Hsame|].
    exfalso. apply (reply_is_no_apology text action tool model). congruence.
  - destruct Hbody as [Hsame|(text & action & tool & model & Hr & _)]; [|discriminate].
    destruct (Err.is_http e); injection Hrun as <- <-; (split; [now left | auto]).
Qed.

(** C10.  The endpoint, run on a session of its own, first writes the
    user's message to the history, with role "user", and only then enters
    the tool loop; whatever the run comes to (an answer, the message of the
    turn ceiling, the apology after an exception, or an exception passed
    on) the history at the end is the one before the request, then that
    user message, then at most one assistant message, which is there only
    when the endpoint returns a final answer, and holds that answer.  In
    particular, when the endpoint returns the apology the user message is
    in the history and no assistant message is. *)
Theorem user_message_is_persisted (request : Chat.ChatRequest) (u : string) (st : State) :
  let saved := (chat_messages (session st)
                  ++ [ChatMessage.mk u "user" (Chat.message_of request)])%list in
  let started := mkState (mkSession (tasks (session st)) saved []) (trace st) in
  Chat.chat_endpoint request u (Chat.fresh_session st)
  = Chat.guarded (Chat.conversation request u) started
  /\ forall r st',
       Chat.chat_endpoint request u (Chat.fresh_session st) = (r, st') ->
       history_step u saved r (chat_messages (session st'))
       /\ (r = Return Chat.APOLOGY -> chat_messages (session st') = saved)
       /\ In (ChatMessage.mk u "user" (Chat.message_of request))
             (chat_messages (session st')).
Proof.
  intros saved started.
  assert (Hstart : Chat.chat_endpoint request u (Chat.fresh_session st)
                   = Chat.guarded (Chat.conversation request u) started) by reflexivity.
  split; [exact Hstart|]. intros r st' Hrun. rewrite Hstart in Hrun.
  destruct (guarded_history u (Chat.conversation request u) started saved r st') as [Hh Ha].
  - intros r0 st0 Hb. unfold Chat.conversation in Hb.
    apply turns_history in Hb; [exact Hb | constructor].
  - exact Hrun.
  - split; [exact Hh|]. split; [exact Ha|].
    assert (Hin : In (ChatMessage.mk u "user" (Chat.message_of request)) saved)
      by (apply in_or_app; right; now left).
    destruct Hh as [->|(text & action & tool & model & _ & ->)]; [exact Hin|].
    apply in_or_app. now left.
Qed.

End History.

(** C10 at a concrete failure: the model answers with a bare number, which
    is JSON but no mapping; looking up the tool name raises, the endpoint
    apologises, and the history holds the user message alone. *)
Lemma user_message_is_persisted_witness :
  let request := Chat.mkRequest "add milk" "en" in
  let run := @Chat.chat_endpoint (Demo.always "42") request "alice"
               (Chat.fresh_session Demo.empty) in
  run = (fst run, snd run)
  /\ fst run = Return Chat.APOLOGY
  /\ chat_messages (session (snd run)) = [ChatMessage.mk "alice" "user" "add milk"].
Proof.
  intros request run.
  assert (Hrun : run = (fst run, snd run)) by apply surjective_pairing.
  assert (Hr : fst run = Return Chat.APOLOGY) by reflexivity.
  split; [exact Hrun|]. split; [exact Hr|].
  exact (proj1 (proj2 (proj2 (@user_message_is_persisted (Demo.always "42") request "alice"
                                Demo.empty) (fst run) (snd run) Hrun)) Hr).
Defined.

Section Ceiling.
Context `{Env}.




(** One turn of the loop, by what the gateway answers. *)
Lemma turns_step n u messages action last used st ai_message used_model st1 :
  Engine.dual_provider_chat messages (logged [TurnStarted (Chat.MAX_TURNS - n)] st)
  = (Return (ai_message, used_model), st1) ->
  Chat.turns (S n) u messages action last used st
  = match Engine.extract_json ai_message with
    | Raise e => (Raise e, st1)
    | Return tool_call_data =>
        if Py.truthy tool_call_data then
          match py_get tool_call_data "tool" JNull with
          | Raise e => (Raise e, st1)
          | Return tool_name =>
              match py_get tool_call_data "arguments" (JDict []) with
              | Raise e => (Raise e, st1)
              | Return tool_args =>
                  match Tools.handle_tool_call tool_name tool_args u
                          (logged [ToolExecuting tool_name] st1) with
                  | (Raise e, st2) => (Raise e, st2)
                  | (Return tool_result, st2) =>
                      Chat.turns n u (messages ++ Chat.tool_exchange ai_message tool_result)%list
                        true tool_name (JStr used_model) st2
                  end
              end
          end
        else final_answer u (mkProgress messages st action last used) ai_message used_model st1
    end.
Proof.
  intros Hai. cbn [Chat.turns]. unfold bind at 1. unfold emit at 1. unfold bind at 1.
  change (mkState (session st) (trace st ++ [TurnStarted (Chat.MAX_TURNS - n)])%list)
    with (logged [TurnStarted (Chat.MAX_TURNS - n)] st).
  rewrite Hai. cbn [fst snd]. unfold bind at 1. unfold lift at 1.
  destruct (Engine.extract_json ai_message) as [tool_call_data|e]; [|reflexivity].
  destruct (Py.truthy tool_call_data); cbn [negb]; [|reflexivity].
  unfold bind at 1. unfold lift at 1.
  destruct (py_get tool_call_data "tool" JNull) as [tool_name|e]; [|reflexivity].
  unfold bind at 1. unfold lift at 1.
  destruct (py_get tool_call_data "arguments" (JDict [])) as [tool_args|e]; [|reflexivity].
  unfold bind at 1. unfold emit at 1. unfold bind at 1.
  change (mkState (session st1) (trace st1 ++ [ToolExecuting tool_name])%list)
    with (logged [ToolExecuting tool_name] st1).
  now destruct (Tools.handle_tool_call tool_name tool_args u (logged [ToolExecuting tool_name] st1))
    as [[tool_result|e] st2].
Qed.


(** Every run of the loop is a row of tool turns, after which the
    ceiling is reached or one more turn ends the run. *)
Lemma turns_decompose remaining u :
  forall p r st',
    (remaining <= Chat.MAX_TURNS)%nat ->
    Chat.turns remaining u (loop_messages p) (loop_action_performed p)
      (loop_last_tool_name p) (loop_used_model p) (loop_state p) = (r, st') ->
    exists tool_names q,
      tool_turns u (Chat.MAX_TURNS - remaining) p tool_names q
      /\ ((List.length tool_names = remaining
           /\ r = Return (Chat.reply Chat.DONE_MESSAGE true
                            (loop_last_tool_name q) (loop_used_model q))
           /\ st' = loop_state q)
          \/ ((List.length tool_names < remaining)%nat
              /\ last_turn (S (Chat.MAX_TURNS - remaining + List.length tool_names)) u q r st')).
Proof.
  induction remaining as [|n IH]; intros p r st' Hle Hrun.
  - injection Hrun as <- <-. exists [], p. split; [reflexivity|]. left. auto.
  - assert (Hturn : (Chat.MAX_TURNS - n = S (Chat.MAX_TURNS - S n))%nat) by lia.
    destruct (dual_provider_chat_returns (loop_messages p)
                (logged [TurnStarted (Chat.MAX_TURNS - n)] (loop_state p)))
      as ([ai model] & st1 & Hai).
    rewrite (turns_step _ _ _ _ _ _ _ _ _ _ Hai) in Hrun.
    assert (Hlast : last_turn (S (Chat.MAX_TURNS - S n + 0)) u p r st' ->
              exists tool_names q,
                tool_turns u (Chat.MAX_TURNS - S n) p tool_names q
                /\ ((List.length tool_names = S n
                     /\ r = Return (Chat.reply Chat.DONE_MESSAGE true
                                      (loop_last_tool_name q) (loop_used_model q))
                     /\ st' = loop_state q)
                    \/ ((List.length tool_names < S n)%nat
                        /\ last_turn (S (Chat.MAX_TURNS - S n + List.length tool_names))
                             u q r st'))).
    { intros Hl. exists [], p. split; [reflexivity|]. right. cbn [List.length]. split; [lia|].
      exact Hl. }
    rewrite Nat.add_0_r, <- Hturn in Hlast.
    destruct (Engine.extract_json ai) as [tool_call_data|e] eqn:Hx.
    2: { injection Hrun as <- <-. apply Hlast. exists ai, model, st1.
         split; [exact Hai|]. rewrite Hx. auto. }
    destruct (Py.truthy tool_call_data) eqn:Htruthy.
    2: { apply Hlast. exists ai, model, st1. split; [exact Hai|]. rewrite Hx, Htruthy.
         destruct p; exact Hrun. }
    destruct (py_get tool_call_data "tool" JNull) as [tool_name|e] eqn:Hname.
    2: { injection Hrun as <- <-. apply Hlast. exists ai, model, st1.
         split; [exact Hai|]. rewrite Hx, Htruthy, Hname. auto. }
    destruct (py_get tool_call_data "arguments" (JDict [])) as [tool_args|e] eqn:Hargs.
    2: { injection Hrun as <- <-. apply Hlast. exists ai, model, st1.
         split; [exact Hai|]. rewrite Hx, Htruthy, Hname, Hargs. auto. }
    destruct (Tools.handle_tool_call tool_name tool_args u (logged [ToolExecuting tool_name] st1))
      as [[tool_result|e] st2] eqn:Hcall.
    2: { injection Hrun as <- <-. apply Hlast. exists ai, model, st1.
         split; [exact Hai|]. rewrite Hx, Htruthy, Hname, Hargs. exists e. auto. }
    set (mid := mkProgress (loop_messages p ++ Chat.tool_exchange ai tool_result)%list
                  st2 true tool_name (JStr model)).
    destruct (IH mid r st' ltac:(lia) Hrun) as (tool_names & q & Hchain & Hend).
    exists (tool_name :: tool_names)%list, q. split.
    + cbn [tool_turns]. exists mid. rewrite <- Hturn. split; [|exact Hchain].
      exists ai, model, st1, tool_call_data, tool_args, tool_result, st2. auto 10.
    + cbn [List.length]. destruct Hend as [(Hn & Hr & Hs) | (Hn & Hl)].
      * left. auto.
      * right. split; [lia|].
        replace (S (Chat.MAX_TURNS - S n + S (List.length tool_names)))
          with (S (Chat.MAX_TURNS - n + List.length tool_names)) by lia.
        exact Hl.
Qed.



(** What a row of tool turns does to the loop's variables. *)
Lemma tool_turns_variables u :
  forall tool_names turn_count p q,
    tool_turns u turn_count p tool_names q ->
    loop_last_tool_name q = List.last tool_names (loop_last_tool_name p)
    /\ loop_action_performed q
       = (loop_action_performed p || negb (List.length tool_names =? 0)%nat)%bool.
Proof.
  induction tool_names as [|x rest IH]; intros turn_count p q Hchain.
  - cbn in Hchain. subst q. cbn. now rewrite orb_false_r.
  - cbn [tool_turns] in Hchain. destruct Hchain as (mid & Hturn & Hrest).
    destruct Hturn as (ai & model & st1 & tool_call_data & tool_args & tool_result & st2
                       & _ & _ & _ & _ & _ & _ & ->).
    apply IH in Hrest as [Hl Ha]. cbn [loop_last_tool_name loop_action_performed] in Hl, Ha.
    rewrite Hl, Ha. cbn [List.length Nat.eqb negb]. rewrite orb_true_r. split; [|reflexivity].
    assert (Hd : forall (l : list json) a d d', List.last (a :: l) d = List.last (a :: l) d').
    { induction l as [|b l IHl]; intros a d d'; [reflexivity|].
      change (List.last (b :: l) d = List.last (b :: l) d'). apply IHl. }
    destruct rest as [|j rest]; [reflexivity|].
    change (List.last (x :: j :: rest) (loop_last_tool_name p))
      with (List.last (j :: rest) (loop_last_tool_name p)).
    apply Hd.
Qed.



End Ceiling.



Section Bulk.
Context `{Env}.









Lemma commit_clean (objs : list pending_obj) (s : Session) (t : list event)
    rows msgs ins :
  pending s = [] ->
  Db.flush objs (tasks s) (chat_messages s) [] = Some (rows, msgs, ins) ->
  Sess.commit (mkState (queue objs s) t) = (Return ins, mkState (mkSession rows msgs []) t).
Proof.
  intros Hp Hf. unfold Sess.commit, queue. run. cbn [session tasks chat_messages pending].
  rewrite Hp. cbn [app]. now rewrite Hf.
Qed.



End Bulk.


Section Planner.
Context `{Env}.












End Planner.



Section Blindness.
Context `{Env}.
Variable u : string.

Lemma same_to_refl x : same_to u x x.
Proof. split; [reflexivity|]. destruct (Task.owned_by u x); auto. Qed.

Lemma blind_ret {A} (a : A) : blind u (ret a).
Proof. intros st1 st2 Ha. split; [reflexivity | exact Ha]. Qed.

Lemma blind_raise {A} (e : exn) : blind u (@raise A e).
Proof. intros st1 st2 Ha. split; [reflexivity | exact Ha]. Qed.

Lemma blind_lift {A} (o : outcome A) : blind u (lift o).
Proof. intros st1 st2 Ha. split; [reflexivity | exact Ha]. Qed.

Lemma blind_clock : blind u clock.
Proof. intros st1 st2 Ha. split; [|exact Ha]. cbn. destruct Ha as (_ & _ & ->). reflexivity. Qed.

Lemma blind_emit (e : event) : blind u (emit e).
Proof.
  intros st1 st2 (Hr & Hp & Ht). split; [reflexivity|]. cbn. repeat split; auto.
  now rewrite Ht.
Qed.

Lemma blind_bind {A B} (m : M A) (k : A -> M B) :
  blind u m -> (forall a, blind u (k a)) -> blind u (bind m k).
Proof.
  intros Hm Hk st1 st2 Ha. unfold bind. destruct (Hm st1 st2 Ha) as [Hr Hs].
  destruct (m st1) as [[a|e] s1], (m st2) as [[b|e'] s2]; cbn in Hr, Hs; try discriminate.
  - injection Hr as <-. now apply Hk.
  - injection Hr as <-. split; [reflexivity | exact Hs].
Qed.

Lemma blind_try_except {A} (m : M A) (h : exn -> M A) :
  blind u m -> (forall e, blind u (h e)) -> blind u (try_except m h).
Proof.
  intros Hm Hh st1 st2 Ha. unfold try_except. destruct (Hm st1 st2 Ha) as [Hr Hs].
  destruct (m st1) as [[a|e] s1], (m st2) as [[b|e'] s2]; cbn in Hr, Hs; try discriminate.
  - split; [exact Hr | exact Hs].
  - injection Hr as <-. now apply Hh.
Qed.

Lemma blind_add (o : pending_obj) : blind u (Sess.add o).
Proof.
  intros st1 st2 (Hr & Hp & Ht). split; [reflexivity|]. cbn. repeat split; auto.
  now rewrite Hp.
Qed.

Lemma alike_max_id rows1 rows2 :
  Forall2 (same_to u) rows1 rows2 -> Db.max_id rows1 = Db.max_id rows2.
Proof.
  unfold Db.max_id. induction 1 as [|x y r1 r2 [Hid _] _ IH]; cbn; [reflexivity|].
  now rewrite Hid, IH.
Qed.

Lemma alike_put x rows1 rows2 :
  Forall2 (same_to u) rows1 rows2 -> Forall2 (same_to u) (Db.put x rows1) (Db.put x rows2).
Proof.
  unfold Db.put, Task.has_id. induction 1 as [|y1 y2 r1 r2 Hy _ IH]; cbn; constructor; auto.
  destruct Hy as [Hid Hy]. rewrite <- Hid.
  destruct (Task.id y1 =? Task.id x)%Z; [apply same_to_refl | now split].
Qed.

Lemma alike_remove x rows1 rows2 :
  Forall2 (same_to u) rows1 rows2 ->
  Forall2 (same_to u) (Db.remove x rows1) (Db.remove x rows2).
Proof.
  unfold Db.remove, Task.has_id. induction 1 as [|y1 y2 r1 r2 Hy _ IH]; cbn; [constructor|].
  pose proof Hy as [Hid _]. rewrite <- Hid.
  destruct (Task.id y1 =? Task.id x)%Z; cbn; [exact IH | now constructor].
Qed.

(** Writing the same unit of work to alike tables fails on both or inserts
    the same rows in both, and leaves them alike. *)
Lemma alike_flush objs :
  forall rows1 rows2 msgs1 msgs2 ins,
    Forall2 (same_to u) rows1 rows2 ->
    match Db.flush objs rows1 msgs1 ins, Db.flush objs rows2 msgs2 ins with
    | Some (r1, _, i1), Some (r2, _, i2) => Forall2 (same_to u) r1 r2 /\ i1 = i2
    | None, None => True
    | _, _ => False
    end.
Proof.
  induction objs as [|o objs IH]; intros rows1 rows2 msgs1 msgs2 ins Hr.
  - cbn. auto.
  - cbn [Db.flush]. destruct o as [d|m|x| |x].
    + unfold Db.next_id. rewrite (alike_max_id _ _ Hr).
      destruct (Task.insert_as _ d) as [y|]; [|exact I].
      apply IH. apply Forall2_app; [exact Hr|]. constructor; [apply same_to_refl | constructor].
    + now apply IH.
    + apply IH. now apply alike_put.
    + exact I.
    + apply IH. now apply alike_remove.
Qed.

Lemma blind_commit : blind u Sess.commit.
Proof.
  intros st1 st2 (Hr & Hp & Ht). unfold Sess.commit. run. rewrite Hp.
  pose proof (alike_flush (pending (session st2)) _ _
                (chat_messages (session st1)) (chat_messages (session st2)) [] Hr) as Hf.
  destruct (Db.flush _ (tasks (session st1)) _ _) as [[[r1 m1] i1]|],
           (Db.flush _ (tasks (session st2)) _ _) as [[[r2 m2] i2]|];
    try destruct Hf; cbn.
  - subst. repeat split; auto.
  - repeat split; auto.
Qed.

Lemma blind_select (p : Task.t -> bool) :
  (forall x, p x = true -> Task.owned_by u x = true) -> blind u (Sess.select p).
Proof.
  intros Hp st1 st2 Ha. unfold Sess.select. run. split; [|exact Ha].
  destruct Ha as (Hr & _ & _). f_equal.
  induction Hr as [|x y r1 r2 [_ Hxy] _ IH]; cbn; [reflexivity|].
  destruct Hxy as [[_ <-]|[Hx Hy]]; [now rewrite IH|].
  destruct (p x) eqn:Px; [apply Hp in Px; congruence|].
  destruct (p y) eqn:Py; [apply Hp in Py; congruence|]. exact IH.
Qed.

Lemma alike_get i rows1 rows2 :
  Forall2 (same_to u) rows1 rows2 ->
  match Db.get i rows1, Db.get i rows2 with
  | Some x, Some y => same_to u x y
  | None, None => True
  | _, _ => False
  end.
Proof.
  unfold Db.get, Task.has_id. induction 1 as [|x y r1 r2 Hxy _ IH]; cbn; [exact I|].
  pose proof Hxy as [Hid _]. rewrite <- Hid.
  destruct (Task.id x =? i)%Z; [exact Hxy | exact IH].
Qed.

(** Loading a row by its key and using it only when it belongs to [u]. *)
Lemma blind_get_task {A} (task_id : json) (k : option Task.t -> M A) :
  (forall t, Task.owned_by u t = true -> blind u (k (Some t))) ->
  blind u (k None) ->
  (forall t st, Task.owned_by u t = false -> k (Some t) st = k None st) ->
  blind u (bind (Tools.get_task task_id) k).
Proof.
  intros Hown Hnone Hskip.
  destruct (get_task_cases task_id) as [(i & ->) | [-> | (e & -> & _)]].
  - intros st1 st2 Ha. unfold Sess.get. unfold bind, get_session, ret. cbn [fst snd].
    pose proof Ha as (Hr & _ & _). pose proof (alike_get i _ _ Hr) as Hg.
    destruct (Db.get i (tasks (session st1))) as [x|],
             (Db.get i (tasks (session st2))) as [y|]; try contradiction.
    + destruct Hg as [_ [[Hx <-]|[Hx Hy]]].
      * now apply Hown.
      * rewrite (Hskip x st1 Hx), (Hskip y st2 Hy). now apply Hnone.
    + now apply Hnone.
  - intros st1 st2 Ha. unfold bind, ret. cbn [fst snd]. now apply Hnone.
  - intros st1 st2 Ha. unfold bind, raise. cbn [fst snd].
    split; [reflexivity | exact Ha].
Qed.

End Blindness.

Ltac blind_step :=
  first
    [ apply blind_ret | apply blind_raise | apply blind_lift | apply blind_clock
    | apply blind_emit | apply blind_add | apply blind_commit
    | apply blind_select;
      let x := fresh "x" in let Hx := fresh "Hx" in
      intros x Hx; apply andb_true_iff in Hx; tauto
    | apply blind_get_task;
      [ let t := fresh "t" in let Ht := fresh "Ht" in
        intros t Ht; cbv beta iota; rewrite ?Ht
      | cbv beta iota
      | let t := fresh "t" in let st := fresh "st" in let Ht := fresh "Ht" in
        intros t st Ht; cbv beta iota; rewrite ?Ht; reflexivity ]
    | apply blind_bind; [|intros]
    | apply blind_try_except; [|intros]
    | match goal with
      | |- blind _ (if ?b then _ else _) => destruct b
      | |- blind _ (match ?x with _ => _ end) => destruct x
      end ].

Section BlindTools.
Context `{Env}.
Variable u : string.

Lemma blind_try_models models messages last :
  blind u (Engine.try_models models messages last).
Proof.
  revert last. induction models as [|m rest IH]; intros last; cbn [Engine.try_models].
  - apply blind_raise.
  - apply blind_try_except; [|intros; apply IH].
    unfold Engine.try_model, Engine.openrouter_request. repeat blind_step.
Qed.

Lemma blind_retry_loop name p n attempts :
  blind u p -> blind u (Engine.retry_loop name p n attempts).
Proof.
  intros Hp. induction attempts as [|a rest IH]; cbn [Engine.retry_loop].
  - apply blind_ret.
  - apply blind_try_except; [apply blind_bind; [exact Hp | intros; apply blind_ret]|].
    intros e. apply blind_bind; [apply blind_emit | intros _].
    destruct (Engine.rate_limited e); [apply blind_ret|].
    apply blind_bind; [|intros; exact IH].
    unfold Engine.sleep. repeat blind_step.
Qed.

Lemma blind_dual_provider_chat messages : blind u (Engine.dual_provider_chat messages).
Proof.
  unfold Engine.dual_provider_chat, Engine.dual_provider_chat_with, Engine.providers.
  cbn [Engine.providers_loop].
  apply blind_bind; [|intros [r|]; apply blind_ret].
  apply blind_bind.
  - apply blind_retry_loop. unfold Engine.call_openrouter.
    destruct openrouter_client; [apply blind_try_models | apply blind_raise].
  - intros [r|]; [apply blind_ret|].
    apply blind_bind; [|intros [r|]; apply blind_ret].
    apply blind_retry_loop. unfold Engine.call_gemini. repeat blind_step.
Qed.

Lemma blind_set_completed_all completed rows :
  blind u (Tools.set_completed_all completed rows).
Proof.
  induction rows as [|t rows IH]; cbn [Tools.set_completed_all]; [apply blind_ret|].
  unfold Tools.set_completed.
  apply blind_bind; [repeat blind_step | intros _].
  apply blind_bind; [exact IH | intros; apply blind_ret].
Qed.

Lemma blind_delete_all rows : blind u (Tools.delete_all rows).
Proof.
  induction rows as [|t rows IH]; cbn [Tools.delete_all]; [apply blind_ret|].
  apply blind_bind; [apply blind_add | intros _].
  apply blind_bind; [exact IH | intros; apply blind_ret].
Qed.

Lemma blind_select_ids task_ids : blind u (Tools.select_ids task_ids u).
Proof. unfold Tools.select_ids, Sess.refuse. repeat blind_step. Qed.

Lemma blind_add_all_planned items : blind u (Skills.add_all_planned u items).
Proof.
  induction items as [|item items IH]; cbn [Skills.add_all_planned]; [apply blind_ret|].
  apply blind_bind; [unfold Skills.add_planned; repeat blind_step | intros title].
  apply blind_bind; [exact IH | intros; apply blind_ret].
Qed.

Lemma blind_day_planner content : blind u (Skills.day_planner content u).
Proof.
  unfold Skills.day_planner. destruct (u =? ""); [apply blind_ret|].
  apply blind_try_except; [|intros; apply blind_ret].
  unfold Skills.plan.
  apply blind_bind; [apply blind_dual_provider_chat | intros r].
  apply blind_bind; [apply blind_lift | intros json_str].
  apply blind_bind; [apply blind_lift | intros tasks_data].
  destruct tasks_data; try apply blind_ret.
  apply blind_bind; [apply blind_add_all_planned | intros titles].
  repeat blind_step.
Qed.

(** No tool, whatever its arguments, can tell alike states apart. *)
Lemma blind_handle_tool_call name arguments :
  blind u (Tools.handle_tool_call name arguments u).
Proof.
  unfold Tools.handle_tool_call.
  destruct (Tools.named name "add_task").
  { unfold Tools.add_task, Sess.refuse. repeat blind_step. }
  destruct (Tools.named name "list_tasks").
  { unfold Tools.list_tasks, Sess.refuse. repeat blind_step. }
  destruct (Tools.named name "complete_task").
  { unfold Tools.complete_task, Tools.set_completed. repeat blind_step. }
  destruct (Tools.named name "bulk_complete_tasks").
  { unfold Tools.bulk_complete_tasks.
    apply blind_bind; [apply blind_lift | intros task_ids].
    apply blind_bind; [apply blind_lift | intros completed].
    destruct (negb (Py.truthy task_ids)); [apply blind_ret|].
    apply blind_bind; [apply blind_select_ids | intros rows].
    destruct rows; [apply blind_ret|].
    apply blind_bind; [apply blind_set_completed_all | intros count].
    repeat blind_step. }
  destruct (Tools.named name "delete_task").
  { unfold Tools.delete_task. repeat blind_step. }
  destruct (Tools.named name "bulk_delete_tasks").
  { unfold Tools.bulk_delete_tasks.
    apply blind_bind; [apply blind_lift | intros task_ids].
    destruct (negb (Py.truthy task_ids)); [apply blind_ret|].
    apply blind_bind; [apply blind_select_ids | intros rows].
    destruct rows; [apply blind_ret|].
    apply blind_bind; [apply blind_delete_all | intros count].
    repeat blind_step. }
  destruct (Tools.named name "update_task").
  { unfold Tools.update_task, Sess.refuse. repeat blind_step. }
  destruct (Tools.named name "get_weather").
  { unfold Tools.get_weather. repeat blind_step. }
  destruct (Tools.named name "detect_language"); [repeat blind_step|].
  destruct (Tools.named name "suggest_priority"); [repeat blind_step|].
  destruct (Tools.named name "schedule_reminder"); [repeat blind_step|].
  destruct (Tools.named name "get_deployment_blueprint"); [repeat blind_step|].
  destruct (Tools.named name "plan_day"); [|apply blind_raise].
  apply blind_bind; [apply blind_lift | intros request].
  apply blind_bind; [apply blind_day_planner | intros; apply blind_ret].
Qed.

End BlindTools.

Section Ownership.
Context `{Env}.

Lemma new_rows_owned u before after x :
  foreign u after = foreign u before ->
  In x after -> ~ In x before -> Task.user_id x = u.
Proof.
  intros Hf Hin Hnew. apply owned_by_true.
  destruct (Task.owned_by u x) eqn:Ho; [reflexivity|].
  exfalso. apply Hnew.
  assert (Hx : In x (foreign u after)) by (apply foreign_In; now split).
  rewrite Hf in Hx. now apply foreign_In in Hx.
Qed.

(** C4. Every Task the tool executor reads or writes belongs to the
    authenticated user [u], for every tool name and every argument
    mapping, whatever user id the arguments may carry.  Writes: in an
    isolated session the rows of the other users are after the call what
    they were before it, the session is still isolated, and every row the
    call has added belongs to [u].  Reads: the call cannot tell apart two
    states that differ only in what the rows of other users hold; it
    returns the same result in both and leaves them alike. *)
Theorem tools_stay_within_the_user name arguments u st :
  isolated u (session st) ->
  let st' := snd (Tools.handle_tool_call name arguments u st) in
  foreign u (tasks (session st')) = foreign u (tasks (session st))
  /\ isolated u (session st')
  /\ (forall x, In x (tasks (session st')) -> ~ In x (tasks (session st)) ->
        Task.user_id x = u)
  /\ blind u (Tools.handle_tool_call name arguments u).
Proof.
  intros Hiso st'.
  destruct (tool_effect_isolated u st st'
              (handle_tool_call_effect name arguments u st) Hiso) as [Hf Hiso'].
  split; [exact Hf|]. split; [exact Hiso'|]. split.
  - intros x. now apply new_rows_owned.
  - apply blind_handle_tool_call.
Qed.

End Ownership.

(** C4 at the table of alice's tasks 1 and 2 and bob's task 999, where
    alice asks to complete task 999. *)
Lemma tools_stay_within_the_user_witness :
  let arguments := JDict [("task_id", JNum 999); ("user_id", JStr "bob")] in
  let call := @Tools.handle_tool_call Demo.outage (JStr "complete_task") arguments "alice" in
  isolated "alice" (session Demo.shared_table)
  /\ foreign "alice" (tasks (session (snd (call Demo.shared_table))))
     = [Demo.row 999 "bob" "Pay rent"]
  /\ blind "alice" call.
Proof.
  intros arguments call.
  assert (Hiso : isolated "alice" (session Demo.shared_table)).
  { split; [|constructor].
    cbn. repeat constructor; cbn; intros Hin;
      repeat (destruct Hin as [Hin|Hin]; [discriminate Hin|]); exact Hin. }
  split; [exact Hiso|].
  pose proof (@tools_stay_within_the_user Demo.outage (JStr "complete_task") arguments
                "alice" Demo.shared_table Hiso) as (Hf & _ & _ & Hb).
  split; [exact Hf | exact Hb].
Defined.

(* ================================================================== *)
(** * Further properties *)
(* ================================================================== *)

(** ** Further properties of the provider gateway *)

Section Costs.
Context `{Env}.

Lemma weight_app f a b : weight f (a ++ b)%list = (weight f a + weight f b)%nat.
Proof. unfold weight. now rewrite map_app, list_sum_app. Qed.

Lemma costs_weaken {A} f (m : M A) k k' : costs f m k -> (k <= k')%nat -> costs f m k'.
Proof. intros Hm Hk st. destruct (Hm st) as (l & E & Hl). exists l. split; [exact E | lia]. Qed.

Lemma costs_ret {A} f (a : A) : costs f (ret a) 0.
Proof. intros st. exists []. split; [now rewrite logged_nil | apply Nat.le_refl]. Qed.

Lemma costs_raise {A} f e : costs f (@raise A e) 0.
Proof. intros st. exists []. split; [now rewrite logged_nil | apply Nat.le_refl]. Qed.

Lemma costs_lift {A} f (o : outcome A) : costs f (lift o) 0.
Proof. intros st. exists []. split; [now rewrite logged_nil | apply Nat.le_refl]. Qed.

Lemma costs_clock f : costs f clock 0.
Proof. intros st. exists []. split; [now rewrite logged_nil | apply Nat.le_refl]. Qed.

Lemma costs_emit f e : costs f (emit e) (f e).
Proof. intros st. exists [e]. split; [reflexivity | unfold weight; cbn; lia]. Qed.

Lemma costs_bind {A B} f (m : M A) (k : A -> M B) a b :
  costs f m a -> (forall x, costs f (k x) b) -> costs f (bind m k) (a + b).
Proof.
  intros Hm Hk st. unfold bind. destruct (Hm st) as (l1 & E1 & H1).
  destruct (m st) as [[x|e] st1]; cbn [snd] in *.
  - destruct (Hk x st1) as (l2 & E2 & H2). exists (l1 ++ l2)%list. split.
    + rewrite E2, E1. now rewrite logged_app.
    + rewrite weight_app. lia.
  - exists l1. split; [exact E1 | lia].
Qed.

Lemma costs_try_except {A} f (m : M A) (h : exn -> M A) a b :
  costs f m a -> (forall e, costs f (h e) b) -> costs f (try_except m h) (a + b).
Proof.
  intros Hm Hh st. unfold try_except. destruct (Hm st) as (l1 & E1 & H1).
  destruct (m st) as [[x|e] st1]; cbn [snd] in *.
  - exists l1. split; [exact E1 | lia].
  - destruct (Hh e st1) as (l2 & E2 & H2). exists (l1 ++ l2)%list. split.
    + rewrite E2, E1. now rewrite logged_app.
    + rewrite weight_app. lia.
Qed.

Variable f : event -> nat.
Variables c g d : nat.
Hypothesis f_openrouter : forall model msgs, f (OpenRouterCall model msgs) = c.
Hypothesis f_gemini : forall prompt, f (GeminiCall prompt) = g.
Hypothesis f_sleep : forall s, f (Sleep s) = (d * s)%nat.
Hypothesis f_failed : forall name a e, f (AttemptFailed name a e) = 0%nat.

Lemma try_models_costs models messages last :
  costs f (Engine.try_models models messages last) (List.length models * c).
Proof.
  revert last. induction models as [|m rest IH]; intros last; cbn [Engine.try_models List.length].
  - apply costs_raise.
  - apply (costs_try_except f _ _ c (List.length rest * c)); [|intros; apply IH].
    unfold Engine.try_model, Engine.openrouter_request.
    replace c with (0 + (c + 0) + (0 + (0 + 0)))%nat by lia.
    apply costs_bind.
    + apply costs_bind; [apply costs_clock | intros k].
      apply costs_bind; [rewrite <- (f_openrouter m messages); apply costs_emit | intros _].
      destruct (openrouter_create _ _ _); [apply costs_ret | apply costs_raise].
    + intros content. apply costs_bind; [apply costs_lift | intros].
      apply costs_bind; [apply costs_lift | intros; apply costs_ret].
Qed.

Lemma call_openrouter_costs messages : costs f (Engine.call_openrouter messages) (4 * c).
Proof.
  unfold Engine.call_openrouter. destruct openrouter_client.
  - apply (try_models_costs Engine.OPENROUTER_MODELS).
  - eapply costs_weaken; [apply costs_raise | lia].
Qed.

Lemma call_gemini_costs messages : costs f (Engine.call_gemini messages) g.
Proof.
  unfold Engine.call_gemini. destruct gemini_model.
  - replace g with (0 + (g + 0))%nat by lia.
    apply costs_bind; [apply costs_clock | intros k].
    apply costs_bind; [rewrite <- (f_gemini (Engine.full_prompt messages)); apply costs_emit
                      | intros _].
    destruct (gemini_generate _ _); [apply costs_ret | apply costs_raise].
  - eapply costs_weaken; [apply costs_raise | lia].
Qed.

Lemma retry_loop_costs name p n k attempts :
  costs f p k ->
  costs f (Engine.retry_loop name p n attempts)
        (List.length attempts * k + d * pauses n attempts).
Proof.
  intros Hp. induction attempts as [|a rest IH]; cbn [Engine.retry_loop].
  - eapply costs_weaken; [apply costs_ret | apply Nat.le_0_l].
  - unfold pauses in *. cbn [List.length map list_sum].
    set (rest_cost := (List.length rest * k + d * list_sum (map _ rest))%nat) in *.
    set (pause := (if (a <? n - 1)%nat then a + 1 else 0)%nat).
    eapply costs_weaken.
    + apply (costs_try_except f _ _ (k + 0) (0 + (d * pause + rest_cost))).
      * apply costs_bind; [exact Hp | intros; apply costs_ret].
      * intros e. apply costs_bind.
        { eapply costs_weaken; [apply costs_emit | rewrite f_failed; apply Nat.le_refl]. }
        intros _. destruct (Engine.rate_limited e).
        { eapply costs_weaken; [apply costs_ret | lia]. }
        apply costs_bind; [|intros; exact IH].
        unfold pause.
        destruct (Z.of_nat a <? Z.of_nat n - 1)%Z eqn:E.
        -- apply Z.ltb_lt in E. replace (a <? n - 1)%nat with true
             by (symmetry; apply Nat.ltb_lt; lia).
           unfold Engine.sleep.
           eapply costs_weaken; [apply costs_emit | rewrite f_sleep; lia].
        -- eapply costs_weaken; [apply costs_ret | lia].
    + unfold rest_cost, pause.
      assert (Hc : forall x l, list_sum (x :: l) = (x + list_sum l)%nat) by reflexivity.
      rewrite Hc, Nat.mul_add_distr_l. cbn [Nat.mul]. lia.
Qed.

Lemma pauses_bound n : (2 * pauses n (seq 0 n) <= n * (n - 1))%nat.
Proof.
  assert (Hgen : forall t count,
             (2 * list_sum (map (fun a => if (a <? t)%nat then a + 1 else 0)%nat (seq 0 count))
              <= Nat.min count t * (Nat.min count t + 1))%nat).
  { intros t. induction count as [|count IH]; [cbn; lia|].
    rewrite seq_S, map_app, list_sum_app.
    set (total := list_sum (map _ (seq 0 count))) in *.
    change (list_sum (map ?h [(0 + count)%nat])) with (h count + 0)%nat. cbv beta.
    destruct (count <? t)%nat eqn:E.
    - apply Nat.ltb_lt in E. rewrite Nat.min_l in IH by lia. rewrite Nat.min_l by lia. nia.
    - apply Nat.ltb_ge in E. rewrite Nat.min_r in IH by lia. rewrite Nat.min_r by lia. nia. }
  unfold pauses. specialize (Hgen (n - 1)%nat n).
  destruct n as [|n]; [cbn; lia|].
  rewrite Nat.min_r in Hgen by lia. replace (S n - 1)%nat with n in * by lia. nia.
Qed.

Lemma dual_provider_chat_with_costs messages n :
  costs f (Engine.dual_provider_chat_with messages n)
        (n * (4 * c) + n * g + 2 * (d * pauses n (seq 0 n))).
Proof.
  unfold Engine.dual_provider_chat_with, Engine.providers. cbn [Engine.providers_loop].
  pose proof (retry_loop_costs "OpenRouter" _ n _ (seq 0 n) (call_openrouter_costs messages)) as H1.
  pose proof (retry_loop_costs "Gemini" _ n _ (seq 0 n) (call_gemini_costs messages)) as H2.
  rewrite length_seq in H1, H2.
  eapply costs_weaken.
  - apply costs_bind; [|intros [r|]; apply costs_ret].
    apply costs_bind; [exact H1 | intros [r|]].
    + eapply costs_weaken; [apply costs_ret | apply Nat.le_0_l].
    + apply costs_bind; [exact H2 | intros [r|]; apply costs_ret].
  - lia.
Qed.

End Costs.

Section GatewayExtras.
Context `{Env}.

(** X1.  The gateway always returns: whatever the messages, the retry
    count and the providers do, it raises nothing, it leaves the session
    as it was, and all it adds to the trace are events of the network. *)
Theorem gateway_always_answers (messages : list message) (max_retries : nat) (st : State) :
  exists text model st',
    Engine.dual_provider_chat_with messages max_retries st = (Return (text, model), st')
    /\ session st' = session st
    /\ exists l, trace st' = (trace st ++ l)%list /\ Forall network l.
Proof.
  destruct (dual_provider_chat_with_returns messages max_retries st) as ([text model] & st' & E).
  exists text, model, st'. split; [exact E|].
  assert (Hlogs : only_logs (Engine.dual_provider_chat_with messages max_retries)).
  { unfold Engine.dual_provider_chat_with. apply only_logs_bind.
    - apply providers_loop_only_logs. unfold Engine.providers.
      repeat constructor; cbn [snd];
        [apply call_openrouter_only_logs | apply call_gemini_only_logs].
    - intros [r|]; auto with logs. }
  destruct (Hlogs st) as (l & Hl & Hnet). rewrite E in Hl. cbn [snd] in Hl. subst st'.
  split; [reflexivity|]. exists l. split; [reflexivity | exact Hnet].
Qed.

(** X2.  The work of one call of the gateway is bounded by the retry
    count alone: at most 4 x max_retries requests to OpenRouter, at most
    max_retries to Gemini, and pauses of at most max_retries x
    (max_retries - 1) seconds in all; with the default of 2, ten requests
    and two seconds. *)
Theorem gateway_work_is_bounded (messages : list message) (max_retries : nat) (st : State) :
  exists l,
    snd (Engine.dual_provider_chat_with messages max_retries st) = logged l st
    /\ (weight is_openrouter_call l <= 4 * max_retries)%nat
    /\ (weight is_gemini_call l <= max_retries)%nat
    /\ (weight pause_of l <= max_retries * (max_retries - 1))%nat.
Proof.
  pose proof (pauses_bound max_retries) as Hp.
  destruct (dual_provider_chat_with_costs is_openrouter_call 1 0 0
              (fun _ _ => eq_refl) (fun _ => eq_refl) (fun _ => eq_refl)
              (fun _ _ _ => eq_refl) messages max_retries st) as (l1 & E1 & H1).
  destruct (dual_provider_chat_with_costs is_gemini_call 0 1 0
              (fun _ _ => eq_refl) (fun _ => eq_refl) (fun _ => eq_refl)
              (fun _ _ _ => eq_refl) messages max_retries st) as (l2 & E2 & H2).
  destruct (dual_provider_chat_with_costs pause_of 0 0 1
              (fun _ _ => eq_refl) (fun _ => eq_refl) (fun s => eq_sym (Nat.mul_1_l s))
              (fun _ _ _ => eq_refl) messages max_retries st) as (l3 & E3 & H3).
  assert (E12 : l2 = l1).
  { rewrite E1 in E2. unfold logged in E2. injection E2 as E2. now apply app_inv_head in E2. }
  assert (E13 : l3 = l1).
  { rewrite E1 in E3. unfold logged in E3. injection E3 as E3. now apply app_inv_head in E3. }
  subst l2 l3. exists l1. split; [exact E1|]. repeat split; lia.
Qed.

End GatewayExtras.

Section Labels.
Context `{Env}.

Lemma yields_ret {A} (P : A -> Prop) a : P a -> yields P (ret a).
Proof. intros Ha st r st' E. injection E as <- <-. exact Ha. Qed.

Lemma yields_raise {A} (P : A -> Prop) e : yields P (raise e).
Proof. intros st r st' E. discriminate E. Qed.

Lemma yields_bind {A B} (P : B -> Prop) (m : M A) (k : A -> M B) :
  (forall x, yields P (k x)) -> yields P (bind m k).
Proof.
  intros Hk st r st' E. unfold bind in E. destruct (m st) as [[x|e] st1].
  - exact (Hk x st1 r st' E).
  - discriminate E.
Qed.

Lemma yields_try_except {A} (P : A -> Prop) (m : M A) (h : exn -> M A) :
  yields P m -> (forall e, yields P (h e)) -> yields P (try_except m h).
Proof.
  intros Hm Hh st r st' E. unfold try_except in E. destruct (m st) as [[x|e] st1] eqn:Em.
  - injection E as <- <-. exact (Hm st x st1 Em).
  - exact (Hh e st1 r st' E).
Qed.

Lemma try_model_label model messages :
  In model Engine.OPENROUTER_MODELS ->
  yields (fun r => In (snd r) openrouter_labels) (Engine.try_model model messages).
Proof.
  intros Hin. unfold Engine.try_model. apply yields_bind. intros content.
  cbn in Hin. destruct Hin as [<-|[<-|[<-|[<-|[]]]]];
    intros st r st' E; vm_compute in E; injection E as <- <-; cbn; auto.
Qed.

Lemma try_models_label models messages last :
  incl models Engine.OPENROUTER_MODELS ->
  yields (fun r => In (snd r) openrouter_labels) (Engine.try_models models messages last).
Proof.
  revert last. induction models as [|m rest IH]; intros last Hincl; cbn [Engine.try_models].
  - apply yields_raise.
  - apply yields_try_except.
    + apply try_model_label. apply Hincl. now left.
    + intros e. apply IH. intros x Hx. apply Hincl. now right.
Qed.

Lemma retry_loop_yields (P : string * string -> Prop) name p n attempts :
  yields P p ->
  yields (fun r => match r with Some x => P x | None => True end)
         (Engine.retry_loop name p n attempts).
Proof.
  intros Hp. induction attempts as [|a rest IH]; cbn [Engine.retry_loop].
  - now apply yields_ret.
  - apply yields_try_except.
    + intros st r st' E. unfold bind in E. destruct (p st) as [[x|e] st1] eqn:Ep.
      * injection E as <- <-. exact (Hp st x st1 Ep).
      * discriminate E.
    + intros e. apply yields_bind. intros _.
      destruct (Engine.rate_limited e); [now apply yields_ret|].
      apply yields_bind. intros _. exact IH.
Qed.

(** X3.  The identifier the gateway returns with a text is one of six:
    "openrouter/" and the short name of one of the four models,
    "gemini/1.5-flash", or "fallback"; and "fallback" comes with the fixed
    degraded-service text only. *)
Theorem gateway_labels (messages : list message) (max_retries : nat)
    (st st' : State) (text model : string) :
  Engine.dual_provider_chat_with messages max_retries st = (Return (text, model), st') ->
  In model provider_labels
  /\ (model = "fallback" -> text = Engine.FALLBACK_MESSAGE).
Proof.
  set (P := fun r : string * string =>
              In (snd r) (openrouter_labels ++ ["gemini/1.5-flash"])%list).
  assert (Hor : yields P (Engine.call_openrouter messages)).
  { unfold Engine.call_openrouter. destruct openrouter_client; [|apply yields_raise].
    intros s r s' E. apply in_or_app. left.
    exact (try_models_label _ messages None (incl_refl _) s r s' E). }
  assert (Hge : yields P (Engine.call_gemini messages)).
  { unfold Engine.call_gemini. destruct gemini_model; [|apply yields_raise].
    apply yields_bind. intros k. apply yields_bind. intros _.
    destruct (gemini_generate _ _); [|apply yields_raise].
    apply yields_ret. apply in_or_app. right. now left. }
  intros E. unfold Engine.dual_provider_chat_with, Engine.providers in E.
  cbn [Engine.providers_loop] in E. unfold bind in E.
  pose proof (retry_loop_yields P "OpenRouter" _ max_retries (seq 0 max_retries) Hor st) as H1.
  destruct (Engine.retry_loop "OpenRouter" _ _ _ st) as [[[x|]|e] st1]; [| |discriminate E].
  - injection E as -> <-. specialize (H1 _ _ eq_refl). unfold P in H1. cbn [snd] in H1.
    split.
    + unfold provider_labels. apply in_app_or in H1 as [H1|H1]; apply in_or_app;
        [now left | right; cbn in *; tauto].
    + intros ->. cbn in H1. repeat (destruct H1 as [H1|H1]; [discriminate H1|]). destruct H1.
  - pose proof (retry_loop_yields P "Gemini" _ max_retries (seq 0 max_retries) Hge st1) as H2.
    destruct (Engine.retry_loop "Gemini" _ _ _ st1) as [[[x|]|e] st2]; [| |discriminate E].
    + injection E as -> <-. specialize (H2 _ _ eq_refl). unfold P in H2. cbn [snd] in H2.
      split.
      * unfold provider_labels. apply in_app_or in H2 as [H2|H2]; apply in_or_app;
          [now left | right; cbn in *; tauto].
      * intros ->. cbn in H2. repeat (destruct H2 as [H2|H2]; [discriminate H2|]). destruct H2.
    + cbn in E. unfold ret in E. injection E as <- <- <-. split; [|reflexivity].
      unfold provider_labels. apply in_or_app. right. cbn. tauto.
Qed.

End Labels.

Section ModelOrder.
Context `{Env}.

Lemma try_models_skip messages failed :
  (forall k m, In m failed -> exists error, openrouter_create k m messages = ApiFail error) ->
  forall rest last st, exists last',
    Engine.try_models (failed ++ rest) messages last st
    = Engine.try_models rest messages last'
        (logged (map (fun m => OpenRouterCall m messages) failed) st).
Proof.
  induction failed as [|m failed IH]; intros Hf rest last st.
  - exists last. cbn. now rewrite logged_nil.
  - cbn [app Engine.try_models]. unfold try_except, Engine.try_model, Engine.openrouter_request.
    unfold bind at 1. unfold bind at 1. unfold clock at 1. unfold bind at 1. unfold emit at 1.
    destruct (Hf (List.length (trace st)) m (or_introl eq_refl)) as (error & ->).
    unfold raise at 1.
    destruct (IH (fun k x Hx => Hf k x (or_intror Hx)) rest
                (Some (mkExn PlainException error))
                (mkState (session st) (trace st ++ [OpenRouterCall m messages])))
      as (last' & ->).
    exists last'. f_equal. unfold logged. cbn [session trace map]. now rewrite <- app_assoc.
Qed.

(** X4.  The OpenRouter models are asked in the order of the list and the
    first answer wins: when the models before [model] fail and [model]
    answers, the gateway returns that answer under the label of [model],
    having sent one request to each of them in order and nothing else: no
    further model, no pause, no retry and no request to Gemini. *)
Theorem first_answer_wins (messages : list message) (max_retries : nat) (st : State)
    (failed rest : list string) (model text : string) :
  openrouter_client = true ->
  (0 < max_retries)%nat ->
  Engine.OPENROUTER_MODELS = (failed ++ model :: rest)%list ->
  (forall k m, In m failed -> exists error, openrouter_create k m messages = ApiFail error) ->
  openrouter_create (List.length (trace st) + List.length failed) model messages = ApiOk text ->
  Engine.dual_provider_chat_with messages max_retries st
  = (Return (text, nth (List.length failed) openrouter_labels ""),
     logged (map (fun m => OpenRouterCall m messages) (failed ++ [model])) st).
Proof.
  intros Hc Hn Hsplit Hfail Hok.
  assert (Hcall : Engine.call_openrouter messages st
                  = (Return (text, nth (List.length failed) openrouter_labels ""),
                     logged (map (fun m => OpenRouterCall m messages) (failed ++ [model])) st)).
  { unfold Engine.call_openrouter. rewrite Hc, Hsplit.
    destruct (try_models_skip messages failed Hfail (model :: rest) None st) as (last' & ->).
    cbn [Engine.try_models]. unfold try_except, Engine.try_model, Engine.openrouter_request.
    unfold bind at 1. unfold bind at 1. unfold clock at 1. unfold bind at 1. unfold emit at 1.
    cbn [trace logged]. rewrite length_app, length_map, Hok. unfold ret at 1.
    assert (Hst : mkState (session (logged (map (fun m => OpenRouterCall m messages) failed) st))
                    ((trace st ++ map (fun m => OpenRouterCall m messages) failed)
                       ++ [OpenRouterCall model messages])
                  = logged (map (fun m => OpenRouterCall m messages) (failed ++ [model])) st).
    { unfold logged. cbn [session]. now rewrite map_app, app_assoc. }
    rewrite Hst. clear Hst Hok Hfail.
    unfold Engine.OPENROUTER_MODELS in Hsplit.
    destruct failed as [|f1 [|f2 [|f3 [|f4 failed]]]]; cbn [app] in Hsplit.
    - injection Hsplit as <- _. reflexivity.
    - injection Hsplit as _ <- _. reflexivity.
    - injection Hsplit as _ _ <- _. reflexivity.
    - injection Hsplit as _ _ _ <- _. reflexivity.
    - exfalso. injection Hsplit as _ _ _ _ Hnil. now destruct failed. }
  unfold Engine.dual_provider_chat_with, Engine.providers. cbn [Engine.providers_loop].
  destruct max_retries as [|n]; [lia|]. cbn [seq].
  unfold bind at 1. unfold bind at 1.
  now rewrite (retry_success _ _ _ _ _ _ _ _ Hcall).
Qed.

(** X5.  When all four OpenRouter models fail, what [call_openrouter]
    raises is the error of the last model of the list, after one request
    to each model in order. *)
Theorem openrouter_reports_the_last_error (messages : list message) (st : State)
    (err : string -> string) :
  openrouter_client = true ->
  (forall k model, openrouter_create k model messages = ApiFail (err model)) ->
  Engine.call_openrouter messages st
  = (Raise (mkExn PlainException (err "openai/gpt-4o-mini")),
     logged (map (fun m => OpenRouterCall m messages) Engine.OPENROUTER_MODELS) st).
Proof.
  intros Hc Hf. unfold Engine.call_openrouter. rewrite Hc.
  unfold Engine.OPENROUTER_MODELS. cbn [Engine.try_models].
  unfold try_except, Engine.try_model, Engine.openrouter_request, bind, clock, emit, raise.
  rewrite !Hf. unfold logged. cbn [session trace map]. now rewrite <- !app_assoc.
Qed.

End ModelOrder.

Section GeminiPrompt.

Lemma join_ends sep parts last :
  exists body, Text.join sep (parts ++ [last]) = body ++ last.
Proof.
  induction parts as [|p rest IH].
  - exists "". reflexivity.
  - destruct IH as (body & E). cbn [app Text.join].
    destruct (rest ++ [last])%list eqn:R; [now destruct rest|].
    rewrite E. exists (p ++ sep ++ body). now rewrite !append_assoc_s.
Qed.

(** X6.  The prompt sent to Gemini is made of the system, user and
    assistant messages alone, a message with any other role adding nothing
    to it, and it ends with the cue "Assistant:". *)
Theorem gemini_prompt_shape (messages : list message) :
  Engine.full_prompt messages = Engine.full_prompt (filter known_role messages)
  /\ exists body, Engine.full_prompt messages = body ++ "Assistant:".
Proof.
  split; [|apply join_ends].
  unfold Engine.full_prompt. f_equal. f_equal.
  induction messages as [|m rest IH]; [reflexivity|].
  cbn [filter flat_map]. unfold known_role at 1, Engine.prompt_part at 1.
  destruct (role m =? "system") eqn:E1; cbn [orb].
  - cbn [flat_map]. unfold Engine.prompt_part at 2. rewrite E1. now rewrite IH.
  - destruct (role m =? "user") eqn:E2; cbn [orb].
    + cbn [flat_map]. unfold Engine.prompt_part at 2. rewrite E1, E2. now rewrite IH.
    + destruct (role m =? "assistant") eqn:E3.
      * cbn [flat_map]. unfold Engine.prompt_part at 2. rewrite E1, E2, E3. now rewrite IH.
      * exact IH.
Qed.

End GeminiPrompt.

(** ** Further properties of the tools and the skills *)

Section Throws.
Context `{Env}.

Lemma throws_ret {A} P (a : A) : throws P (ret a).
Proof. intros st e st' E. discriminate E. Qed.

Lemma throws_raise {A} (P : exn -> Prop) e : P e -> throws P (@raise A e).
Proof. intros He st e' st' E. injection E as <- _. exact He. Qed.

Lemma throws_lift {A} (P : exn -> Prop) (o : outcome A) :
  (forall e, o = Raise e -> P e) -> throws P (lift o).
Proof. intros Ho st e st' E. injection E as E _. now apply Ho. Qed.

Lemma throws_clock P : throws P clock.
Proof. intros st e st' E. discriminate E. Qed.

Lemma throws_emit P ev : throws P (emit ev).
Proof. intros st e st' E. discriminate E. Qed.

Lemma throws_add P o : throws P (Sess.add o).
Proof. intros st e st' E. discriminate E. Qed.

Lemma throws_bind {A B} P (m : M A) (k : A -> M B) :
  throws P m -> (forall x, throws P (k x)) -> throws P (bind m k).
Proof.
  intros Hm Hk st e st' E. unfold bind in E. destruct (m st) as [[x|e0] st1] eqn:Em.
  - exact (Hk x st1 e st' E).
  - injection E as <- _. exact (Hm st e0 st1 Em).
Qed.

Lemma throws_try_except {A} P (m : M A) (h : exn -> M A) :
  (forall e, throws P (h e)) -> throws P (try_except m h).
Proof.
  intros Hh st e st' E. unfold try_except in E. destruct (m st) as [[x|e0] st1].
  - discriminate E.
  - exact (Hh e0 st1 e st' E).
Qed.

Lemma throws_commit (P : exn -> Prop) :
  P (mkExn DatabaseError constraint_error) -> throws P Sess.commit.
Proof.
  intros Hp st e st' E. unfold Sess.commit in E. run.
  destruct (Db.flush _ _ _ _) as [[[rows msgs] ins]|]; [discriminate E|].
  injection E as <- _. exact Hp.
Qed.

Lemma throws_select P p : throws P (Sess.select p).
Proof. intros st e st' E. discriminate E. Qed.

Lemma throws_weaken {A} (P Q : exn -> Prop) (m : M A) :
  (forall e, P e -> Q e) -> throws P m -> throws Q m.
Proof. intros Hpq Hm st e st' E. apply Hpq. exact (Hm st e st' E). Qed.

Lemma throws_get_task task_id : throws handler_error (Tools.get_task task_id).
Proof.
  destruct (get_task_cases task_id) as [(i & ->) | [-> | (e & -> & He)]].
  - intros st e st' E. discriminate E.
  - apply throws_ret.
  - now apply throws_raise.
Qed.

Lemma py_get_raises d key default e :
  py_get d key default = Raise e -> exn_class_of e = AttributeError.
Proof. destruct d; cbn; intros E; try discriminate E; now injection E as <-. Qed.

Lemma py_lower_raises v e : Skills.py_lower v = Raise e -> exn_class_of e = AttributeError.
Proof. destruct v; cbn; intros E; try discriminate E; now injection E as <-. Qed.

End Throws.

Ltac throws_step :=
  first
    [ apply throws_ret | apply throws_clock | apply throws_emit | apply throws_add
    | apply throws_select
    | apply throws_commit; unfold handler_error; cbn; tauto
    | apply throws_get_task
    | apply throws_raise; unfold handler_error; cbn; tauto
    | apply throws_lift;
      let e := fresh "e" in let E := fresh "E" in
      intros e E; apply py_get_raises in E; unfold handler_error; rewrite E; cbn; tauto
    | apply throws_bind; [|intros]
    | apply throws_try_except; intros
    | match goal with
      | |- throws _ (if ?b then _ else _) => destruct b
      | |- throws _ (match ?x with _ => _ end) => destruct x
      end ].

Section Dispatch.
Context `{Env}.

Lemma throws_set_completed_all completed rows :
  throws handler_error (Tools.set_completed_all completed rows).
Proof.
  induction rows as [|t rows IH]; cbn [Tools.set_completed_all]; [apply throws_ret|].
  unfold Tools.set_completed.
  apply throws_bind; [repeat throws_step | intros _].
  apply throws_bind; [exact IH | intros; apply throws_ret].
Qed.

Lemma throws_delete_all rows : throws handler_error (Tools.delete_all rows).
Proof.
  induction rows as [|t rows IH]; cbn [Tools.delete_all]; [apply throws_ret|].
  apply throws_bind; [apply throws_add | intros _].
  apply throws_bind; [exact IH | intros; apply throws_ret].
Qed.

Lemma throws_select_ids task_ids u : throws handler_error (Tools.select_ids task_ids u).
Proof. unfold Tools.select_ids, Sess.refuse. repeat throws_step. Qed.

Lemma throws_day_planner content u : throws handler_error (Skills.day_planner content u).
Proof.
  unfold Skills.day_planner. destruct (u =? ""); [apply throws_ret|].
  apply throws_try_except. intros e. apply throws_ret.
Qed.

Lemma skill_raises {A} (run : json -> outcome A) :
  (forall v e, run v = Raise e -> handler_error e) ->
  forall arguments key default (k : A -> json),
    throws handler_error
      (text <- lift (py_get arguments key default) ;;
       result <- lift (run text) ;;
       ret (k result)).
Proof.
  intros Hrun arguments key default k.
  apply throws_bind; [repeat throws_step | intros text].
  apply throws_bind; [|intros; apply throws_ret].
  apply throws_lift. intros e E. exact (Hrun _ _ E).
Qed.

(** What list_tasks raises: an error of the arguments' types, or what
    [int] raises on a limit that is a text. *)
Lemma list_tasks_throws name arguments u :
  Tools.named name "list_tasks" = true ->
  throws (fun e => handler_error e \/ limit_refused name arguments e)
    (Tools.list_tasks arguments u).
Proof.
  intros Hname st e st' E. unfold Tools.list_tasks in E.
  unfold bind at 1 in E. unfold lift at 1 in E.
  destruct (py_get arguments "status" (JStr "all")) as [status|e0] eqn:Hstatus.
  2: { injection E as <- _. left. apply py_get_raises in Hstatus.
       unfold handler_error. rewrite Hstatus. cbn. tauto. }
  unfold bind at 1 in E. unfold lift at 1 in E.
  destruct (py_get arguments "limit" (JNum 20)) as [limit|e0] eqn:Hlimit.
  2: { injection E as <- _. left. apply py_get_raises in Hlimit.
       unfold handler_error. rewrite Hlimit. cbn. tauto. }
  unfold bind at 1 in E. unfold lift at 1 in E.
  destruct (Tools.as_limit limit) as [n|e0] eqn:Hn.
  - unfold Sess.select in E. run.
    match type of E with context [Db.limit n ?rows] => destruct (Db.limit n rows) end;
      discriminate E.
  - injection E as <- _. destruct limit as [|[|]|i|s|l|l]; cbn in Hn; try discriminate Hn.
    + destruct (py_int s) as [i|error] eqn:Hs; [discriminate Hn|]. injection Hn as <-.
      right. split; [exact Hname|]. exists s, error. auto.
    + injection Hn as <-. left. unfold handler_error. cbn. tauto.
    + injection Hn as <-. left. unfold handler_error. cbn. tauto.
Qed.

(** Whatever an advertised tool raises is an error of the arguments'
    types or of the database, or what [int] makes of the limit of
    list_tasks. *)
Lemma handlers_throw name arguments u :
  advertised name = true ->
  throws (fun e => handler_error e \/ limit_refused name arguments e)
    (Tools.handle_tool_call name arguments u).
Proof.
  intros Hadv. unfold Tools.handle_tool_call.
  destruct (Tools.named name "list_tasks") eqn:N2.
  { destruct (Tools.named name "add_task") eqn:N1.
    - apply (throws_weaken handler_error); [tauto|].
      unfold Tools.add_task, Sess.refuse. repeat throws_step.
    - now apply list_tasks_throws. }
  apply (throws_weaken handler_error); [tauto|].
  destruct (Tools.named name "add_task") eqn:N1.
  { unfold Tools.add_task, Sess.refuse. repeat throws_step. }
  destruct (Tools.named name "complete_task") eqn:N3.
  { unfold Tools.complete_task, Tools.set_completed. repeat throws_step. }
  destruct (Tools.named name "bulk_complete_tasks") eqn:N4.
  { unfold Tools.bulk_complete_tasks.
    apply throws_bind; [repeat throws_step | intros task_ids].
    apply throws_bind; [repeat throws_step | intros completed].
    destruct (negb (Py.truthy task_ids)); [apply throws_ret|].
    apply throws_bind; [apply throws_select_ids | intros rows].
    destruct rows; [apply throws_ret|].
    apply throws_bind; [apply throws_set_completed_all | intros count].
    repeat throws_step. }
  destruct (Tools.named name "delete_task") eqn:N5.
  { unfold Tools.delete_task. repeat throws_step. }
  destruct (Tools.named name "bulk_delete_tasks") eqn:N6.
  { unfold Tools.bulk_delete_tasks.
    apply throws_bind; [repeat throws_step | intros task_ids].
    destruct (negb (Py.truthy task_ids)); [apply throws_ret|].
    apply throws_bind; [apply throws_select_ids | intros rows].
    destruct rows; [apply throws_ret|].
    apply throws_bind; [apply throws_delete_all | intros count].
    repeat throws_step. }
  destruct (Tools.named name "update_task") eqn:N7.
  { unfold Tools.update_task, Sess.refuse. repeat throws_step. }
  destruct (Tools.named name "get_weather") eqn:N8.
  { unfold Tools.get_weather. repeat throws_step. }
  destruct (Tools.named name "detect_language") eqn:N9.
  { apply (skill_raises Skills.lang_detector). intros v e E.
    destruct v; cbn in E; try discriminate E; injection E as <-;
      unfold handler_error; cbn; tauto. }
  destruct (Tools.named name "suggest_priority") eqn:N10.
  { apply (skill_raises Skills.priority_suggester). intros v e E.
    unfold Skills.priority_suggester in E.
    destruct (Skills.py_lower v) eqn:L; [discriminate E|]. injection E as <-.
    apply py_lower_raises in L. unfold handler_error. rewrite L. cbn. tauto. }
  destruct (Tools.named name "schedule_reminder") eqn:N11.
  { apply (skill_raises Skills.reminder_scheduler). intros v e E.
    unfold Skills.reminder_scheduler in E.
    destruct (Skills.py_lower v) eqn:L; [discriminate E|]. injection E as <-.
    apply py_lower_raises in L. unfold handler_error. rewrite L. cbn. tauto. }
  destruct (Tools.named name "get_deployment_blueprint") eqn:N12.
  { apply (skill_raises Skills.deployment_blueprint). intros v e E.
    unfold Skills.deployment_blueprint in E.
    destruct (Skills.py_lower v) eqn:L; [discriminate E|]. injection E as <-.
    apply py_lower_raises in L. unfold handler_error. rewrite L. cbn. tauto. }
  destruct (Tools.named name "plan_day") eqn:N13.
  { apply throws_bind; [repeat throws_step | intros request].
    apply throws_bind; [apply throws_day_planner | intros; apply throws_ret]. }
  exfalso. unfold advertised, Tools.tool_names in Hadv. cbn [existsb] in Hadv.
  rewrite N1, N2, N3, N4, N5, N6, N7, N8, N9, N10, N11, N12, N13 in Hadv. discriminate Hadv.
Qed.

(** A name that [list_tools] does not advertise falls through every
    branch of the executor. *)
Lemma unknown_tool_raises (name arguments : json) (u : string) (st : State) :
  advertised name = false ->
  Tools.handle_tool_call name arguments u st
  = (Raise (mkExn ValueError ("Tool not found: " ++ Py.str name)), st).
Proof.
  unfold advertised, Tools.tool_names. cbn [existsb]. intros Hno.
  repeat (apply orb_false_iff in Hno as [?N Hno]).
  unfold Tools.handle_tool_call. now rewrite N, N0, N1, N2, N3, N4, N5, N6, N7, N8, N9, N10, N11.
Qed.


End Dispatch.

Section ReadTools.
Context `{Env}.



End ReadTools.

Section WriteTools.
Context `{Env}.

Lemma has_own_id x : Task.has_id (Task.id x) x = true.
Proof. unfold Task.has_id. apply Z.eqb_refl. Qed.

Lemma has_id_other j x y :
  j <> Task.id x -> Task.has_id (Task.id x) y = true -> Task.has_id j y = false.
Proof.
  unfold Task.has_id. intros Hj E. apply Z.eqb_eq in E. apply Z.eqb_neq. congruence.
Qed.

Lemma get_put_same x rows x0 :
  Db.get (Task.id x) rows = Some x0 -> Db.get (Task.id x) (Db.put x rows) = Some x.
Proof.
  unfold Db.get, Db.put. induction rows as [|y rows IH]; cbn [find map]; [discriminate|].
  destruct (Task.has_id (Task.id x) y) eqn:E.
  - intros _. now rewrite has_own_id.
  - rewrite E. exact IH.
Qed.

Lemma get_put_other x rows j :
  j <> Task.id x -> Db.get j (Db.put x rows) = Db.get j rows.
Proof.
  intros Hj. unfold Db.get, Db.put. induction rows as [|y rows IH]; cbn [find map]; [reflexivity|].
  destruct (Task.has_id (Task.id x) y) eqn:E.
  - rewrite (has_id_other j x y Hj E), (has_id_other j x x Hj (has_own_id x)). exact IH.
  - destruct (Task.has_id j y); [reflexivity | exact IH].
Qed.

Lemma get_remove_same x rows : Db.get (Task.id x) (Db.remove x rows) = None.
Proof.
  unfold Db.get, Db.remove. induction rows as [|y rows IH]; cbn [find filter]; [reflexivity|].
  destruct (Task.has_id (Task.id x) y) eqn:E; cbn [negb find]; [exact IH|].
  now rewrite E.
Qed.

Lemma get_remove_other x rows j :
  j <> Task.id x -> Db.get j (Db.remove x rows) = Db.get j rows.
Proof.
  intros Hj. unfold Db.get, Db.remove. induction rows as [|y rows IH]; cbn [find filter]; [reflexivity|].
  destruct (Task.has_id (Task.id x) y) eqn:E; cbn [negb find].
  - rewrite (has_id_other j x y Hj E). exact IH.
  - destruct (Task.has_id j y); [reflexivity | exact IH].
Qed.





End WriteTools.

Section ById.
Context `{Env}.

Lemma commit_one (o : pending_obj) (st : State) rows msgs ins :
  pending (session st) = [] ->
  Db.flush [o] (tasks (session st)) (chat_messages (session st)) [] = Some (rows, msgs, ins) ->
  Sess.commit (mkState (queue [o] (session st)) (trace st))
  = (Return ins, mkState (mkSession rows msgs []) (trace st)).
Proof. intros Hp Hf. now apply commit_clean. Qed.

Lemma put_put x rows : Db.put x (Db.put x rows) = Db.put x rows.
Proof.
  unfold Db.put. rewrite map_map. apply map_ext. intros y.
  destruct (Task.has_id (Task.id x) y) eqn:E; [now rewrite has_own_id | now rewrite E].
Qed.

(** X11.  [complete_task] on a task of the user sets its flag to
    [completed] (true when the argument is absent) and nothing else: the
    row under the key is the old row with the new flag, every other key
    finds what it found before, and calling it again gives the same answer
    and the same state. *)
Theorem complete_task_sets_the_flag (fields : list (string * json)) (u : string)
    (st : State) (i : Z) (x : Task.t) (b : bool) :
  let completed :=
    match Py.lookup "completed" fields with Some v => v | None => JBool true end in
  let x' := Task.with_completed b x in
  let st' := mkState (mkSession (Db.put x' (tasks (session st)))
                        (chat_messages (session st)) []) (trace st) in
  let answer := Tools.success ("Task '" ++ Task.title x ++ "' has been "
                                 ++ Tools.status_text completed ++ ".") [] in
  pending (session st) = [] ->
  Py.lookup "task_id" fields = Some (JNum i) ->
  Db.get i (tasks (session st)) = Some x ->
  Task.user_id x = u ->
  Task.as_bool completed = Some b ->
  Tools.complete_task (JDict fields) u st = (Return answer, st')
  /\ Db.get i (tasks (session st')) = Some x'
  /\ (forall j, j <> i -> Db.get j (tasks (session st')) = Db.get j (tasks (session st)))
  /\ Tools.complete_task (JDict fields) u st' = (Return answer, st').
Proof.
  intros completed x' st' answer Hp Hid Hget Hu Hb.
  destruct (get_owned _ _ _ Hget) as [Hin Hxi].
  assert (Hrun : forall s0 x0,
             pending (session s0) = [] ->
             Db.get i (tasks (session s0)) = Some x0 ->
             Task.user_id x0 = u ->
             Tools.complete_task (JDict fields) u s0
             = (Return (Tools.success ("Task '" ++ Task.title x0 ++ "' has been "
                                         ++ Tools.status_text completed ++ ".") []),
                mkState (mkSession (Db.put (Task.with_completed b x0) (tasks (session s0)))
                           (chat_messages (session s0)) []) (trace s0))).
  { intros s0 x0 Hp0 Hget0 Hu0. unfold Tools.complete_task.
    unfold bind at 1. unfold lift at 1. cbn [py_get]. rewrite Hid.
    unfold bind at 1. unfold lift at 1. fold completed.
    unfold bind at 1. unfold Tools.get_task. cbn [Db.primary_key Db.as_key]. unfold Sess.get. run.
    rewrite Hget0. apply owned_by_true in Hu0. rewrite Hu0.
    unfold Tools.set_completed. rewrite Hb. rewrite add_state.
    rewrite (commit_one (Dirty (Task.with_completed b x0)) s0 _ _ [] Hp0 eq_refl).
    reflexivity. }
  assert (Hx' : Task.id x' = i) by exact Hxi.
  split; [now apply Hrun|]. split; [|split].
  - cbn [st' session tasks]. rewrite <- Hx'. apply (get_put_same x' _ x). now rewrite Hx'.
  - intros j Hj. cbn [st' session tasks]. apply get_put_other. now rewrite Hx'.
  - rewrite (Hrun st' x'); [|reflexivity| |exact Hu].
    + unfold st', answer. cbn [session tasks chat_messages trace].
      change (Task.with_completed b x') with x'. now rewrite put_put.
    + cbn [st' session tasks]. rewrite <- Hx'. apply (get_put_same x' _ x). now rewrite Hx'.
Qed.

(** X12.  [delete_task] with the key of a task of the user removes that
    row: the key finds nothing afterwards, every other key finds what it
    found before, and the same call made again answers "Task not found."
    and changes nothing. *)
Theorem delete_task_removes_the_row (fields : list (string * json)) (u : string)
    (st : State) (i : Z) (x : Task.t) :
  let st' := mkState (mkSession (Db.remove x (tasks (session st)))
                        (chat_messages (session st)) []) (trace st) in
  pending (session st) = [] ->
  Py.lookup "task_id" fields = Some (JNum i) ->
  i <> 0%Z ->
  Db.get i (tasks (session st)) = Some x ->
  Task.user_id x = u ->
  Tools.delete_task (JDict fields) u st
  = (Return (Tools.success ("Task '" ++ Task.title x ++ "' has been deleted.") []), st')
  /\ Db.get i (tasks (session st')) = None
  /\ (forall j, j <> i -> Db.get j (tasks (session st')) = Db.get j (tasks (session st)))
  /\ Tools.delete_task (JDict fields) u st' = (Return (Tools.error "Task not found."), st').
Proof.
  intros st' Hp Hid Hi Hget Hu.
  destruct (get_owned _ _ _ Hget) as [Hin Hxi].
  assert (Htruthy : Py.truthy (JNum i) = true).
  { cbn. apply negb_true_iff. now apply Z.eqb_neq. }
  split; [|split; [|split]].
  - unfold Tools.delete_task.
    unfold bind at 1. unfold lift at 1. cbn [py_get]. rewrite Hid.
    unfold bind at 1. unfold lift at 1. rewrite Htruthy.
    unfold bind at 1. unfold Tools.get_task. cbn [Db.primary_key Db.as_key]. unfold Sess.get. run.
    rewrite Hget. apply owned_by_true in Hu. rewrite Hu.
    rewrite add_state.
    rewrite (commit_one (Deleted x) st _ _ [] Hp eq_refl). reflexivity.
  - cbn [st' session tasks]. rewrite <- Hxi. apply get_remove_same.
  - intros j Hj. cbn [st' session tasks]. apply get_remove_other. now rewrite Hxi.
  - unfold Tools.delete_task.
    unfold bind at 1. unfold lift at 1. cbn [py_get]. rewrite Hid.
    unfold bind at 1. unfold lift at 1. rewrite Htruthy.
    unfold bind at 1. unfold Tools.get_task. cbn [Db.primary_key Db.as_key]. unfold Sess.get. run.
    cbn [st' session tasks]. rewrite <- Hxi, get_remove_same. reflexivity.
Qed.


End ById.

Section Like.

Lemma like_percent_any s : Db.like "%" s = true.
Proof.
  cbn [Db.like Ascii.eqb Bool.eqb].
  induction s as [|c s IH]; [reflexivity|].
  cbn [orb]. cbn in *. exact IH.
Qed.

Lemma like_plain_prefix p s :
  plain p = true -> Db.like (p ++ "%") s = Text.starts_with p s.
Proof.
  revert s. induction p as [|c p IH]; intros s Hp.
  - cbn [append Text.starts_with]. apply like_percent_any.
  - cbn [plain] in Hp. apply andb_true_iff in Hp as [Hc Hp].
    apply andb_true_iff in Hc as [H1 H2].
    apply negb_true_iff in H1, H2.
    cbn [append Db.like]. rewrite H1, H2.
    destruct s as [|a s]; cbn [Text.starts_with]; [reflexivity|].
    now rewrite IH.
Qed.

Lemma like_contains p s :
  plain p = true -> Db.like ("%" ++ p ++ "%") s = Text.contains p s.
Proof.
  intros Hp. cbn [append Db.like Ascii.eqb Bool.eqb].
  induction s as [|a s IH].
  - cbn [Text.contains]. rewrite (like_plain_prefix p "" Hp). now rewrite !orb_false_r.
  - cbn [Text.contains]. rewrite (like_plain_prefix p (String a s) Hp). now rewrite IH.
Qed.

Lemma lower_char_plain c :
  negb (Ascii.eqb (Text.lower_char c) "%"%char) && negb (Ascii.eqb (Text.lower_char c) "_"%char)
  = negb (Ascii.eqb c "%"%char) && negb (Ascii.eqb c "_"%char).
Proof. destruct c as [[] [] [] [] [] [] [] []]; reflexivity. Qed.

Lemma lower_plain p : plain (Text.lower p) = plain p.
Proof.
  induction p as [|c p IH]; [reflexivity|].
  cbn [Text.lower plain]. now rewrite lower_char_plain, IH.
Qed.

Lemma lower_app a b : Text.lower (a ++ b) = Text.lower a ++ Text.lower b.
Proof. induction a as [|c a IH]; cbn; [reflexivity | now rewrite IH]. Qed.

(** On a title without wildcards the fuzzy match is a substring test that
    ignores the case of the ASCII letters. *)
Lemma ilike_contains t subject :
  plain t = true ->
  Db.ilike ("%" ++ t ++ "%") subject = Text.contains (Text.lower t) (Text.lower subject).
Proof.
  intros Hp. unfold Db.ilike. rewrite !lower_app.
  change (Text.lower "%") with "%". apply like_contains. now rewrite lower_plain.
Qed.

End Like.

Section ByTitle.
Context `{Env}.

Lemma remove_one x rows :
  NoDup (map Task.id rows) -> In x rows ->
  S (List.length (Db.remove x rows)) = List.length rows.
Proof.
  unfold Db.remove. induction rows as [|y rows IH]; [intros _ []|].
  cbn [map]. intros Hnd Hin. inversion Hnd as [|? ? Hy Hnd']; subst.
  cbn [filter]. destruct (Task.has_id (Task.id x) y) eqn:E; cbn [negb List.length].
  - f_equal. unfold Task.has_id in E. apply Z.eqb_eq in E.
    assert (Hall : forall z, In z rows -> negb (Task.has_id (Task.id x) z) = true).
    { intros z Hz. apply negb_true_iff. unfold Task.has_id. apply Z.eqb_neq.
      intros Ez. apply Hy. rewrite E, <- Ez. now apply in_map. }
    clear - Hall. induction rows as [|z rows IH]; [reflexivity|].
    cbn [filter]. rewrite (Hall z (or_introl eq_refl)). cbn [List.length]. f_equal.
    apply IH. intros w Hw. apply Hall. now right.
  - f_equal. destruct Hin as [->|Hin]; [now rewrite has_own_id in E|]. now apply IH.
Qed.

(** X14.  [delete_task] by title, for a title without the wildcards of
    LIKE, looks among the tasks of the user for those whose title contains
    the given text, the case of ASCII letters ignored: with none it answers
    "Task not found." and changes nothing; otherwise it deletes the first
    of them in table order and that one only. *)
Theorem delete_task_by_title_takes_the_first_match (fields : list (string * json))
    (u : string) (st : State) (t : string) :
  let task_id := match Py.lookup "task_id" fields with Some v => v | None => JNull end in
  let hit x := Task.owned_by u x
               && Text.contains (Text.lower t) (Text.lower (Task.title x)) in
  pending (session st) = [] ->
  Py.truthy task_id = false ->
  Py.lookup "title" fields = Some (JStr t) ->
  t <> "" ->
  plain t = true ->
  (filter hit (tasks (session st)) = [] ->
   Tools.delete_task (JDict fields) u st = (Return (Tools.error "Task not found."), st))
  /\ (forall x others,
        filter hit (tasks (session st)) = (x :: others)%list ->
        Tools.delete_task (JDict fields) u st
        = (Return (Tools.success ("Task '" ++ Task.title x ++ "' has been deleted.") []),
           mkState (mkSession (Db.remove x (tasks (session st)))
                      (chat_messages (session st)) []) (trace st))
        /\ (NoDup (map Task.id (tasks (session st))) ->
            S (List.length (Db.remove x (tasks (session st))))
            = List.length (tasks (session st)))).
Proof.
  intros task_id hit Hp Hid Ht Hne Hplain.
  assert (Htruthy : Py.truthy (JStr t) = true).
  { cbn. apply negb_true_iff. now apply String.eqb_neq. }
  assert (Hrun : Tools.delete_task (JDict fields) u st
                 = match filter hit (tasks (session st)) with
                   | [] => (Return (Tools.error "Task not found."), st)
                   | x :: _ =>
                       (Sess.add (Deleted x) ;;;
                        Sess.commit ;;;
                        ret (Tools.success ("Task '" ++ Task.title x ++ "' has been deleted.") []))
                         st
                   end).
  { unfold Tools.delete_task.
    unfold bind at 1. unfold lift at 1. cbn [py_get]. fold task_id.
    unfold bind at 1. unfold lift at 1. rewrite Ht, Hid, Htruthy.
    unfold bind at 1. unfold Sess.select at 1. unfold bind at 1.
    unfold get_session at 1. unfold ret at 1.
    replace (filter _ (tasks (session st))) with (filter hit (tasks (session st))).
    - destruct (filter hit (tasks (session st))); reflexivity.
    - apply filter_ext. intros x. unfold hit. cbn [Py.str]. now rewrite ilike_contains. }
  split.
  - intros E. now rewrite Hrun, E.
  - intros x others E. split.
    + rewrite Hrun, E. unfold bind at 1. rewrite add_state.
      unfold bind at 1.
      now rewrite (commit_one (Deleted x) st _ _ [] Hp eq_refl).
    + intros Hnd. apply remove_one; [exact Hnd|].
      assert (Hx : In x (filter hit (tasks (session st)))) by (rewrite E; now left).
      now apply filter_In in Hx.
Qed.

End ByTitle.

Section Update.
Context `{Env}.

Lemma assign_string fields key set (x : Task.t) :
  (forall v, Py.lookup key fields = Some v -> exists s, v = JStr s) ->
  Tools.assign (JDict fields) key set (Some x)
  = Some (match Py.lookup key fields with
          | Some (JStr s) => set s x
          | _ => x
          end).
Proof.
  intros Hs. unfold Tools.assign. destruct (Py.lookup key fields) as [v|]; [|reflexivity].
  destruct (Hs v eq_refl) as (s & ->). reflexivity.
Qed.

(** X15.  [update_task] on a task of the user changes the fields named in
    the arguments and no other: title, description and priority take the
    given texts, or stay when the argument is absent; key, owner, completion
    flag and tags stay; every other row stays. *)
Theorem update_task_changes_named_fields_only (fields : list (string * json)) (u : string)
    (st : State) (i : Z) (x : Task.t) :
  let new key old :=
    match Py.lookup key fields with Some (JStr s) => s | _ => old end in
  let x' := Task.mk (Task.id x) (Task.user_id x) (new "title" (Task.title x))
              (new "description" (Task.description x)) (Task.completed x)
              (new "priority" (Task.priority x)) (Task.tags x) in
  let st' := mkState (mkSession (Db.put x' (tasks (session st)))
                        (chat_messages (session st)) []) (trace st) in
  pending (session st) = [] ->
  Py.lookup "task_id" fields = Some (JNum i) ->
  Db.get i (tasks (session st)) = Some x ->
  Task.user_id x = u ->
  (forall key v, In key ["title"; "description"; "priority"]%list ->
                 Py.lookup key fields = Some v -> exists s, v = JStr s) ->
  Tools.update_task (JDict fields) u st
  = (Return (Tools.success ("Task #" ++ Text.of_Z i ++ " has been updated: '"
                              ++ Task.title x' ++ "' (" ++ Task.priority x' ++ ")") []), st')
  /\ Db.get i (tasks (session st')) = Some x'
  /\ (forall j, j <> i -> Db.get j (tasks (session st')) = Db.get j (tasks (session st))).
Proof.
  intros new x' st' Hp Hid Hget Hu Hstr.
  destruct (get_owned _ _ _ Hget) as [Hin Hxi].
  assert (Hx' : Task.id x' = i) by exact Hxi.
  assert (Hassign :
            Tools.assign (JDict fields) "priority" Task.with_priority
              (Tools.assign (JDict fields) "description" Task.with_description
                 (Tools.assign (JDict fields) "title" Task.with_title (Some x)))
            = Some x').
  { rewrite assign_string by (intros v Hv; apply (Hstr "title" v); [cbn; tauto | exact Hv]).
    rewrite assign_string by (intros v Hv; apply (Hstr "description" v); [cbn; tauto | exact Hv]).
    rewrite assign_string by (intros v Hv; apply (Hstr "priority" v); [cbn; tauto | exact Hv]).
    f_equal. unfold x', new.
    destruct (Py.lookup "title" fields) as [[]|], (Py.lookup "description" fields) as [[]|],
      (Py.lookup "priority" fields) as [[]|]; destruct x; reflexivity. }
  split; [|split].
  - unfold Tools.update_task.
    unfold bind at 1. unfold lift at 1. cbn [py_get]. rewrite Hid.
    unfold bind at 1. unfold Tools.get_task. cbn [Db.primary_key Db.as_key]. unfold Sess.get. run.
    rewrite Hget. apply owned_by_true in Hu. rewrite Hu, Hassign.
    rewrite add_state.
    rewrite (commit_one (Dirty x') st _ _ [] Hp eq_refl).
    rewrite Hx'. reflexivity.
  - cbn [st' session tasks]. rewrite <- Hx'. apply (get_put_same x' _ x). now rewrite Hx'.
  - intros j Hj. cbn [st' session tasks]. apply get_put_other. now rewrite Hx'.
Qed.

End Update.

Section Weather.
Context `{Env}.

(** X16.  [get_weather] raises nothing for a mapping of arguments and
    never touches the session.  Without a city it answers an error and
    sends no request; with one it sends exactly one lookup, and a failure of
    the lookup comes back as an error result with the text of the
    exception; a weather code of 80 or more reads "Showers/Thunderstorm", a
    code that is zero or negative "Clear sky". *)
Theorem get_weather_reports_failures (fields : list (string * json)) (st : State) :
  let city := match Py.lookup "city" fields with Some v => v | None => JNull end in
  let lookup := weather_lookup (List.length (trace st)) (Py.str city) in
  (Py.truthy city = false ->
   Tools.get_weather (JDict fields) st
   = (Return (Tools.error "City name is required."), st))
  /\ (Py.truthy city = true ->
      exists answer,
        Tools.get_weather (JDict fields) st
        = (Return answer, logged [WeatherCall (Py.str city)] st)
        /\ (forall e, lookup = WeatherFail e ->
                      answer = Tools.error ("Failed to fetch weather: " ++ e))
        /\ (lookup = WeatherNoCity ->
            answer = Tools.error ("City '" ++ Py.str city ++ "' not found."))
        /\ (forall name temp unit value code,
              lookup = WeatherOk name temp unit value code ->
              exists desc,
                answer = Tools.success ("Current weather in " ++ name ++ ": " ++ temp ++ unit
                                          ++ ", " ++ desc)
                           [("data", JDict [("temp", value); ("desc", JStr desc)])]
                /\ In desc ["Clear sky"; "Partly cloudy"; "Foggy"; "Drizzle"; "Rain"; "Snow";
                            "Showers/Thunderstorm"]%list
                /\ ((80 <= code)%Z -> desc = "Showers/Thunderstorm")
                /\ ((code <= 0)%Z -> desc = "Clear sky"))).
Proof.
  intros city lookup. split; intros Hc.
  - unfold Tools.get_weather. run. cbn [py_get]. fold city. now rewrite Hc.
  - unfold Tools.get_weather. run. cbn [py_get]. fold city. rewrite Hc. cbn [negb].
    fold lookup. unfold logged.
    destruct lookup as [e| |name temp unit value code] eqn:L; eexists; (split; [reflexivity|]).
    + split; [intros e0 [= <-]; reflexivity|]. split; [discriminate|]. discriminate.
    + split; [discriminate|]. split; [reflexivity|]. discriminate.
    + split; [discriminate|]. split; [discriminate|].
      intros ? ? ? ? ? [= <- <- <- <- <-]. exists (Tools.weather_desc code).
      split; [reflexivity|]. unfold Tools.weather_desc. cbn [existsb].
      split; [|split].
      * repeat match goal with
               | |- context [if ?b then _ else _] => destruct b
               end; cbn; tauto.
      * intros Hge.
        repeat match goal with
               | |- context [(code =? ?k)%Z] =>
                   replace (code =? k)%Z with false by (symmetry; apply Z.eqb_neq; lia)
               end.
        cbn [orb]. now replace (code >=? 80)%Z with true by (symmetry; apply Z.geb_le; lia).
      * intros Hle.
        repeat match goal with
               | |- context [(code =? ?k)%Z] =>
                   replace (code =? k)%Z with false by (symmetry; apply Z.eqb_neq; lia)
               end.
        cbn [orb]. now replace (code >=? 80)%Z with false
          by (symmetry; rewrite Z.geb_leb; apply Z.leb_gt; lia).
Qed.

End Weather.

Section SkillFacts.

Lemma has_urdu_app a b : Skills.has_urdu (a ++ b) = Skills.has_urdu a || Skills.has_urdu b.
Proof.
  induction a as [|c a IH]; [reflexivity|].
  cbn [append Skills.has_urdu]. rewrite IH. now rewrite orb_assoc.
Qed.

Lemma ascii_has_no_urdu s : ascii_only s = true -> Skills.has_urdu s = false.
Proof.
  induction s as [|c s IH]; [reflexivity|].
  cbn [ascii_only Skills.has_urdu]. intros Ha. apply andb_true_iff in Ha as [Hc Hs].
  rewrite (IH Hs). apply Nat.ltb_lt in Hc.
  replace (216 <=? nat_of_ascii c)%nat with false by (symmetry; apply Nat.leb_gt; lia).
  reflexivity.
Qed.

(** X17.  The language detector answers "ur" or "en"; a text of ASCII
    characters is "en", and a text is "ur" exactly when one of its parts
    is: Urdu is found wherever it stands. *)
Theorem lang_detector_finds_urdu_anywhere (a b : string) :
  (ascii_only a = true -> Skills.lang_detector (JStr a) = Return "en")
  /\ (Skills.lang_detector (JStr (a ++ b)) = Return "ur"
      <-> Skills.lang_detector (JStr a) = Return "ur"
          \/ Skills.lang_detector (JStr b) = Return "ur")
  /\ (Skills.lang_detector (JStr a) = Return "ur" \/ Skills.lang_detector (JStr a) = Return "en").
Proof.
  unfold Skills.lang_detector. split; [|split].
  - intros Ha. now rewrite ascii_has_no_urdu.
  - rewrite has_urdu_app.
    destruct (Skills.has_urdu a), (Skills.has_urdu b); cbn [orb]; split; intros E;
      try (destruct E as [E|E]); try discriminate E; auto.
  - destruct (Skills.has_urdu a); auto.
Qed.

Lemma starts_with_app p s post :
  Text.starts_with p s = true -> Text.starts_with p (s ++ post) = true.
Proof.
  revert s. induction p as [|a p IH]; intros s; [reflexivity|].
  destruct s as [|c s]; cbn [Text.starts_with append]; [discriminate|].
  intros E. apply andb_true_iff in E as [-> E]. now apply IH.
Qed.

Lemma contains_app_r k s post :
  Text.contains k s = true -> Text.contains k (s ++ post) = true.
Proof.
  induction s as [|c s IH]; cbn [Text.contains append]; intros E.
  - rewrite orb_false_r in E.
    destruct k; [|discriminate E]. destruct post; reflexivity.
  - apply orb_true_iff in E as [E|E].
    + change (String c (s ++ post)) with (String c s ++ post).
      now rewrite (starts_with_app _ _ post E).
    + rewrite (IH E). apply orb_true_r.
Qed.

Lemma contains_app_l k pre s :
  Text.contains k s = true -> Text.contains k (pre ++ s) = true.
Proof.
  intros E. induction pre as [|c pre IH]; [exact E|].
  cbn [append Text.contains]. rewrite IH. apply orb_true_r.
Qed.

Lemma any_in_embedded keywords pre s post :
  Skills.any_in keywords s = true -> Skills.any_in keywords (pre ++ s ++ post) = true.
Proof.
  unfold Skills.any_in. intros E. apply existsb_exists in E as (k & Hk & E).
  apply existsb_exists. exists k. split; [exact Hk|].
  apply contains_app_l. now apply contains_app_r.
Qed.

Lemma lower_char_idem c : Text.lower_char (Text.lower_char c) = Text.lower_char c.
Proof. destruct c as [[] [] [] [] [] [] [] []]; reflexivity. Qed.

Lemma lower_idem s : Text.lower (Text.lower s) = Text.lower s.
Proof. induction s as [|c s IH]; cbn; [reflexivity | now rewrite lower_char_idem, IH]. Qed.

(** X18.  The priority suggester, on a text none of whose characters
    turns into an ASCII letter in lower case from outside ASCII, answers
    high, medium or low; high wins: a text that is high stays high whatever
    is written before and after it; low is answered only when no keyword of
    high or medium occurs; and the case of the letters plays no part. *)
Theorem priority_suggester_precedence (s pre post : string) :
  folds_into_ascii (pre ++ s ++ post) = false ->
  (exists p, Skills.priority_suggester (JStr s) = Return p
             /\ In p ["high"; "medium"; "low"]%list)
  /\ (Skills.priority_suggester (JStr s) = Return "high" ->
      Skills.priority_suggester (JStr (pre ++ s ++ post)) = Return "high")
  /\ (Skills.priority_suggester (JStr s) = Return "low" ->
      Skills.any_in Skills.high_keywords (Text.lower s) = false
      /\ Skills.any_in Skills.medium_keywords (Text.lower s) = false
      /\ Skills.any_in Skills.low_keywords (Text.lower s) = true)
  /\ Skills.priority_suggester (JStr (Text.lower s)) = Skills.priority_suggester (JStr s).
Proof.
  intros _. unfold Skills.priority_suggester. cbn [Skills.py_lower].
  split; [|split; [|split]].
  - eexists. split; [reflexivity|].
    destruct (Skills.any_in Skills.high_keywords _); [cbn; tauto|].
    destruct (Skills.any_in Skills.medium_keywords _); [cbn; tauto|].
    destruct (Skills.any_in Skills.low_keywords _); cbn; tauto.
  - intros E. rewrite !lower_app.
    destruct (Skills.any_in Skills.high_keywords (Text.lower s)) eqn:Hh.
    + now rewrite (any_in_embedded _ (Text.lower pre) _ (Text.lower post) Hh).
    + destruct (Skills.any_in Skills.medium_keywords _); [discriminate E|].
      destruct (Skills.any_in Skills.low_keywords _); discriminate E.
  - intros E.
    destruct (Skills.any_in Skills.high_keywords _); [discriminate E|].
    destruct (Skills.any_in Skills.medium_keywords _); [discriminate E|].
    destruct (Skills.any_in Skills.low_keywords _); [auto | discriminate E].
  - now rewrite lower_idem.
Qed.

End SkillFacts.

(** ** Further properties of the conversation loop *)

Section Endpoint.
Context `{Env}.

Lemma save_user_message_state request u st :
  pending (session st) = [] ->
  Chat.save_user_message request u st = (Return tt, with_user_message request u st).
Proof.
  intros Hp. unfold Chat.save_user_message. unfold bind at 1. rewrite add_state.
  unfold bind at 1.
  now rewrite (commit_one (NewChatMessage (ChatMessage.mk u "user" (Chat.message_of request)))
                 st _ _ [] Hp eq_refl).
Qed.

Lemma throws_gateway P messages : throws P (Engine.dual_provider_chat messages).
Proof.
  intros st e st' E.
  destruct (dual_provider_chat_returns messages st) as (r & st1 & E1). congruence.
Qed.

Lemma throws_handle_tool_call name arguments u :
  throws (fun e => Err.is_http e = false) (Tools.handle_tool_call name arguments u).
Proof.
  intros st e st' E. destruct (advertised name) eqn:Ha.
  - pose proof (handlers_throw name arguments u Ha st e st' E) as [He|He].
    + unfold handler_error in He. unfold Err.is_http. cbn in He.
      destruct He as [<-|[<-|[<-|[]]]]; reflexivity.
    + destruct He as (_ & s & error & _ & _ & ->). reflexivity.
  - rewrite (unknown_tool_raises name arguments u st Ha) in E.
    injection E as <- _. reflexivity.
Qed.

Lemma extract_json_raises text e :
  Engine.extract_json text = Raise e ->
  exn_class_of e = RecursionError \/ exn_class_of e = ValueError.
Proof.
  unfold Engine.extract_json.
  destruct (json_loads text) as [v|[error|error|error]]; cbn [loads_error].
  - discriminate.
  - destruct (Engine.from_fences text); [discriminate|].
    destruct (Engine.from_braces text); discriminate.
  - intros [= <-]. now left.
  - intros [= <-]. now right.
Qed.

Lemma throws_turns remaining u :
  forall messages action last used,
    throws (fun e => Err.is_http e = false)
           (Chat.turns remaining u messages action last used).
Proof.
  induction remaining as [|n IH]; intros messages action last used; cbn [Chat.turns].
  - apply throws_ret.
  - apply throws_bind; [apply throws_emit | intros _].
    apply throws_bind; [apply throws_gateway | intros r].
    cbv zeta. apply throws_bind.
    { apply throws_lift. intros e E. unfold Err.is_http.
      now destruct (extract_json_raises _ _ E) as [-> | ->]. }
    intros tool_call_data. destruct (negb (Py.truthy tool_call_data)).
    + apply throws_bind; [apply throws_add | intros _].
      apply throws_bind; [now apply throws_commit | intros; apply throws_ret].
    + apply throws_bind.
      { apply throws_lift. intros e E. apply py_get_raises in E.
        unfold Err.is_http. now rewrite E. }
      intros tool_name. apply throws_bind.
      { apply throws_lift. intros e E. apply py_get_raises in E.
        unfold Err.is_http. now rewrite E. }
      intros tool_args. apply throws_bind; [apply throws_emit | intros _].
      apply throws_bind; [apply throws_handle_tool_call | intros tool_result].
      apply IH.
Qed.

Lemma yields_turns remaining u :
  forall messages action last used,
    yields is_reply (Chat.turns remaining u messages action last used).
Proof.
  induction remaining as [|n IH]; intros messages action last used; cbn [Chat.turns].
  - apply yields_ret. unfold is_reply. eauto.
  - apply yields_bind. intros _. apply yields_bind. intros r. cbv zeta.
    apply yields_bind. intros tool_call_data.
    destruct (negb (Py.truthy tool_call_data)).
    + apply yields_bind. intros _. apply yields_bind. intros _.
      apply yields_ret. unfold is_reply. eauto.
    + apply yields_bind. intros tool_name. apply yields_bind. intros tool_args.
      apply yields_bind. intros _. apply yields_bind. intros tool_result. apply IH.
Qed.

(** X19.  On a session of its own the chat endpoint always answers: it
    raises nothing, and what it returns is the apology or a reply with a
    response, the action flag, the tool and the model. *)
Theorem chat_endpoint_always_answers (request : Chat.ChatRequest) (u : string) (st : State) :
  pending (session st) = [] ->
  exists r st',
    Chat.chat_endpoint request u st = (Return r, st')
    /\ (r = Chat.APOLOGY \/ is_reply r).
Proof.
  intros Hp. unfold Chat.chat_endpoint. unfold bind.
  rewrite (save_user_message_state request u st Hp).
  unfold Chat.guarded, try_except, Chat.conversation.
  set (st0 := with_user_message request u st).
  destruct (Chat.turns Chat.MAX_TURNS u (Chat.initial_messages request u) false JNull JNull st0)
    as [[r|e] st'] eqn:E.
  - exists r, st'. split; [reflexivity|]. right.
    exact (yields_turns _ _ _ _ _ _ _ _ _ E).
  - rewrite (throws_turns _ _ _ _ _ _ _ _ _ E). exists Chat.APOLOGY, st'. split; [reflexivity|].
    now left.
Qed.

End Endpoint.

Section Reported.
Context `{Env}.

(** A final answer carries the loop's variables. *)
Lemma final_answer_reply u p ai_message used_model st1 r st' :
  final_answer u p ai_message used_model st1 = (Return r, st') ->
  r = Chat.reply ai_message (loop_action_performed p) (loop_last_tool_name p)
        (JStr used_model).
Proof.
  unfold final_answer. unfold bind at 1. rewrite add_state. unfold bind at 1.
  match goal with |- context [Sess.commit ?X] => destruct (Sess.commit X) as [[ins|e] st2] end;
    cbv beta iota; unfold ret; [|discriminate].
  now intros [= <- _].
Qed.

(** X20.  A run of the loop that returns a reply is a row of tool turns,
    in each of which the executor was called and returned, followed by
    the ceiling or by a turn with a final answer.  The reply's
    action_performed is true exactly when the row is not empty, that is,
    when at least one tool was executed, and its tool is the name the
    executor was called with last, null when it was never called. *)
Theorem reply_reports_the_tools_run (request : Chat.ChatRequest) (u : string)
    (st st' : State) (r : json) :
  Chat.conversation request u st = (Return r, st') ->
  exists tool_names q text model,
    tool_turns u 0 (loop_start request u st) tool_names q
    /\ ((List.length tool_names = Chat.MAX_TURNS /\ st' = loop_state q)
        \/ ((List.length tool_names < Chat.MAX_TURNS)%nat
            /\ last_turn (S (List.length tool_names)) u q (Return r) st'))
    /\ r = Chat.reply text (negb (List.length tool_names =? 0)%nat)
             (List.last tool_names JNull) model.
Proof.
  intros Hrun. unfold Chat.conversation in Hrun.
  destruct (turns_decompose Chat.MAX_TURNS u (loop_start request u st) (Return r) st'
              (Nat.le_refl _) Hrun) as (tool_names & q & Hchain & Hend).
  rewrite Nat.sub_diag in Hchain, Hend. cbn [Nat.add] in Hend.
  destruct (tool_turns_variables u _ _ _ _ Hchain) as [Hlast Haction].
  cbn [loop_start loop_last_tool_name loop_action_performed orb] in Hlast, Haction.
  destruct Hend as [(Hlen & [= ->] & Hst) | (Hlen & Hturn)].
  - exists tool_names, q, Chat.DONE_MESSAGE, (loop_used_model q).
    split; [exact Hchain|]. split; [left; auto|].
    rewrite Hlast, Hlen. reflexivity.
  - pose proof Hturn as (ai & model & st1 & Hai & Hx).
    exists tool_names, q, ai, (JStr model). split; [exact Hchain|]. split; [right; auto|].
    destruct (Engine.extract_json ai) as [tool_call_data|e]; [|now destruct Hx].
    destruct (Py.truthy tool_call_data).
    + destruct (py_get tool_call_data "tool" JNull) as [tool_name|e].
      * destruct (py_get tool_call_data "arguments" (JDict [])) as [tool_args|e];
          [destruct Hx as (e & _ & Hr) | destruct Hx as [Hr _]]; discriminate Hr.
      * destruct Hx as [Hr _]. discriminate Hr.
    + apply final_answer_reply in Hx. now rewrite Hx, Hlast, Haction.
Qed.

End Reported.

Section Malformed.
Context `{Env}.

(** X21.  When the first answer of the model is JSON that is truthy but
    is no tool invocation the executor can run (it is no object, or its
    "tool" is not an advertised name) the endpoint answers with the apology,
    and the session holds the user's message and no other change. *)
Theorem malformed_tool_call_gets_the_apology (request : Chat.ChatRequest) (u : string)
    (st st1 : State) (ai_message model : string) (call : json) :
  let st0 := with_user_message request u st in
  pending (session st) = [] ->
  Engine.dual_provider_chat (Chat.initial_messages request u)
    (logged [TurnStarted 1] st0) = (Return (ai_message, model), st1) ->
  Engine.extract_json ai_message = Return call ->
  Py.truthy call = true ->
  ((forall fields, call <> JDict fields)
   \/ (exists fields,
         call = JDict fields
         /\ advertised (match Py.lookup "tool" fields with Some v => v | None => JNull end)
            = false)) ->
  exists st',
    Chat.chat_endpoint request u st = (Return Chat.APOLOGY, st')
    /\ session st' = session st0.
Proof.
  intros st0 Hp Hai Hcall Htruthy Hbad.
  assert (Hs1 : session st1 = session st0).
  { pose proof (only_logs_session _ (logged [TurnStarted 1] st0)
                  (dual_provider_chat_only_logs (Chat.initial_messages request u))) as Hs.
    now rewrite Hai in Hs. }
  unfold Chat.chat_endpoint. unfold bind at 1.
  rewrite (save_user_message_state request u st Hp). fold st0.
  unfold Chat.guarded, try_except, Chat.conversation.
  change Chat.MAX_TURNS with 10%nat.
  change 10%nat with (S 9) at 1.
  change (logged [TurnStarted 1] st0)
    with (logged [TurnStarted (Chat.MAX_TURNS - 9)] st0) in Hai.
  rewrite (turns_step _ _ _ _ _ _ _ _ _ _ Hai), Hcall, Htruthy.
  destruct Hbad as [Hno | (fields & -> & Hname)].
  - destruct call; try (eexists; split; [reflexivity | exact Hs1]).
    now destruct (Hno fields).
  - cbn [py_get].
    rewrite (unknown_tool_raises _ _ u _ Hname). eexists. split; [reflexivity | exact Hs1].
Qed.

End Malformed.

Section HalfPlan.
Context `{Env}.




End HalfPlan.

(** ** The history endpoints *)

Section HistoryEndpoints.
Context `{Env}.

(** X23.  The history endpoint returns the messages of the asking user,
    oldest first.  A chat request of [u] on a session of its own leaves the
    history of every other user as it was and appends to the history of
    [u] the user's message, followed by the assistant's answer when the
    endpoint returns one. *)
Theorem chat_appends_to_the_own_history (request : Chat.ChatRequest) (u v : string)
    (st st' : State) (r : outcome json) :
  pending (session st) = [] ->
  Chat.chat_endpoint request u st = (r, st') ->
  ChatHistory.get_chat_history v st' = (Return (history_of v st'), st')
  /\ (v <> u -> history_of v st' = history_of v st)
  /\ (history_of u st'
      = (history_of u st ++ [ChatMessage.mk u "user" (Chat.message_of request)])%list
      \/ exists text action tool model,
           r = Return (Chat.reply text action tool model)
           /\ history_of u st'
              = (history_of u st ++ [ChatMessage.mk u "user" (Chat.message_of request);
                                     ChatMessage.mk u "assistant" text])%list).
Proof.
  intros Hp Hrun. split; [reflexivity|].
  unfold Chat.chat_endpoint in Hrun. unfold bind in Hrun.
  rewrite (save_user_message_state request u st Hp) in Hrun.
  set (saved := (chat_messages (session st)
                   ++ [ChatMessage.mk u "user" (Chat.message_of request)])%list).
  destruct (guarded_history u (Chat.conversation request u) (with_user_message request u st)
              saved r st') as [Hh _].
  - intros r0 st0 Hb. unfold Chat.conversation in Hb.
    apply turns_history in Hb; [exact Hb | constructor].
  - exact Hrun.
  - assert (Hown : ChatHistory.own u (ChatMessage.mk u "user" (Chat.message_of request)) = true)
      by (unfold ChatHistory.own; cbn; apply String.eqb_refl).
    assert (Hother : forall role text, v <> u ->
                       ChatHistory.own v (ChatMessage.mk u role text) = false).
    { intros role text Hv. unfold ChatHistory.own. cbn. apply String.eqb_neq. congruence. }
    unfold history_of.
    destruct Hh as [->|(text & action & tool & model & Hr & ->)]; unfold saved.
    + split.
      * intros Hv. rewrite filter_app. cbn [filter]. rewrite (Hother _ _ Hv).
        apply app_nil_r.
      * left. rewrite filter_app. cbn [filter]. now rewrite Hown.
    + split.
      * intros Hv. rewrite !filter_app. cbn [filter]. rewrite !(Hother _ _ Hv).
        now rewrite !app_nil_r.
      * right. exists text, action, tool, model. split; [exact Hr|].
        rewrite !filter_app. cbn [filter]. rewrite Hown.
        assert (Hown' : ChatHistory.own u (ChatMessage.mk u "assistant" text) = true)
          by (unfold ChatHistory.own; cbn; apply String.eqb_refl).
        rewrite Hown'. now rewrite <- app_assoc.
Qed.

(** X24.  Clearing the history on a session of its own answers
    "Chat history cleared", leaves the user with an empty history and
    every other user with the history they had, keeps the tasks, and done
    again changes nothing. *)
Theorem clear_chat_history_clears_one_user (u : string) (st : State) :
  let st' := mkState (mkSession (tasks (session st))
                        (filter (fun m => negb (ChatHistory.own u m)) (chat_messages (session st)))
                        []) (trace st) in
  pending (session st) = [] ->
  ChatHistory.clear_chat_history u st = (Return ChatHistory.CLEARED, st')
  /\ history_of u st' = []
  /\ (forall v, v <> u -> history_of v st' = history_of v st)
  /\ ChatHistory.clear_chat_history u st' = (Return ChatHistory.CLEARED, st').
Proof.
  intros st' Hp.
  assert (Hrun : forall s0, pending (session s0) = [] ->
            ChatHistory.clear_chat_history u s0
            = (Return ChatHistory.CLEARED,
               mkState (mkSession (tasks (session s0))
                          (filter (fun m => negb (ChatHistory.own u m)) (chat_messages (session s0)))
                          []) (trace s0))).
  { intros s0 Hp0. unfold ChatHistory.clear_chat_history. run. now rewrite Hp0. }
  split; [now apply Hrun|]. split; [|split].
  - unfold history_of, st'. cbn [session chat_messages].
    induction (chat_messages (session st)) as [|m msgs IH]; [reflexivity|].
    cbn [filter]. destruct (ChatHistory.own u m) eqn:E; cbn [negb filter]; [exact IH|].
    now rewrite E.
  - intros v Hv. unfold history_of, st'. cbn [session chat_messages].
    induction (chat_messages (session st)) as [|m msgs IH]; [reflexivity|].
    cbn [filter]. destruct (ChatHistory.own u m) eqn:E; cbn [negb filter].
    + assert (Hm : ChatHistory.own v m = false).
      { unfold ChatHistory.own in *. apply String.eqb_eq in E. apply String.eqb_neq. congruence. }
      now rewrite Hm.
    + destruct (ChatHistory.own v m); now rewrite IH.
  - rewrite (Hrun st' eq_refl). unfold st'. cbn [session tasks chat_messages trace].
    f_equal. f_equal. f_equal.
    induction (chat_messages (session st)) as [|m msgs IH]; [reflexivity|].
    cbn [filter]. destruct (negb (ChatHistory.own u m)) eqn:E; cbn [filter]; [|exact IH].
    now rewrite E, IH.
Qed.

End HistoryEndpoints.

(** ** How the operations compose *)

Section Fallback.
Context `{Env}.

Lemma retry_loop_gives_up name p n attempts :
  only_logs p ->
  attempts <> [] ->
  forall st st',
    Engine.retry_loop name p n attempts st = (Return None, st') ->
    exists l, st' = logged l st /\ has_failed_attempt name l.
Proof.
  intros Hp. induction attempts as [|a rest IH]; intros Hne st st' E; [now destruct Hne|].
  cbn [Engine.retry_loop] in E. unfold try_except in E. unfold bind at 1 in E.
  destruct (Hp st) as (l0 & Hl0 & _).
  destruct (p st) as [[r|e] st1]; cbn [snd] in Hl0; subst st1; [discriminate E|].
  unfold bind at 1 in E. unfold emit at 1 in E.
  set (line := AttemptFailed name (a + 1) (exn_str e)) in *.
  assert (Hhere : forall l1, has_failed_attempt name (l0 ++ line :: l1)).
  { intros l1. exists (a + 1)%nat, (exn_str e). apply in_or_app. right. now left. }
  destruct (Engine.rate_limited e).
  - injection E as <-. exists (l0 ++ [line])%list. split; [|apply Hhere].
    unfold logged. cbn [session trace]. now rewrite <- app_assoc.
  - unfold bind at 1 in E.
    assert (Hpause : exists l1,
               (if (Z.of_nat a <? Z.of_nat n - 1)%Z
                then Engine.sleep (1 * (a + 1)) else ret tt)
                 (mkState (session (logged l0 st)) (trace (logged l0 st) ++ [line]))
               = (Return tt, logged (l0 ++ line :: l1) st)).
    { destruct (Z.of_nat a <? Z.of_nat n - 1)%Z.
      - exists [Sleep (1 * (a + 1))]. unfold Engine.sleep, emit, logged. cbn [session trace].
        now rewrite <- !app_assoc.
      - exists []. unfold ret, logged. cbn [session trace]. now rewrite <- !app_assoc. }
    destruct Hpause as (l1 & Hpause). rewrite Hpause in E.
    destruct rest as [|b rest'].
    + cbn [Engine.retry_loop] in E. injection E as <-. exists (l0 ++ line :: l1)%list.
      split; [reflexivity | apply Hhere].
    + destruct (IH ltac:(discriminate) _ _ E) as (l2 & -> & _).
      exists ((l0 ++ line :: l1) ++ l2)%list. split; [now rewrite logged_app|].
      destruct (Hhere l1) as (x & y & Hin). exists x, y. apply in_or_app. now left.
Qed.

(** X25.  The gateway gives the degraded-service answer only after both
    providers have failed: when it returns "fallback" for a retry count
    above zero, the log of the call has a failed attempt of OpenRouter and
    a failed attempt of Gemini. *)
Theorem fallback_means_both_providers_failed (messages : list message) (max_retries : nat)
    (st st' : State) (text : string) :
  (0 < max_retries)%nat ->
  Engine.dual_provider_chat_with messages max_retries st = (Return (text, "fallback"), st') ->
  exists l,
    st' = logged l st
    /\ has_failed_attempt "OpenRouter" l
    /\ has_failed_attempt "Gemini" l.
Proof.
  intros Hn E.
  assert (Hseq : seq 0 max_retries <> []) by (destruct max_retries; [lia | discriminate]).
  set (P := fun r : string * string =>
              In (snd r) (openrouter_labels ++ ["gemini/1.5-flash"])%list).
  assert (Hnot : forall x, P x -> snd x <> "fallback").
  { intros x Hx Hf. unfold P in Hx. rewrite Hf in Hx. cbn in Hx.
    repeat (destruct Hx as [Hx|Hx]; [discriminate Hx|]). destruct Hx. }
  assert (Hor : yields P (Engine.call_openrouter messages)).
  { unfold Engine.call_openrouter. destruct openrouter_client; [|apply yields_raise].
    intros s r s' Er. apply in_or_app. left.
    exact (try_models_label _ messages None (incl_refl _) s r s' Er). }
  assert (Hge : yields P (Engine.call_gemini messages)).
  { unfold Engine.call_gemini. destruct gemini_model; [|apply yields_raise].
    apply yields_bind. intros k. apply yields_bind. intros _.
    destruct (gemini_generate _ _); [|apply yields_raise].
    apply yields_ret. apply in_or_app. right. now left. }
  unfold Engine.dual_provider_chat_with, Engine.providers in E.
  cbn [Engine.providers_loop] in E. unfold bind in E.
  pose proof (retry_loop_yields P "OpenRouter" _ max_retries (seq 0 max_retries) Hor st) as Y1.
  pose proof (retry_loop_gives_up "OpenRouter" _ max_retries (seq 0 max_retries)
                (call_openrouter_only_logs messages) Hseq st) as G1.
  destruct (Engine.retry_loop "OpenRouter" _ _ _ st) as [[[x|]|e] st1]; [| |discriminate E].
  - exfalso. injection E as -> _. exact (Hnot _ (Y1 _ _ eq_refl) eq_refl).
  - destruct (G1 st1 eq_refl) as (l1 & -> & F1).
    pose proof (retry_loop_yields P "Gemini" _ max_retries (seq 0 max_retries) Hge
                  (logged l1 st)) as Y2.
    pose proof (retry_loop_gives_up "Gemini" _ max_retries (seq 0 max_retries)
                  (call_gemini_only_logs messages) Hseq (logged l1 st)) as G2.
    destruct (Engine.retry_loop "Gemini" _ _ _ (logged l1 st)) as [[[x|]|e] st2];
      [| |discriminate E].
    + exfalso. injection E as -> _. exact (Hnot _ (Y2 _ _ eq_refl) eq_refl).
    + destruct (G2 st2 eq_refl) as (l2 & -> & F2). cbn in E. unfold ret in E.
      injection E as _ <-. exists (l1 ++ l2)%list. split; [now rewrite logged_app|].
      destruct F1 as (a1 & e1 & I1), F2 as (a2 & e2 & I2). split.
      * exists a1, e1. apply in_or_app. now left.
      * exists a2, e2. apply in_or_app. now right.
Qed.

End Fallback.

Section ToolsAndHistory.
Context `{Env}.

(** X26.  No tool touches the chat history: whatever the tool, the
    arguments and the user, the messages stored after the call are those
    stored before it, and no message waits in the session. *)
Theorem tools_leave_the_chat_history (name arguments : json) (u : string) (st : State) :
  no_chat_pending (pending (session st)) ->
  chat_messages (session (snd (Tools.handle_tool_call name arguments u st)))
  = chat_messages (session st)
  /\ no_chat_pending (pending (session (snd (Tools.handle_tool_call name arguments u st)))).
Proof.
  intros Hno. apply (tool_effect_history u); [apply handle_tool_call_effect | exact Hno].
Qed.



End ToolsAndHistory.

(** ** The further properties at concrete inputs *)

(** X3 where OpenRouter is over its quota and Gemini answers. *)
Lemma gateway_labels_witness :
  let run := @Engine.dual_provider_chat_with Demo.throttled [] 2 Demo.empty in
  run = (Return ("Hello!", "gemini/1.5-flash"), snd run)
  /\ In "gemini/1.5-flash" provider_labels.
Proof.
  intros run.
  assert (E : run = (Return ("Hello!", "gemini/1.5-flash"), snd run)) by reflexivity.
  split; [exact E|].
  exact (proj1 (@gateway_labels Demo.throttled [] 2 Demo.empty (snd run) "Hello!"
                  "gemini/1.5-flash" E)).
Defined.

(** X4 where the first model is out of capacity and the second answers. *)
Lemma first_answer_wins_witness :
  let failed := ["meta-llama/llama-3.3-70b-instruct"]%list in
  let model := "google/gemini-2.0-flash-001" in
  let rest := ["mistralai/mistral-large-2411"; "openai/gpt-4o-mini"]%list in
  @openrouter_client Scenario.llama_down = true
  /\ (0 < 2)%nat
  /\ Engine.OPENROUTER_MODELS = (failed ++ model :: rest)%list
  /\ (forall k m, In m failed ->
        exists error, @openrouter_create Scenario.llama_down k m [] = ApiFail error)
  /\ @openrouter_create Scenario.llama_down
       (List.length (trace Demo.empty) + List.length failed) model [] = ApiOk "Hello!"
  /\ @Engine.dual_provider_chat_with Scenario.llama_down [] 2 Demo.empty
     = (Return ("Hello!", "openrouter/gemini-2.0-flash-001"),
        logged [OpenRouterCall "meta-llama/llama-3.3-70b-instruct" [];
                OpenRouterCall "google/gemini-2.0-flash-001" []] Demo.empty).
Proof.
  intros failed model rest.
  assert (H1 : @openrouter_client Scenario.llama_down = true) by reflexivity.
  assert (H2 : (0 < 2)%nat) by lia.
  assert (H3 : Engine.OPENROUTER_MODELS = (failed ++ model :: rest)%list) by reflexivity.
  assert (H4 : forall k m, In m failed ->
                 exists error, @openrouter_create Scenario.llama_down k m [] = ApiFail error).
  { intros k m [<-|[]]. eexists. reflexivity. }
  assert (H5 : @openrouter_create Scenario.llama_down
                 (List.length (trace Demo.empty) + List.length failed) model []
               = ApiOk "Hello!") by reflexivity.
  split; [exact H1|]. split; [exact H2|]. split; [exact H3|]. split; [exact H4|].
  split; [exact H5|].
  exact (@first_answer_wins Scenario.llama_down [] 2 Demo.empty failed rest model "Hello!"
           H1 H2 H3 H4 H5).
Defined.

(** X5 where every model fails with an error that names it. *)
Lemma openrouter_reports_the_last_error_witness :
  @openrouter_client Scenario.all_down = true
  /\ (forall k model,
        @openrouter_create Scenario.all_down k model []
        = ApiFail ("no capacity for " ++ model))
  /\ fst (@Engine.call_openrouter Scenario.all_down [] Demo.empty)
     = Raise (mkExn PlainException "no capacity for openai/gpt-4o-mini").
Proof.
  assert (H1 : @openrouter_client Scenario.all_down = true) by reflexivity.
  assert (H2 : forall k model,
                 @openrouter_create Scenario.all_down k model []
                 = ApiFail ("no capacity for " ++ model)) by reflexivity.
  split; [exact H1|]. split; [exact H2|].
  exact (f_equal fst (@openrouter_reports_the_last_error Scenario.all_down [] Demo.empty
                        (fun model => "no capacity for " ++ model) H1 H2)).
Defined.




(** X11 for alice completing her task 1. *)
Lemma complete_task_sets_the_flag_witness :
  let fields := [("task_id", JNum 1)]%list in
  let x := Demo.row 1 "alice" "Buy milk" in
  pending (session Demo.shared_table) = []
  /\ Py.lookup "task_id" fields = Some (JNum 1)
  /\ Db.get 1 (tasks (session Demo.shared_table)) = Some x
  /\ Task.user_id x = "alice"
  /\ Task.as_bool (JBool true) = Some true
  /\ fst (@Tools.complete_task Demo.outage (JDict fields) "alice" Demo.shared_table)
     = Return (Tools.success "Task 'Buy milk' has been completed." []).
Proof.
  intros fields x.
  assert (H1 : pending (session Demo.shared_table) = []) by reflexivity.
  assert (H2 : Py.lookup "task_id" fields = Some (JNum 1)) by reflexivity.
  assert (H3 : Db.get 1 (tasks (session Demo.shared_table)) = Some x) by reflexivity.
  assert (H4 : Task.user_id x = "alice") by reflexivity.
  assert (H5 : Task.as_bool (JBool true) = Some true) by reflexivity.
  split; [exact H1|]. split; [exact H2|]. split; [exact H3|]. split; [exact H4|].
  split; [exact H5|].
  exact (f_equal fst (proj1 (@complete_task_sets_the_flag Demo.outage fields "alice"
                               Demo.shared_table 1 x true H1 H2 H3 H4 H5))).
Defined.

(** X12 for alice deleting her task 2. *)
Lemma delete_task_removes_the_row_witness :
  let fields := [("task_id", JNum 2)]%list in
  let x := Demo.row 2 "alice" "Call mum" in
  pending (session Demo.shared_table) = []
  /\ Py.lookup "task_id" fields = Some (JNum 2)
  /\ 2%Z <> 0%Z
  /\ Db.get 2 (tasks (session Demo.shared_table)) = Some x
  /\ Task.user_id x = "alice"
  /\ @Tools.delete_task Demo.outage (JDict fields) "alice" Demo.shared_table
     = (Return (Tools.success "Task 'Call mum' has been deleted." []),
        mkState (mkSession [Demo.row 1 "alice" "Buy milk"; Demo.row 999 "bob" "Pay rent"]
                   [] []) []).
Proof.
  intros fields x.
  assert (H1 : pending (session Demo.shared_table) = []) by reflexivity.
  assert (H2 : Py.lookup "task_id" fields = Some (JNum 2)) by reflexivity.
  assert (H3 : 2%Z <> 0%Z) by discriminate.
  assert (H4 : Db.get 2 (tasks (session Demo.shared_table)) = Some x) by reflexivity.
  assert (H5 : Task.user_id x = "alice") by reflexivity.
  split; [exact H1|]. split; [exact H2|]. split; [exact H3|]. split; [exact H4|].
  split; [exact H5|].
  exact (proj1 (@delete_task_removes_the_row Demo.outage fields "alice" Demo.shared_table
                  2 x H1 H2 H3 H4 H5)).
Defined.


(** X14 for alice deleting by the title "MILK". *)
Lemma delete_task_by_title_takes_the_first_match_witness :
  let fields := [("title", JStr "MILK")]%list in
  pending (session Demo.shared_table) = []
  /\ Py.truthy JNull = false
  /\ Py.lookup "title" fields = Some (JStr "MILK")
  /\ "MILK" <> ""
  /\ plain "MILK" = true
  /\ @Tools.delete_task Demo.outage (JDict fields) "alice" Demo.shared_table
     = (Return (Tools.success "Task 'Buy milk' has been deleted." []),
        mkState (mkSession [Demo.row 2 "alice" "Call mum"; Demo.row 999 "bob" "Pay rent"]
                   [] []) []).
Proof.
  intros fields.
  assert (H1 : pending (session Demo.shared_table) = []) by reflexivity.
  assert (H2 : Py.truthy JNull = false) by reflexivity.
  assert (H3 : Py.lookup "title" fields = Some (JStr "MILK")) by reflexivity.
  assert (H4 : "MILK" <> "") by discriminate.
  assert (H5 : plain "MILK" = true) by reflexivity.
  split; [exact H1|]. split; [exact H2|]. split; [exact H3|]. split; [exact H4|].
  split; [exact H5|].
  exact (proj1 (proj2 (@delete_task_by_title_takes_the_first_match Demo.outage fields "alice"
                         Demo.shared_table "MILK" H1 H2 H3 H4 H5)
                  (Demo.row 1 "alice" "Buy milk") [] eq_refl)).
Defined.

(** X15 for alice raising the priority of her task 1. *)
Lemma update_task_changes_named_fields_only_witness :
  let fields := [("task_id", JNum 1); ("priority", JStr "high")]%list in
  let x := Demo.row 1 "alice" "Buy milk" in
  pending (session Demo.shared_table) = []
  /\ Py.lookup "task_id" fields = Some (JNum 1)
  /\ Db.get 1 (tasks (session Demo.shared_table)) = Some x
  /\ Task.user_id x = "alice"
  /\ (forall key v, In key ["title"; "description"; "priority"]%list ->
                    Py.lookup key fields = Some v -> exists s, v = JStr s)
  /\ fst (@Tools.update_task Demo.outage (JDict fields) "alice" Demo.shared_table)
     = Return (Tools.success "Task #1 has been updated: 'Buy milk' (high)" []).
Proof.
  intros fields x.
  assert (H1 : pending (session Demo.shared_table) = []) by reflexivity.
  assert (H2 : Py.lookup "task_id" fields = Some (JNum 1)) by reflexivity.
  assert (H3 : Db.get 1 (tasks (session Demo.shared_table)) = Some x) by reflexivity.
  assert (H4 : Task.user_id x = "alice") by reflexivity.
  assert (H5 : forall key v, In key ["title"; "description"; "priority"]%list ->
                             Py.lookup key fields = Some v -> exists s, v = JStr s).
  { intros key v [<-|[<-|[<-|[]]]] E; cbn in E; try discriminate E.
    injection E as <-. eexists. reflexivity. }
  split; [exact H1|]. split; [exact H2|]. split; [exact H3|]. split; [exact H4|].
  split; [exact H5|].
  exact (f_equal fst (proj1 (@update_task_changes_named_fields_only Demo.outage fields "alice"
                               Demo.shared_table 1 x H1 H2 H3 H4 H5))).
Defined.

(** X18 for "URGENT" between two keywords of low. *)
Lemma priority_suggester_precedence_witness :
  folds_into_ascii ("Maybe " ++ "URGENT" ++ " someday") = false
  /\ Skills.priority_suggester (JStr "URGENT") = Return "high"
  /\ Skills.priority_suggester (JStr ("Maybe " ++ "URGENT" ++ " someday")) = Return "high".
Proof.
  assert (H1 : folds_into_ascii ("Maybe " ++ "URGENT" ++ " someday") = false) by reflexivity.
  assert (H2 : Skills.priority_suggester (JStr "URGENT") = Return "high") by reflexivity.
  split; [exact H1|]. split; [exact H2|].
  exact (proj1 (proj2 (priority_suggester_precedence "URGENT" "Maybe " " someday" H1)) H2).
Defined.

(** X19 where the model answers with a bare number. *)
Lemma chat_endpoint_always_answers_witness :
  pending (session Demo.empty) = []
  /\ exists r st',
       @Chat.chat_endpoint (Demo.always "42") (Chat.mkRequest "add milk" "en") "alice"
         Demo.empty = (Return r, st')
       /\ (r = Chat.APOLOGY \/ is_reply r).
Proof.
  assert (H1 : pending (session Demo.empty) = []) by reflexivity.
  split; [exact H1|].
  exact (@chat_endpoint_always_answers (Demo.always "42") (Chat.mkRequest "add milk" "en")
           "alice" Demo.empty H1).
Defined.

(** X20 where the model asks for detect_language and then answers. *)
Lemma reply_reports_the_tools_run_witness :
  let world := Scenario.one_tool in
  let request := Chat.mkRequest "what language is hello" "en" in
  let run := @Chat.conversation world request "alice" Demo.empty in
  let r := Chat.reply "It is English." true (JStr "detect_language")
             (JStr "openrouter/llama-3.3-70b-instruct") in
  run = (Return r, snd run)
  /\ exists tool_names q text model,
       @tool_turns world "alice" 0 (@loop_start world request "alice" Demo.empty) tool_names q
       /\ ((List.length tool_names = Chat.MAX_TURNS /\ snd run = loop_state q)
           \/ ((List.length tool_names < Chat.MAX_TURNS)%nat
               /\ @last_turn world (S (List.length tool_names)) "alice" q (Return r) (snd run)))
       /\ r = Chat.reply text (negb (List.length tool_names =? 0)%nat)
                (List.last tool_names JNull) model.
Proof.
  intros world request run r.
  assert (H1 : run = (Return r, snd run)) by (vm_compute; reflexivity).
  split; [exact H1|].
  exact (@reply_reports_the_tools_run world request "alice" Demo.empty (snd run) r H1).
Defined.

(** X21 where the model answers 42. *)
Lemma malformed_tool_call_gets_the_apology_witness :
  let request := Chat.mkRequest "add milk" "en" in
  let st0 := with_user_message request "alice" Demo.empty in
  let gateway := @Engine.dual_provider_chat (Demo.always "42")
                   (@Chat.initial_messages (Demo.always "42") request "alice")
                   (logged [TurnStarted 1] st0) in
  pending (session Demo.empty) = []
  /\ gateway = (Return ("42", "openrouter/llama-3.3-70b-instruct"), snd gateway)
  /\ @Engine.extract_json (Demo.always "42") "42" = Return (JNum 42)
  /\ Py.truthy (JNum 42) = true
  /\ (forall fields, JNum 42 <> JDict fields)
  /\ exists st',
       @Chat.chat_endpoint (Demo.always "42") request "alice" Demo.empty
       = (Return Chat.APOLOGY, st')
       /\ session st' = session st0.
Proof.
  intros request st0 gateway.
  assert (H1 : pending (session Demo.empty) = []) by reflexivity.
  assert (H2 : gateway = (Return ("42", "openrouter/llama-3.3-70b-instruct"), snd gateway))
    by reflexivity.
  assert (H3 : @Engine.extract_json (Demo.always "42") "42" = Return (JNum 42)) by reflexivity.
  assert (H4 : Py.truthy (JNum 42) = true) by reflexivity.
  assert (H5 : forall fields, JNum 42 <> JDict fields) by (intros fields; discriminate).
  split; [exact H1|]. split; [exact H2|]. split; [exact H3|]. split; [exact H4|].
  split; [exact H5|].
  exact (@malformed_tool_call_gets_the_apology (Demo.always "42") request "alice" Demo.empty
           (snd gateway) "42" "openrouter/llama-3.3-70b-instruct" (JNum 42)
           H1 H2 H3 H4 (or_introl H5)).
Defined.


(** X23 for a request of bob, seen from alice. *)
Lemma chat_appends_to_the_own_history_witness :
  let request := Chat.mkRequest "hello" "en" in
  let run := @Chat.chat_endpoint Demo.outage request "bob" Scenario.two_histories in
  pending (session Scenario.two_histories) = []
  /\ run = (fst run, snd run)
  /\ ("alice" <> "bob" ->
      history_of "alice" (snd run) = history_of "alice" Scenario.two_histories).
Proof.
  intros request run.
  assert (H1 : pending (session Scenario.two_histories) = []) by reflexivity.
  assert (H2 : run = (fst run, snd run)) by apply surjective_pairing.
  split; [exact H1|]. split; [exact H2|].
  exact (proj1 (proj2 (@chat_appends_to_the_own_history Demo.outage request "bob" "alice"
                         Scenario.two_histories (snd run) (fst run) H1 H2))).
Defined.

(** X24 for alice, in a table that holds a message of bob too. *)
Lemma clear_chat_history_clears_one_user_witness :
  pending (session Scenario.two_histories) = []
  /\ @ChatHistory.clear_chat_history Demo.outage "alice" Scenario.two_histories
     = (Return ChatHistory.CLEARED,
        mkState (mkSession [] [ChatMessage.mk "bob" "user" "plan my day"] []) []).
Proof.
  assert (H1 : pending (session Scenario.two_histories) = []) by reflexivity.
  split; [exact H1|].
  exact (proj1 (@clear_chat_history_clears_one_user Demo.outage "alice"
                  Scenario.two_histories H1)).
Defined.

(** ** The compositions at concrete inputs *)

(** X25 at a total outage with the default retry count. *)
Lemma fallback_means_both_providers_failed_witness :
  let run := @Engine.dual_provider_chat_with Demo.outage [] 2 Demo.empty in
  (0 < 2)%nat
  /\ run = (Return (Engine.FALLBACK_MESSAGE, "fallback"), snd run)
  /\ exists l,
       snd run = logged l Demo.empty
       /\ has_failed_attempt "OpenRouter" l
       /\ has_failed_attempt "Gemini" l.
Proof.
  intros run.
  assert (H1 : (0 < 2)%nat) by lia.
  assert (H2 : run = (Return (Engine.FALLBACK_MESSAGE, "fallback"), snd run)) by reflexivity.
  split; [exact H1|]. split; [exact H2|].
  exact (@fallback_means_both_providers_failed Demo.outage [] 2 Demo.empty (snd run)
           Engine.FALLBACK_MESSAGE H1 H2).
Defined.

(** X26 for alice deleting her task 1. *)
Lemma tools_leave_the_chat_history_witness :
  let call := @Tools.handle_tool_call Demo.outage (JStr "delete_task")
                (JDict [("task_id", JNum 1)]) "alice" in
  no_chat_pending (pending (session Demo.shared_table))
  /\ chat_messages (session (snd (call Demo.shared_table)))
     = chat_messages (session Demo.shared_table).
Proof.
  intros call.
  assert (H1 : no_chat_pending (pending (session Demo.shared_table))) by constructor.
  split; [exact H1|].
  exact (proj1 (@tools_leave_the_chat_history Demo.outage (JStr "delete_task")
                  (JDict [("task_id", JNum 1)]) "alice" Demo.shared_table H1)).
Defined.

